(** * CO2 emissions dashboard: data processor and chart builder

    A shallow embedding of [src/data_processing.py] ([CO2DataProcessor]) and
    [src/visualizations.py] ([CO2Visualizer]), with the pandas operations
    they call written out as list functions.

    Numbers.  A pandas float64 cell is modelled by [float64]: NaN (which is
    also pandas' null for numeric columns), the two infinities, or a finite
    number kept as an exact rational.  Rounding, overflow and the sign of
    zero are not modelled.

    Tables.  An Observation table is a list of [row] records with the
    columns the specification names.  A frame made by [reset_index()] is a
    [Table]: named columns over rows of dynamically typed cells.  The
    methods of [CO2Visualizer] run on a heap of such objects: [copy()],
    filters and aggregations allocate, [t.columns = ...] and
    [t[name] = ...] write in place.

    Objects.  [ProcessorObject] has the methods of [CO2DataProcessor] on
    the object's two cached tables; [Dashboard] has the callback of
    [dashboard/app.py], which filters the module's table and calls the
    visualizer. *)

From Stdlib Require Import ZArith QArith Qcanon String Ascii List Bool Lia.
From Stdlib Require Import Sorting.Sorted Permutation OrderedTypeEx.
From stdpp Require Import base decidable option list strings numbers pretty sorting.

Local Open Scope string_scope.
Local Open Scope list_scope.
Local Open Scope Z_scope.

(** ** float64 cells *)

Inductive float64 :=
| FNaN
| FInf (neg : bool)
| FNum (q : Qc).

Definition Qc_ltb (a b : Qc) : bool := negb (Qle_bool b a).
Definition Qc_leb (a b : Qc) : bool := Qle_bool a b.
Definition Qc_is0 (a : Qc) : bool := Qeq_bool a 0%Q.

Definition isnan (x : float64) : bool :=
  match x with FNaN => true | _ => false end.

Definition notna (x : float64) : bool := negb (isnan x).

Definition fneg (x : float64) : float64 :=
  match x with
  | FNaN => FNaN
  | FInf s => FInf (negb s)
  | FNum q => FNum (- q)%Qc
  end.

Definition fadd (x y : float64) : float64 :=
  match x, y with
  | FNaN, _ | _, FNaN => FNaN
  | FInf s, FInf t => if Bool.eqb s t then FInf s else FNaN
  | FInf s, FNum _ => FInf s
  | FNum _, FInf t => FInf t
  | FNum a, FNum b => FNum (a + b)%Qc
  end.

Definition fsub (x y : float64) : float64 := fadd x (fneg y).

Definition fmul (x y : float64) : float64 :=
  match x, y with
  | FNaN, _ | _, FNaN => FNaN
  | FInf s, FInf t => FInf (xorb s t)
  | FInf s, FNum b => if Qc_is0 b then FNaN else FInf (xorb s (Qc_ltb b 0%Qc))
  | FNum a, FInf t => if Qc_is0 a then FNaN else FInf (xorb t (Qc_ltb a 0%Qc))
  | FNum a, FNum b => FNum (a * b)%Qc
  end.

(** True division of two float64 cells: a zero divisor gives an infinity
    (or NaN for 0/0), never an exception. *)
Definition fdiv (x y : float64) : float64 :=
  match x, y with
  | FNaN, _ | _, FNaN => FNaN
  | FInf _, FInf _ => FNaN
  | FInf s, FNum b => FInf (xorb s (Qc_ltb b 0%Qc))
  | FNum _, FInf _ => FNum 0%Qc
  | FNum a, FNum b =>
      if Qc_is0 b then (if Qc_is0 a then FNaN else FInf (Qc_ltb a 0%Qc))
      else FNum (a / b)%Qc
  end.

(** [x <= y] on float64; every comparison with NaN is false. *)
Definition fleb (x y : float64) : bool :=
  match x, y with
  | FNaN, _ | _, FNaN => false
  | FInf s, FInf t => s || negb t
  | FInf s, FNum _ => s
  | FNum _, FInf t => negb t
  | FNum a, FNum b => Qc_leb a b
  end.

Definition of_Z (z : Z) : float64 := FNum (Q2Qc (inject_Z z)).
Definition of_nat (n : nat) : float64 := of_Z (Z.of_nat n).

Definition fzero : float64 := FNum 0%Qc.

(** [Series.sum()] on the listed cells, no NaN skipped. *)
Definition fsum (xs : list float64) : float64 := fold_left fadd xs fzero.

(** [Series.sum()] with pandas' default [skipna=True]. *)
Definition sum_skipna (xs : list float64) : float64 := fsum (List.filter notna xs).

(** [Series.mean()] with [skipna=True]: NaN when nothing is left. *)
Definition mean_skipna (xs : list float64) : float64 :=
  let ys := List.filter notna xs in
  match ys with
  | [] => FNaN
  | _ => fdiv (fsum ys) (of_nat (length ys))
  end.

#[global] Instance float64_eq_dec : EqDecision float64.
Proof. solve_decision. Defined.

(** ** pandas kernels on lists *)

(** Stable insertion sort; [leb x y] says that [x] may stand before [y]. *)
Section Sorting.
Context {A : Type} (leb : A -> A -> bool).

Fixpoint insert_sorted (x : A) (l : list A) : list A :=
  match l with
  | [] => [x]
  | y :: l' => if leb x y then x :: l else y :: insert_sorted x l'
  end.

Definition sort_by (l : list A) : list A := fold_right insert_sorted [] l.

(** [x] may stand before [y]. *)
Definition before (x y : A) : Prop := leb x y = true.
End Sorting.

(** [DataFrame.head(n)]: the first [n] rows, or for a negative [n] all rows
    but the last [-n]. *)
Definition head {A : Type} (n : Z) (l : list A) : list A :=
  if 0 <=? n then take (Z.to_nat n) l
  else take (length l - Z.to_nat (- n))%nat l.

(** Order of [sort_values(ascending=False)] on a float64 column: greater
    values first, NaN last ([na_position='last']). *)
Definition desc_before (x y : float64) : bool :=
  isnan y || (notna x && fleb y x).

Definition sort_values_desc {A : Type} (col : A -> float64) (l : list A) : list A :=
  sort_by (fun a b => desc_before (col a) (col b)) l.

(** The order [sort_values(ascending=False)] leaves a column in. *)
Definition descending {A : Type} (col : A -> float64) (l : list A) : Prop :=
  StronglySorted (fun a b => desc_before (col a) (col b) = true) l.

(** [groupby(key)[val].agg()] with pandas' defaults [sort=True] and
    [dropna=True]: one entry per distinct non-null key, keys ascending,
    each aggregate taken over the group's cells in row order. *)
Section GroupBy.
Context {A K : Type} `{EqDecision K} (kleb : K -> K -> bool).

Definition group_keys (key : A -> option K) (l : list A) : list K :=
  sort_by kleb (remove_dups (omap key l)).

Definition group (key : A -> option K) (k : K) (l : list A) : list A :=
  List.filter (fun r => bool_decide (key r = Some k)) l.

(** The row's key is one of [ks]. *)
Definition in_keys (key : A -> option K) (ks : list K) (r : A) : bool :=
  match key r with
  | Some k => bool_decide (k ∈ ks)
  | None => false
  end.

Definition groupby_agg (agg : list float64 -> float64)
    (key : A -> option K) (val : A -> float64) (l : list A) : list (K * float64) :=
  map (fun k => (k, agg (map val (group key k l)))) (group_keys key l).
End GroupBy.

Definition pair_leb {A B : Type} `{EqDecision A} (la : A -> A -> bool) (lb : B -> B -> bool)
    (x y : A * B) : bool :=
  if decide (x.1 = y.1) then lb x.2 y.2 else la x.1 y.1.

(** [groupby(key)[val].shift(1)]: for every row the [val] of the previous
    row (in the table's current order) with the same key, NaN when there
    is none. *)
Section Shift.
Context {A K : Type} `{EqDecision K} (key : A -> K) (val : A -> float64).

(** [seen] holds the rows already passed, the latest first. *)
Fixpoint last_seen (k : K) (seen : list A) : float64 :=
  match seen with
  | [] => FNaN
  | r :: seen' => if decide (key r = k) then val r else last_seen k seen'
  end.

Fixpoint shift1_from (seen : list A) (l : list A) : list float64 :=
  match l with
  | [] => []
  | r :: l' => last_seen (key r) seen :: shift1_from (r :: seen) l'
  end.

Definition groupby_shift1 (l : list A) : list float64 := shift1_from [] l.
End Shift.

(** ** Text cells *)

(** ASCII characters that Python's [str.strip()] removes. *)
Definition is_space (a : ascii) : bool :=
  let n := Z.of_N (N_of_ascii a) in
  ((9 <=? n) && (n <=? 13)) || ((28 <=? n) && (n <=? 32)).

Fixpoint lstrip (s : string) : string :=
  match s with
  | String a s' => if is_space a then lstrip s' else s
  | EmptyString => EmptyString
  end.

Fixpoint rstrip (s : string) : string :=
  match s with
  | EmptyString => EmptyString
  | String a s' =>
      match rstrip s' with
      | EmptyString => if is_space a then EmptyString else String a EmptyString
      | t => String a t
      end
  end.

(** [str.strip()] *)
Definition strip (s : string) : string := rstrip (lstrip s).

(** Nothing for [lstrip] to remove. *)
Definition starts_clean (s : string) : Prop :=
  match s with
  | EmptyString => True
  | String a _ => is_space a = false
  end.

Definition digit_of (a : ascii) : option Z :=
  let n := Z.of_N (N_of_ascii a) in
  if (48 <=? n) && (n <=? 57) then Some (n - 48) else None.

(** Value of a non-empty run of decimal digits. *)
Fixpoint digits_from (acc : Z) (s : string) : option Z :=
  match s with
  | EmptyString => Some acc
  | String a s' =>
      match digit_of a with
      | Some d => digits_from (10 * acc + d) s'
      | None => None
      end
  end.

Definition digits (s : string) : option Z :=
  match s with
  | EmptyString => None
  | _ => digits_from 0 s
  end.

Fixpoint split_on (sep : ascii) (s : string) : list string :=
  match s with
  | EmptyString => [EmptyString]
  | String a s' =>
      if Ascii.eqb a sep then EmptyString :: split_on sep s'
      else match split_on sep s' with
           | [] => [String a EmptyString]
           | t :: ts => String a t :: ts
           end
  end.

(** ** Timestamps and the fixed date format *)

Record timestamp := Timestamp { ts_year : Z; ts_month : Z; ts_day : Z }.

#[global] Instance timestamp_eq_dec : EqDecision timestamp.
Proof. solve_decision. Defined.

Definition is_leap (y : Z) : bool :=
  ((y mod 4 =? 0) && negb (y mod 100 =? 0)) || (y mod 400 =? 0).

Definition days_in_month (y m : Z) : Z :=
  if m =? 2 then (if is_leap y then 29 else 28)
  else if (m =? 4) || (m =? 6) || (m =? 9) || (m =? 11) then 30
  else 31.

(** Dates a nanosecond-resolution Timestamp can hold (at midnight). *)
Definition in_ns_bounds (y m d : Z) : bool :=
  let k := (y * 100 + m) * 100 + d in
  (16770922 <=? k) && (k <=? 22620411).

(** [%d]: [3[0-1]|[1-2]\d|0[1-9]|[1-9]| [1-9]] *)
Definition parse_day (s : string) : option Z :=
  match s with
  | String a EmptyString =>
      match digit_of a with
      | Some d => if 1 <=? d then Some d else None
      | None => None
      end
  | String a (String b EmptyString) =>
      if Ascii.eqb a " "%char then
        match digit_of b with
        | Some d => if 1 <=? d then Some d else None
        | None => None
        end
      else
        match digit_of a, digit_of b with
        | Some x, Some y =>
            let d := 10 * x + y in
            if (1 <=? d) && (d <=? 31) then Some d else None
        | _, _ => None
        end
  | _ => None
  end.

(** [%m]: [1[0-2]|0[1-9]|[1-9]] *)
Definition parse_month (s : string) : option Z :=
  match s with
  | String a EmptyString =>
      match digit_of a with
      | Some d => if 1 <=? d then Some d else None
      | None => None
      end
  | String a (String b EmptyString) =>
      match digit_of a, digit_of b with
      | Some x, Some y =>
          let d := 10 * x + y in
          if (1 <=? d) && (d <=? 12) then Some d else None
      | _, _ => None
      end
  | _ => None
  end.

(** [%Y]: exactly four digits *)
Definition parse_year (s : string) : option Z :=
  if (String.length s =? 4)%nat then digits s else None.

(** [pd.to_datetime(s, format='%d/%m/%Y', errors='coerce')] on one text
    cell: [None] is NaT. *)
Definition strptime_dmy (s : string) : option timestamp :=
  match split_on "/"%char s with
  | [ds; ms; ys] =>
      match parse_day ds, parse_month ms, parse_year ys with
      | Some d, Some m, Some y =>
          if (d <=? days_in_month y m) && in_ns_bounds y m d
          then Some (Timestamp y m d) else None
      | _, _, _ => None
      end
  | _ => None
  end.

(** ** Numeric text *)

Definition Qc_of_Z (z : Z) : Qc := Q2Qc (inject_Z z).

Definition pow10 (e : Z) : Qc :=
  if 0 <=? e then Qc_of_Z (10 ^ e)
  else (/ Qc_of_Z (10 ^ (- e)))%Qc.

(** Splits [s] at the first character for which [p] holds. *)
Fixpoint break (p : ascii -> bool) (s : string) : string * string :=
  match s with
  | EmptyString => (EmptyString, EmptyString)
  | String a s' =>
      if p a then (EmptyString, s)
      else let '(u, v) := break p s' in (String a u, v)
  end.

Definition is_char (c : ascii) (a : ascii) : bool := Ascii.eqb a c.

Definition parse_sign (s : string) : bool * string :=
  match s with
  | String a s' =>
      if Ascii.eqb a "-"%char then (true, s')
      else if Ascii.eqb a "+"%char then (false, s')
      else (false, s)
  | EmptyString => (false, s)
  end.

(** Unsigned mantissa [ddd], [ddd.], [ddd.ddd] or [.ddd]. *)
Definition parse_mantissa (s : string) : option Qc :=
  let '(ip, rest) := break (is_char "."%char) s in
  match rest with
  | EmptyString => Qc_of_Z <$> digits ip
  | String _ fp =>
      match ip, fp with
      | EmptyString, EmptyString => None
      | _, _ =>
          match digits_from 0 ip, digits_from 0 fp with
          | Some i, Some f =>
              Some (Qc_of_Z i + Qc_of_Z f * pow10 (- Z.of_nat (String.length fp)))%Qc
          | _, _ => None
          end
      end
  end.

Definition parse_exponent (s : string) : option Z :=
  let '(neg, ds) := parse_sign s in
  (fun e => if neg then - e else e) <$> digits ds.

Definition is_e (a : ascii) : bool := Ascii.eqb a "e"%char || Ascii.eqb a "E"%char.

Definition lower (a : ascii) : ascii :=
  let n := Z.of_N (N_of_ascii a) in
  if (65 <=? n) && (n <=? 90) then ascii_of_N (N_of_ascii a + 32) else a.

Fixpoint lowercase (s : string) : string :=
  match s with
  | EmptyString => EmptyString
  | String a s' => String (lower a) (lowercase s')
  end.

(** [pd.to_numeric(s, errors='coerce')] on one text cell: decimal
    literals, [inf]/[infinity] and, like everything else, NaN. *)
Definition parse_number (s : string) : float64 :=
  let '(neg, body) := parse_sign (strip s) in
  let low := lowercase body in
  if String.eqb low "inf" || String.eqb low "infinity" then FInf neg
  else
    let '(mant, rest) := break is_e body in
    let exponent :=
      match rest with
      | EmptyString => Some 0
      | String _ es => parse_exponent es
      end in
    match parse_mantissa mant, exponent with
    | Some m, Some e =>
        let q := (m * pow10 e)%Qc in
        FNum (if neg then (- q)%Qc else q)
    | _, _ => FNaN
    end.

(** ** Observation tables *)

(** One Observation.  [None] is a null cell (NaN in an object column, NaT
    in the date column); the null of the [value] column is [FNaN]. *)
Record row := Row {
  country : option string;
  sector : option string;
  date : option timestamp;
  year : option Z;
  month : option Z;
  value : float64
}.

Definition DataFrame := list row.

#[global] Instance row_eq_dec : EqDecision row.
Proof. solve_decision. Defined.

(** A cell of the [date] column before cleaning: text as read from the
    file, a Timestamp (a table that went through [to_datetime] before), or
    null. *)
Inductive date_cell :=
| DateText (s : string)
| DateStamp (t : timestamp)
| DateNull.

(** A cell of the [value] column before cleaning: a number, or text when
    the column could not be read as numbers. *)
Inductive value_cell :=
| ValueNum (x : float64)
| ValueText (s : string).

Record raw_row := RawRow {
  raw_country : option string;
  raw_sector : option string;
  raw_date : date_cell;
  raw_value : value_cell
}.

(** [raw_data]: the columns [country], [date] and [value] are there (they
    are the file's declared interface); [sector] is tested for by the
    code. *)
Record RawFrame := mkRawFrame {
  has_sector : bool;
  raw_rows : list raw_row
}.

Module CO2DataProcessor.

(** [pd.to_datetime(df['date'], format='%d/%m/%Y', errors='coerce')] *)
Definition to_datetime (c : date_cell) : option timestamp :=
  match c with
  | DateText s => strptime_dmy s
  | DateStamp t => Some t
  | DateNull => None
  end.

(** [pd.to_numeric(df['value'], errors='coerce')] *)
Definition to_numeric (v : value_cell) : float64 :=
  match v with
  | ValueNum x => x
  | ValueText s => parse_number s
  end.

(** Lines 54-60: the typed table with [year] and [month] derived. *)
Definition coerce (r : raw_row) : row :=
  let d := to_datetime (raw_date r) in
  {| country := raw_country r;
     sector := raw_sector r;
     date := d;
     year := ts_year <$> d;
     month := ts_month <$> d;
     value := to_numeric (raw_value r) |}.

(** A row that [dropna(subset=['country', 'date', 'value'])] keeps. *)
Definition critical_present (r : row) : bool :=
  bool_decide (country r <> None) && bool_decide (date r <> None) && notna (value r).

Definition dropna_critical (df : DataFrame) : DataFrame :=
  List.filter critical_present df.

(** Lines 69-70: [.str.strip()] on [country] and [sector]; without a
    [sector] column the new column is all null. *)
Definition strip_names (with_sector : bool) (r : row) : row :=
  {| country := strip <$> country r;
     sector := if with_sector then strip <$> sector r else None;
     date := date r;
     year := year r;
     month := month r;
     value := value r |}.

(** [clean_data]: the cleaned table ([processed_data]) and the number
    of removed rows it prints. *)
Definition clean_data (raw : RawFrame) : DataFrame * nat :=
  let df := map coerce (raw_rows raw) in
  let initial_rows := length df in
  let df := dropna_critical df in
  let removed_rows := (initial_rows - length df)%nat in
  let df := map (strip_names (has_sector raw)) df in
  (df, removed_rows).

(** A cleaned table handed back as [raw_data]: it carries Timestamps
    and numbers, and has a [sector] column. *)
Definition as_raw_row (r : row) : raw_row :=
  {| raw_country := country r;
     raw_sector := sector r;
     raw_date := match date r with Some t => DateStamp t | None => DateNull end;
     raw_value := ValueNum (value r) |}.

Definition as_raw_data (df : DataFrame) : RawFrame :=
  {| has_sector := true; raw_rows := map as_raw_row df |}.

(** Group keys *)
Definition country_year (r : row) : option (string * Z) :=
  match country r, year r with
  | Some c, Some y => Some (c, y)
  | _, _ => None
  end.

Definition country_year_leb : string * Z -> string * Z -> bool :=
  pair_leb String.leb Z.leb.

(** [df.groupby(['country', 'year'])['value'].sum().reset_index()] *)
Definition yearly_totals (df : DataFrame) : list (string * Z * float64) :=
  groupby_agg country_year_leb sum_skipna country_year value df.

(** *** add_derived_metrics *)

Record population_row := PopulationRow {
  pop_country : option string;
  pop_year : option Z;
  population : float64
}.

Record gdp_row := GdpRow {
  gdp_country : option string;
  gdp_year : option Z;
  gdp : float64
}.

(** A row of the table [add_derived_metrics] returns; [None] in the
    last four fields: the column does not exist. *)
Record metrics_row := MetricsRow {
  obs : row;
  total_emissions : float64;
  m_population : option float64;
  emissions_per_capita : option float64;
  m_gdp : option float64;
  emission_intensity : option float64
}.

(** [left.merge(right, on=['country', 'year'], how='left')]: every left
    row once per matching right row, in the right table's order, and
    once with nulls when nothing matches.  Null keys match null keys. *)
Definition merge_left {L R O : Type} (lkey : L -> option string * option Z)
    (rkey : R -> option string * option Z) (join : L -> option R -> O)
    (left : list L) (right : list R) : list O :=
  concat (map (fun l =>
    match List.filter (fun r => bool_decide (rkey r = lkey l)) right with
    | [] => [join l None]
    | ms => map (fun r => join l (Some r)) ms
    end) left).

Definition with_total (r : row) (t : option (string * Z * float64)) : metrics_row :=
  {| obs := r;
     total_emissions := match t with Some (_, v) => v | None => FNaN end;
     m_population := None; emissions_per_capita := None;
     m_gdp := None; emission_intensity := None |}.

Definition with_population (m : metrics_row) (p : option population_row) : metrics_row :=
  let pop := match p with Some p => population p | None => FNaN end in
  {| obs := obs m;
     total_emissions := total_emissions m;
     m_population := Some pop;
     emissions_per_capita := Some (fdiv (total_emissions m) pop);
     m_gdp := m_gdp m; emission_intensity := emission_intensity m |}.

Definition with_gdp (m : metrics_row) (g : option gdp_row) : metrics_row :=
  let gd := match g with Some g => gdp g | None => FNaN end in
  {| obs := obs m;
     total_emissions := total_emissions m;
     m_population := m_population m;
     emissions_per_capita := emissions_per_capita m;
     m_gdp := Some gd;
     emission_intensity := Some (fdiv (total_emissions m) gd) |}.

Definition row_key (r : row) : option string * option Z := (country r, year r).

Definition add_derived_metrics (df : DataFrame)
    (population_data : option (list population_row))
    (gdp_data : option (list gdp_row)) : list metrics_row :=
  let totals := yearly_totals df in
  let df := merge_left row_key (fun t => (Some t.1.1, Some t.1.2)) with_total df totals in
  let df :=
    match population_data with
    | Some pd =>
        merge_left (fun m => row_key (obs m))
          (fun p => (pop_country p, pop_year p)) with_population df pd
    | None => df
    end in
  match gdp_data with
  | Some gd =>
      merge_left (fun m => row_key (obs m))
        (fun g => (gdp_country g, gdp_year g)) with_gdp df gd
  | None => df
  end.

(** *** calculate_growth_rates *)

Record growth_row := GrowthRow {
  g_country : string;
  g_year : Z;
  g_value : float64;
  prev_year_emissions : float64;
  growth_rate : float64
}.

(** [(value - prev) / prev * 100] *)
Definition pct_change (v prev : float64) : float64 :=
  fmul (fdiv (fsub v prev) prev) (of_Z 100).

Definition calculate_growth_rates (df : DataFrame) : list growth_row :=
  let yearly := yearly_totals df in
  let yearly := sort_by (fun a b => country_year_leb a.1 b.1) yearly in
  let prev := groupby_shift1 (fun t : string * Z * float64 => t.1.1) snd yearly in
  zip_with (fun (t : string * Z * float64) p =>
              {| g_country := t.1.1; g_year := t.1.2; g_value := t.2;
                 prev_year_emissions := p;
                 growth_rate := pct_change t.2 p |})
           yearly prev.

(** *** get_top_emitters *)

(** Python truth value of an [Optional[int]] / [Optional[str]] argument. *)
Definition truthy_int (o : option Z) : option Z :=
  match o with
  | Some y => if y =? 0 then None else Some y
  | None => None
  end.

Definition truthy_str (o : option string) : option string :=
  match o with
  | Some "" => None
  | other => other
  end.

Definition filter_year (y : Z) (df : DataFrame) : DataFrame :=
  List.filter (fun r => bool_decide (year r = Some y)) df.

Definition filter_country (c : string) (df : DataFrame) : DataFrame :=
  List.filter (fun r => bool_decide (country r = Some c)) df.

(** Rows [(country, total_emissions)]. *)
Definition get_top_emitters (n : Z) (by_year : option Z) (df : DataFrame)
    : list (string * float64) :=
  let df :=
    match truthy_int by_year with
    | Some y => filter_year y df
    | None => df
    end in
  head n (sort_values_desc snd (groupby_agg String.leb sum_skipna country value df)).

(** *** get_sectoral_breakdown *)

(** Rows [(sector, total_emissions)]. *)
Definition get_sectoral_breakdown (country : option string) (df : DataFrame)
    : list (string * float64) :=
  let df :=
    match truthy_str country with
    | Some c => filter_country c df
    | None => df
    end in
  sort_values_desc snd (groupby_agg String.leb sum_skipna sector value df).

End CO2DataProcessor.

(** ** Derived frames, figures and the object store *)

(** A cell of a derived frame (the result of [reset_index()], with the
    columns later written into it). *)
Inductive cell :=
| CNull
| CStr (s : string)
| CInt (z : Z)
| CFloat (x : float64).

#[global] Instance cell_eq_dec : EqDecision cell.
Proof. solve_decision. Defined.

Record Table := mkTable {
  columns : list string;
  rows : list (list cell)
}.

(** [DataFrame.pivot] result: row labels, column labels, matrix. *)
Record Pivot := mkPivot {
  p_index : list cell;
  p_columns : list cell;
  p_values : list (list cell)
}.

Inductive chart_kind := Bar | HBar | Line | Area | Choropleth | Pie | Heatmap.

(** A chart specification: what the plotting calls are given. *)
Record Figure := mkFigure {
  fig_kind : chart_kind;
  fig_title : string;
  fig_x : list cell;
  fig_y : list cell;
  fig_series : list cell;
  fig_z : list (list cell);
  fig_labels : list (string * string);
  fig_color_scale : option string;
  fig_height : option Z
}.

Inductive pyobj :=
| ObjData (df : DataFrame)
| ObjTable (t : Table)
| ObjPivot (p : Pivot).

Inductive exn :=
| UnboundLocalError (name : string)
| KeyError (name : string)
| TypeError (what : string)
| ValueError (what : string).

Inductive result (A : Type) :=
| Ok (a : A)
| Raise (e : exn).
Arguments Ok {A} a.
Arguments Raise {A} e.

Definition result_bind {A B : Type} (r : result A) (k : A -> result B) : result B :=
  match r with
  | Ok a => k a
  | Raise e => Raise e
  end.

Definition of_option {A : Type} (e : exn) (o : option A) : result A :=
  match o with
  | Some a => Ok a
  | None => Raise e
  end.

(** The heap of frames; a reference is an index into it. *)
Abbreviation heap := (list pyobj).
Definition ref := nat.

(** Computations that read and write the heap and may raise. *)
Definition M (A : Type) : Type := heap -> result A * heap.

#[global] Instance M_ret : MRet M := fun A a h => (Ok a, h).
#[global] Instance M_bind : MBind M := fun A B k m h =>
  match m h with
  | (Ok a, h') => k a h'
  | (Raise e, h') => (Raise e, h')
  end.

Definition raise {A : Type} (e : exn) : M A := fun h => (Raise e, h).

Definition lift {A : Type} (r : result A) : M A := fun h => (r, h).

(** A new object, never aliasing an existing one. *)
Definition new (o : pyobj) : M ref := fun h => (Ok (length h), h ++ [o]).

Definition deref (r : ref) : M pyobj := fun h =>
  match h !! r with
  | Some o => (Ok o, h)
  | None => (Raise (ValueError "dangling reference"), h)
  end.

(** Where a method finds an object: in the heap it was started on, or among
    the objects it has allocated since. *)
Definition found (h k : heap) (r : ref) (o : pyobj) : Prop :=
  h !! r = Some o \/ exists i, r = (length h + i)%nat /\ k !! i = Some o.

(** In-place update of the object behind [r]. *)
Definition assign (r : ref) (o : pyobj) : M unit := fun h => (Ok tt, <[r := o]> h).

Definition load_data (r : ref) : M DataFrame :=
  o ← deref r;
  match o with
  | ObjData df => mret df
  | _ => raise (TypeError "DataFrame of observations expected")
  end.

Definition load_table (r : ref) : M Table :=
  o ← deref r;
  match o with
  | ObjTable t => mret t
  | _ => raise (TypeError "derived frame expected")
  end.

Definition load_pivot (r : ref) : M Pivot :=
  o ← deref r;
  match o with
  | ObjPivot p => mret p
  | _ => raise (TypeError "pivot expected")
  end.

(** *** Reading columns of a derived frame *)

Fixpoint index_of (name : string) (cols : list string) : option nat :=
  match cols with
  | [] => None
  | c :: cols' => if String.eqb c name then Some 0%nat else S <$> index_of name cols'
  end.

Definition cell_at (i : nat) (r : list cell) : cell := default CNull (r !! i).

(** [t[name]] *)
Definition column (name : string) (t : Table) : result (list cell) :=
  match index_of name (columns t) with
  | Some i => Ok (map (cell_at i) (rows t))
  | None => Raise (KeyError name)
  end.

Definition float_of (c : cell) : option float64 :=
  match c with
  | CFloat x => Some x
  | CInt z => Some (of_Z z)
  | CNull => Some FNaN
  | CStr _ => None
  end.

Definition int_of (c : cell) : option (option Z) :=
  match c with
  | CInt z => Some (Some z)
  | CNull => Some None
  | _ => None
  end.

Definition str_of (c : cell) : option (option string) :=
  match c with
  | CStr s => Some (Some s)
  | CNull => Some None
  | _ => None
  end.

(** A column read as numbers, integers or text; a cell of another type makes
    the operation on the column fail. *)
Definition typed_column {A : Type} (conv : cell -> option A) (what : string)
    (name : string) (t : Table) : result (list A) :=
  result_bind (column name t) (fun cs => of_option (TypeError what) (mapM conv cs)).

Definition float_column := typed_column float_of "numeric column expected".
Definition int_column := typed_column int_of "integer column expected".
Definition str_column := typed_column str_of "text column expected".

(** *** Row operations on a derived frame *)

(** [t[mask]] *)
Definition filter_mask {A : Type} (mask : list bool) (l : list A) : list A :=
  (List.filter fst (zip mask l)).*2.

(** Stable sort of the rows on a key column read beside them. *)
Definition sort_rows_on {K A : Type} (leb : K -> K -> bool) (keys : list K) (l : list A) : list A :=
  (sort_by (fun a b => leb a.1 b.1) (zip keys l)).*2.

(** Nulls sort last. *)
Definition opt_leb {K : Type} (leb : K -> K -> bool) (a b : option K) : bool :=
  match a, b with
  | Some x, Some y => leb x y
  | _, None => true
  | None, Some _ => false
  end.

(** [t[name] = series], in place when written back with [assign]: a new
    last column, or the existing column of that name replaced. *)
Definition set_cell (i : nat) (c : cell) (r : list cell) : list cell := <[i := c]> r.

Definition setitem (name : string) (series : list cell) (t : Table) : Table :=
  match index_of name (columns t) with
  | Some i => mkTable (columns t) (zip_with (set_cell i) series (rows t))
  | None => mkTable (columns t ++ [name]) (zip_with (fun c r => r ++ [c]) series (rows t))
  end.

(** [t.columns = names] *)
Definition set_columns (names : list string) (t : Table) : result Table :=
  if (length names =? length (columns t))%nat then Ok (mkTable names (rows t))
  else Raise (ValueError "Length mismatch").

(** [reset_index()] of a grouped aggregate with one or two key columns. *)
Definition row_by1 {K : Type} (enc : K -> cell) (e : K * float64) : list cell :=
  [enc e.1; CFloat e.2].

Definition row_by2 {K1 K2 : Type} (enc1 : K1 -> cell) (enc2 : K2 -> cell)
    (e : K1 * K2 * float64) : list cell :=
  [enc1 e.1.1; enc2 e.1.2; CFloat e.2].

Definition table_by1 {K : Type} (enc : K -> cell) (kname vname : string)
    (l : list (K * float64)) : Table :=
  mkTable [kname; vname] (map (row_by1 enc) l).

Definition table_by2 {K1 K2 : Type} (enc1 : K1 -> cell) (enc2 : K2 -> cell)
    (k1name k2name vname : string) (l : list (K1 * K2 * float64)) : Table :=
  mkTable [k1name; k2name; vname] (map (row_by2 enc1 enc2) l).

(** Ascending order of cells of one column, nulls last.  A column holds
    cells of one type; between types the order is text after numbers. *)
Definition cell_leb (a b : cell) : bool :=
  match a, b with
  | _, CNull => true
  | CNull, _ => false
  | CStr x, CStr y => String.leb x y
  | CInt x, CInt y => x <=? y
  | CFloat x, CFloat y => isnan y || (notna x && fleb x y)
  | CStr _, _ => false
  | _, CStr _ => true
  | CInt x, CFloat y => isnan y || fleb (of_Z x) y
  | CFloat x, CInt y => notna x && fleb x (of_Z y)
  end.

Definition isnull (c : cell) : bool :=
  match c with
  | CNull | CFloat FNaN => true
  | _ => false
  end.

(** [t.pivot(index=i, columns=c, values=v)]: labels ascending and
    distinct, a missing combination left as NaN, a repeated one
    refused. *)
Definition pivot (iname cname vname : string) (t : Table) : result Pivot :=
  result_bind (column iname t) (fun ix =>
  result_bind (column cname t) (fun cs =>
  result_bind (column vname t) (fun vs =>
    let entries := zip (zip ix cs) vs in
    if bool_decide (NoDup (zip ix cs)) then
      let idx := sort_by cell_leb (remove_dups (List.filter (fun c => negb (isnull c)) ix)) in
      let cols := sort_by cell_leb (remove_dups (List.filter (fun c => negb (isnull c)) cs)) in
      Ok (mkPivot idx cols
            (map (fun i => map (fun c =>
                    match List.filter (fun e => bool_decide (e.1 = (i, c))) entries with
                    | e :: _ => e.2
                    | [] => CFloat FNaN
                    end) cols) idx))
    else Raise (ValueError "Index contains duplicate entries, cannot reshape")))).

(** *** Plotting calls *)

(** A column named in a plotting call. *)
Definition px_column (name : string) (t : Table) : result (list cell) :=
  match column name t with
  | Ok cs => Ok cs
  | Raise _ => Raise (ValueError name)
  end.

(** [px.bar], [px.line], [px.area], [px.pie], [px.choropleth]: the
    columns bound to the two axes and, when given, the colour / series /
    animation column. *)
Definition express (kind : chart_kind) (t : Table) (x y : string) (series : option string)
    (title : string) (labels : list (string * string)) (scale : option string)
    : result Figure :=
  result_bind (px_column x t) (fun xs =>
  result_bind (px_column y t) (fun ys =>
  result_bind (match series with Some c => px_column c t | None => Ok [] end) (fun ss =>
  Ok (mkFigure kind title xs ys ss [] labels scale None)))).

(** [fig.update_layout(height=h, ...)] *)
Definition update_layout (h : Z) (f : Figure) : Figure :=
  mkFigure (fig_kind f) (fig_title f) (fig_x f) (fig_y f) (fig_series f) (fig_z f)
           (fig_labels f) (fig_color_scale f) (Some h).

(** [Series.max()], nulls skipped; null for an empty column. *)
Definition max_skipna (ys : list (option Z)) : option Z :=
  fold_right (fun y acc =>
    match y, acc with
    | Some a, Some b => Some (Z.max a b)
    | Some a, None => Some a
    | None, _ => acc
    end) None ys.

(** [year >= bound] on one cell; a null on either side is false. *)
Definition opt_ge (y bound : option Z) : bool :=
  match y, bound with
  | Some a, Some b => b <=? a
  | _, _ => false
  end.

(** [groupby(key)[val].shift(1)] on columns read from a frame: rows with a
    null key belong to no group. *)
Definition shift1_by {K : Type} `{EqDecision K} (keys : list (option K)) (vals : list float64)
    : list float64 :=
  zip_with (fun (k : option K) p => match k with Some _ => p | None => FNaN end) keys
           (groupby_shift1 fst snd (zip keys vals)).

Module CO2Visualizer.
Import CO2DataProcessor.

Record Self := mkSelf {
  data : ref;
  color_scale : string;
  theme_colors : list (string * string)
}.

(** [__init__]: keeps the reference it is given, no copy. *)
Definition init (data : ref) : Self :=
  {| data := data;
     color_scale := "Reds";
     theme_colors := [("primary", "#d62728"); ("secondary", "#2ca02c");
                      ("accent", "#ff7f0e"); ("background", "#1a1a1a");
                      ("text", "#ffffff")] |}.

(** [df.copy()] *)
Definition copy (r : ref) : M ref :=
  df ← load_data r; new (ObjData df).

(** [df[cond]] on an observation frame: a new frame. *)
Definition getitem (cond : row -> bool) (r : ref) : M ref :=
  df ← load_data r; new (ObjData (List.filter cond df)).

(** [t.columns = names], in place. *)
Definition rename_columns (r : ref) (names : list string) : M unit :=
  t ← load_table r;
  t' ← lift (set_columns names t);
  assign r (ObjTable t').

(** [t[name] = series], in place. *)
Definition setitem_at (r : ref) (name : string) (series : list cell) : M unit :=
  t ← load_table r;
  assign r (ObjTable (setitem name series t)).

Definition isin (countries : list string) (r : row) : bool :=
  match country r with
  | Some c => bool_decide (c ∈ countries)
  | None => false
  end.

Definition year_is (y : Z) (r : row) : bool := bool_decide (year r = Some y).
Definition country_is (c : string) (r : row) : bool := bool_decide (country r = Some c).

Definition year_country (r : row) : option (Z * string) :=
  match year r, country r with
  | Some y, Some c => Some (y, c)
  | _, _ => None
  end.

Definition year_sector (r : row) : option (Z * string) :=
  match year r, sector r with
  | Some y, Some c => Some (y, c)
  | _, _ => None
  end.

Definition create_top_emitters_bar (self : Self) (n : Z) (year : option Z) : M Figure :=
  df ← copy (data self);
  '(df, title) ←
    match truthy_int year with
    | Some y =>
        df ← getitem (year_is y) df;
        mret (df, "Top " +:+ pretty n +:+ " CO2 Emitting Countries - " +:+ pretty y)
    | None => mret (df, "Top " +:+ pretty n +:+ " CO2 Emitting Countries (All Time)")
    end;
  d ← load_data df;
  top_emitters ← new (ObjTable (table_by1 CStr "country" "value"
      (head n (sort_values_desc snd (groupby_agg String.leb sum_skipna country value d)))));
  rename_columns top_emitters ["country"; "emissions"];;
  t ← load_table top_emitters;
  fig ← lift (express HBar t "emissions" "country" (Some "emissions") title
                [("emissions", "Total CO2 Emissions"); ("country", "Country")]
                (Some (color_scale self)));
  mret (update_layout 600 fig).

Definition create_global_trend (self : Self) : M Figure :=
  d ← load_data (data self);
  trend ← new (ObjTable (table_by1 CInt "year" "value"
      (groupby_agg Z.leb sum_skipna year value d)));
  rename_columns trend ["year"; "emissions"];;
  t ← load_table trend;
  fig ← lift (express Line t "year" "emissions" None "Global CO2 Emissions Trend"
                [("emissions", "Total CO2 Emissions"); ("year", "Year")] None);
  mret (update_layout 500 fig).

Definition create_country_trends (self : Self) (countries : list string) : M Figure :=
  df_filtered ← getitem (isin countries) (data self);
  d ← load_data df_filtered;
  trend ← new (ObjTable (table_by2 CInt CStr "year" "country" "value"
      (groupby_agg (pair_leb Z.leb String.leb) sum_skipna year_country value d)));
  t ← load_table trend;
  fig ← lift (express Line t "year" "value" (Some "country") "CO2 Emissions Trend by Country"
                [("value", "CO2 Emissions"); ("year", "Year")] None);
  mret (update_layout 600 fig).

Definition create_sectoral_breakdown (self : Self) (country : option string) : M Figure :=
  df ← copy (data self);
  '(df, title) ←
    match truthy_str country with
    | Some c =>
        df ← getitem (country_is c) df;
        mret (df, "CO2 Emissions by Sector - " +:+ c)
    | None => mret (df, "Global CO2 Emissions by Sector")
    end;
  d ← load_data df;
  sectoral ← new (ObjTable (table_by1 CStr "sector" "value"
      (sort_values_desc snd (groupby_agg String.leb sum_skipna sector value d))));
  rename_columns sectoral ["sector"; "emissions"];;
  t ← load_table sectoral;
  fig ← lift (express Bar t "sector" "emissions" (Some "emissions") title
                [("emissions", "Total CO2 Emissions"); ("sector", "Sector")]
                (Some "Viridis"));
  mret (update_layout 500 fig).

Definition create_sectoral_trend (self : Self) : M Figure :=
  d ← load_data (data self);
  trend ← new (ObjTable (table_by2 CInt CStr "year" "sector" "value"
      (groupby_agg (pair_leb Z.leb String.leb) sum_skipna year_sector value d)));
  t ← load_table trend;
  fig ← lift (express Area t "year" "value" (Some "sector") "CO2 Emissions by Sector Over Time"
                [("value", "CO2 Emissions"); ("year", "Year")] None);
  mret (update_layout 600 fig).

Definition create_animated_map (self : Self) : M Figure :=
  d ← load_data (data self);
  yearly ← new (ObjTable (table_by2 CStr CInt "country" "year" "value" (yearly_totals d)));
  rename_columns yearly ["country"; "year"; "emissions"];;
  t ← load_table yearly;
  fig ← lift (express Choropleth t "country" "emissions" (Some "year")
                "Global CO2 Emissions Over Time"
                [("emissions", "CO2 Emissions")] (Some (color_scale self)));
  mret (update_layout 600 fig).

Definition create_growth_rate_chart (self : Self) (n : Z) : M Figure :=
  d ← load_data (data self);
  yearly ← new (ObjTable (table_by2 CStr CInt "country" "year" "value" (yearly_totals d)));
  (* yearly = yearly.sort_values(['country', 'year']) *)
  t ← load_table yearly;
  cs ← lift (str_column "country" t);
  ys ← lift (int_column "year" t);
  yearly ← new (ObjTable (mkTable (columns t)
      (sort_rows_on (pair_leb (opt_leb String.leb) (opt_leb Z.leb)) (zip cs ys) (rows t))));
  (* yearly['prev_emissions'] = yearly.groupby('country')['value'].shift(1) *)
  t ← load_table yearly;
  cs ← lift (str_column "country" t);
  vs ← lift (float_column "value" t);
  setitem_at yearly "prev_emissions" (map CFloat (shift1_by cs vs));;
  (* yearly['growth_rate'] = (value - prev_emissions) / prev_emissions * 100 *)
  t ← load_table yearly;
  vs ← lift (float_column "value" t);
  ps ← lift (float_column "prev_emissions" t);
  setitem_at yearly "growth_rate" (map CFloat (zip_with pct_change vs ps));;
  (* recent_years = yearly['year'].max() - 5 *)
  t ← load_table yearly;
  ys ← lift (int_column "year" t);
  let recent_years := (fun m => m - 5) <$> max_skipna ys in
  (* recent = yearly[yearly['year'] >= recent_years] *)
  recent ← new (ObjTable (mkTable (columns t)
      (filter_mask (map (fun y => opt_ge y recent_years) ys) (rows t))));
  (* avg_growth = recent.groupby('country')['growth_rate'].mean().reset_index() *)
  t ← load_table recent;
  cs ← lift (str_column "country" t);
  gs ← lift (float_column "growth_rate" t);
  avg_growth ← new (ObjTable (table_by1 CStr "country" "growth_rate"
      (groupby_agg String.leb mean_skipna fst snd (zip cs gs))));
  (* avg_growth = avg_growth.sort_values('growth_rate', ascending=False).head(n) *)
  t ← load_table avg_growth;
  gs ← lift (float_column "growth_rate" t);
  avg_growth ← new (ObjTable (mkTable (columns t)
      (head n (sort_rows_on desc_before gs (rows t)))));
  t ← load_table avg_growth;
  fig ← lift (express HBar t "growth_rate" "country" (Some "growth_rate")
                ("Top " +:+ pretty n +:+ " Countries by Average CO2 Growth Rate (Last 5 Years)")
                [("growth_rate", "Average Growth Rate (%)"); ("country", "Country")]
                (Some (color_scale self)));
  mret (update_layout 600 fig).

Definition create_pie_chart (self : Self) (countries : list string) (year : option Z)
    : M Figure :=
  df ← copy (data self);
  '(df, title) ←
    match truthy_int year with
    | Some y =>
        df ← getitem (year_is y) df;
        mret (df, "CO2 Emissions Share - " +:+ pretty y)
    | None => mret (df, "CO2 Emissions Share (All Time)")
    end;
  df_filtered ← getitem (isin countries) df;
  d ← load_data df_filtered;
  emissions ← new (ObjTable (table_by1 CStr "country" "value"
      (groupby_agg String.leb sum_skipna country value d)));
  t ← load_table emissions;
  lift (express Pie t "country" "value" None title [] None).

(** A local variable of the method body: unbound until assigned. *)
Definition read_local {A : Type} (name : string) (v : option A) : M A :=
  match v with
  | Some a => mret a
  | None => raise (UnboundLocalError name)
  end.

Definition create_comparison_chart (self : Self) (countries : list string) (metric : string)
    : M Figure :=
  df ← getitem (isin countries) (data self);
  d ← load_data df;
  '(data, title, y_label) ←
    (if String.eqb metric "total" then
       data ← new (ObjTable (table_by1 CStr "country" "value"
           (groupby_agg String.leb sum_skipna country value d)));
       mret (Some data, Some "Total CO2 Emissions Comparison", Some "Total Emissions")
     else if String.eqb metric "average" then
       data ← new (ObjTable (table_by1 CStr "country" "value"
           (groupby_agg String.leb mean_skipna country value d)));
       mret (Some data, Some "Average CO2 Emissions Comparison", Some "Average Emissions")
     else mret (None, None, None));
  data ← read_local "data" data;
  title ← read_local "title" title;
  y_label ← read_local "y_label" y_label;
  t ← load_table data;
  fig ← lift (express Bar t "country" "value" (Some "value") title
                [("value", y_label); ("country", "Country")]
                (Some (color_scale self)));
  mret (update_layout 500 fig).

Definition create_heatmap (self : Self) (countries : list string) (n_years : Z) : M Figure :=
  df ← getitem (isin countries) (data self);
  (* Get recent years *)
  d ← load_data df;
  let max_year := max_skipna (map year d) in
  let min_year := (fun m => m - n_years + 1) <$> max_year in
  df ← getitem (fun r => opt_ge (year r) min_year) df;
  (* Pivot for heatmap *)
  d ← load_data df;
  heatmap_data ← new (ObjTable (table_by2 CStr CInt "country" "year" "value" (yearly_totals d)));
  t ← load_table heatmap_data;
  p ← lift (pivot "country" "year" "value" t);
  heatmap_pivot ← new (ObjPivot p);
  p ← load_pivot heatmap_pivot;
  mret (mkFigure Heatmap
          ("CO2 Emissions Heatmap (Last " +:+ pretty n_years +:+ " Years)")
          (p_columns p) (p_index p) [] (p_values p)
          [("xaxis_title", "Year"); ("yaxis_title", "Country")]
          (Some (color_scale self)) (Some 600)).

End CO2Visualizer.

(** ** The chart builder as a whole *)

(** One call of a chart-producing method. *)
Inductive chart_call :=
| TopEmittersBar (n : Z) (year : option Z)
| GlobalTrend
| CountryTrends (countries : list string)
| SectoralBreakdown (country : option string)
| SectoralTrend
| AnimatedMap
| GrowthRateChart (n : Z)
| PieChart (countries : list string) (year : option Z)
| ComparisonChart (countries : list string) (metric : string)
| HeatmapChart (countries : list string) (n_years : Z).

Definition invoke (self : CO2Visualizer.Self) (c : chart_call) : M Figure :=
  match c with
  | TopEmittersBar n year => CO2Visualizer.create_top_emitters_bar self n year
  | GlobalTrend => CO2Visualizer.create_global_trend self
  | CountryTrends countries => CO2Visualizer.create_country_trends self countries
  | SectoralBreakdown country => CO2Visualizer.create_sectoral_breakdown self country
  | SectoralTrend => CO2Visualizer.create_sectoral_trend self
  | AnimatedMap => CO2Visualizer.create_animated_map self
  | GrowthRateChart n => CO2Visualizer.create_growth_rate_chart self n
  | PieChart countries year => CO2Visualizer.create_pie_chart self countries year
  | ComparisonChart countries metric =>
      CO2Visualizer.create_comparison_chart self countries metric
  | HeatmapChart countries n_years => CO2Visualizer.create_heatmap self countries n_years
  end.

(** Calls made one after another on one visualizer; a call that raises
    is caught by the caller and the next call is made. *)
Fixpoint invoke_all (self : CO2Visualizer.Self) (calls : list chart_call) (h : heap)
    : list (result Figure) * heap :=
  match calls with
  | [] => ([], h)
  | c :: calls' =>
      let '(r, h') := invoke self c h in
      let '(rs, h'') := invoke_all self calls' h' in
      (r :: rs, h'')
  end.

(** ** The Growth-Rate Ranking in the words of the specification *)

(** The latest year with a yearly total. *)
Definition latest_year (df : DataFrame) : option Z :=
  max_skipna (map (fun g => Some (CO2DataProcessor.g_year g))
                  (CO2DataProcessor.calculate_growth_rates df)).

(** Years from (max year - 5) through max year, both included. *)
Definition in_recent_window (df : DataFrame) (y : Z) : bool :=
  match latest_year df with
  | Some m => (m - 5 <=? y) && (y <=? m)
  | None => false
  end.

(** Per country, the average of its growth rates over the window, nulls
    left out of the average. *)
Definition recent_average_growth (df : DataFrame) : list (string * float64) :=
  groupby_agg String.leb mean_skipna
    (fun g => Some (CO2DataProcessor.g_country g)) CO2DataProcessor.growth_rate
    (List.filter (fun g => in_recent_window df (CO2DataProcessor.g_year g))
                 (CO2DataProcessor.calculate_growth_rates df)).

(** Countries by descending average, the top [n] kept. *)
Definition growth_ranking (n : Z) (df : DataFrame) : list (string * float64) :=
  head n (sort_values_desc snd (recent_average_growth df)).

(** The figure [create_growth_rate_chart] draws for the rows [ranking]. *)
Definition growth_rate_figure (scale : string) (n : Z) (ranking : list (string * float64))
    : Figure :=
  mkFigure HBar
    ("Top " +:+ pretty n +:+ " Countries by Average CO2 Growth Rate (Last 5 Years)")
    (map (fun e => CFloat e.2) ranking)
    (map (fun e => CStr e.1) ranking)
    (map (fun e => CFloat e.2) ranking)
    []
    [("growth_rate", "Average Growth Rate (%)"); ("country", "Country")]
    (Some scale) (Some 600).

(** The yearly rows with their previous totals, as
    [create_growth_rate_chart] holds them after line 163. *)
Definition chart_yearly (df : DataFrame) : list (string * Z * float64 * float64) :=
  let y1 := sort_by (fun a b : string * Z * float64 =>
                       pair_leb (opt_leb String.leb) (opt_leb Z.leb)
                                (Some a.1.1, Some a.1.2) (Some b.1.1, Some b.1.2))
                    (CO2DataProcessor.yearly_totals df) in
  zip y1 (groupby_shift1 (fun x : string * Z * float64 => x.1.1) snd y1).

(** ** The Heatmap in the words of the specification *)

(** Rows of the selected countries. *)
Definition selected_rows (countries : list string) (df : DataFrame) : DataFrame :=
  List.filter (CO2Visualizer.isin countries) df.

(** The latest year among them. *)
Definition heat_max_year (countries : list string) (df : DataFrame) : option Z :=
  max_skipna (map year (selected_rows countries df)).

(** Years from (max year - n + 1) through max year, both included. *)
Definition in_trailing_window (countries : list string) (n : Z) (df : DataFrame)
    (y : option Z) : bool :=
  match y, heat_max_year countries df with
  | Some y, Some m => (m - n + 1 <=? y) && (y <=? m)
  | _, _ => false
  end.

Definition window_rows (countries : list string) (n : Z) (df : DataFrame) : DataFrame :=
  List.filter (fun r => in_trailing_window countries n df (year r))
              (selected_rows countries df).

(** Row and column labels of the matrix: the countries and the years
    observed in the window, ascending. *)
Definition heat_countries (countries : list string) (n : Z) (df : DataFrame) : list string :=
  sort_by String.leb (remove_dups (omap country (window_rows countries n df))).

Definition heat_years (countries : list string) (n : Z) (df : DataFrame) : list Z :=
  sort_by Z.leb (remove_dups (omap year (window_rows countries n df))).

(** The summed value of country [c] in year [y]; null when the window has
    no observation of [c] in [y]. *)
Definition heat_cell (countries : list string) (n : Z) (df : DataFrame)
    (c : string) (y : Z) : float64 :=
  match List.filter (fun r => bool_decide (country r = Some c /\ year r = Some y))
                    (window_rows countries n df) with
  | [] => FNaN
  | rs => sum_skipna (map value rs)
  end.

Definition heat_matrix (countries : list string) (n : Z) (df : DataFrame)
    : list (list cell) :=
  map (fun c => map (fun y => CFloat (heat_cell countries n df c y))
                    (heat_years countries n df))
      (heat_countries countries n df).

(** The figure [create_heatmap] draws for a matrix with its labels. *)
Definition heatmap_figure (scale : string) (n_years : Z)
    (ys : list cell) (cs : list cell) (z : list (list cell)) : Figure :=
  mkFigure Heatmap
    ("CO2 Emissions Heatmap (Last " +:+ pretty n_years +:+ " Years)")
    ys cs [] z
    [("xaxis_title", "Year"); ("yaxis_title", "Country")]
    (Some scale) (Some 600).

(** The cell [pivot] puts at row [c], column [y]. *)
Definition pivot_cell (Y : list (string * Z * float64)) (c : string) (y : Z) : cell :=
  match List.filter (fun e => bool_decide (e.1 = (c, y))) Y with
  | e :: _ => CFloat e.2
  | [] => CFloat FNaN
  end.

(** The rows [create_heatmap] groups: lines 236-241. *)
Definition heat_frame (countries : list string) (n : Z) (df : DataFrame) : DataFrame :=
  List.filter
    (fun r => opt_ge (year r)
                ((fun m => m - n + 1) <$>
                 max_skipna (map year (List.filter (CO2Visualizer.isin countries) df))))
    (List.filter (CO2Visualizer.isin countries) df).

(** ** The merges of add_derived_metrics, row by row *)

(** How many rows a left merge makes of a row with key [k]: one per
    matching row of the right table, and one when nothing matches or no
    table is given. *)
Definition join_count {R : Type} (rkey : R -> option string * option Z)
    (right : option (list R)) (k : option string * option Z) : nat :=
  match right with
  | Some rs => Nat.max 1 (length (List.filter (fun r => bool_decide (rkey r = k)) rs))
  | None => 1
  end.

Definition pop_key (p : CO2DataProcessor.population_row) : option string * option Z :=
  (CO2DataProcessor.pop_country p, CO2DataProcessor.pop_year p).

Definition gdp_key (g : CO2DataProcessor.gdp_row) : option string * option Z :=
  (CO2DataProcessor.gdp_country g, CO2DataProcessor.gdp_year g).

(** What a merged-in column holds in a row with key [k]: the cell of a
    matching row of the right table, or null when no row matches. *)
Definition joined {R : Type} (rkey : R -> option string * option Z) (col : R -> float64)
    (right : list R) (k : option string * option Z) (x : float64) : Prop :=
  (exists r, r ∈ right /\ rkey r = k /\ x = col r) \/
  ((forall r, r ∈ right -> rkey r <> k) /\ x = FNaN).

(** ** The processor object *)

(** The methods of [CO2DataProcessor] on the object's state.  Each call
    is given [file]: what [pd.read_csv(self.data_path)] returns while the
    call runs, [None] when there is no such file.  [add_derived_metrics],
    which replaces [processed_data] by a table with more columns, is
    modelled as a function only (above). *)
Module ProcessorObject.

Record processor := mkProcessor {
  data_path : string;
  raw_data : option RawFrame;
  processed_data : option DataFrame
}.

Inductive io_error :=
| FileNotFoundError (path : string).

Inductive outcome (A : Type) :=
| Returns (a : A)
| Raises (e : io_error).
Arguments Returns {A} a.
Arguments Raises {A} e.

(** A method: from the state before the call to its outcome and the
    state after it. *)
Definition method (A : Type) : Type := processor -> outcome A * processor.

#[global] Instance method_ret : MRet method := fun A a self => (Returns a, self).
#[global] Instance method_bind : MBind method := fun A B k m self =>
  match m self with
  | (Returns a, self') => k a self'
  | (Raises e, self') => (Raises e, self')
  end.

(** [__init__] *)
Definition init (data_path : string) : processor :=
  {| data_path := data_path; raw_data := None; processed_data := None |}.

Definition load_data (file : option RawFrame) : method RawFrame := fun self =>
  match file with
  | Some raw =>
      (Returns raw, {| data_path := data_path self; raw_data := Some raw;
                       processed_data := processed_data self |})
  | None => (Raises (FileNotFoundError (data_path self)), self)
  end.

(** [if self.raw_data is None: self.load_data()], then [self.raw_data]. *)
Definition the_raw_data (file : option RawFrame) : method RawFrame := fun self =>
  match raw_data self with
  | Some raw => (Returns raw, self)
  | None => load_data file self
  end.

(** [self.processed_data = df] *)
Definition set_processed_data (df : DataFrame) : method unit := fun self =>
  (Returns tt, {| data_path := data_path self; raw_data := raw_data self;
                  processed_data := Some df |}).

Definition clean_data (file : option RawFrame) : method DataFrame :=
  raw ← the_raw_data file;
  let df := (CO2DataProcessor.clean_data raw).1 in
  set_processed_data df;;
  mret df.

(** [if self.processed_data is None: self.clean_data()], then
    [self.processed_data.copy()]. *)
Definition the_processed_data (file : option RawFrame) : method DataFrame := fun self =>
  match processed_data self with
  | Some df => (Returns df, self)
  | None => clean_data file self
  end.

Definition calculate_growth_rates (file : option RawFrame)
    : method (list CO2DataProcessor.growth_row) :=
  df ← the_processed_data file;
  mret (CO2DataProcessor.calculate_growth_rates df).

Definition get_top_emitters (file : option RawFrame) (n : Z) (by_year : option Z)
    : method (list (string * float64)) :=
  df ← the_processed_data file;
  mret (CO2DataProcessor.get_top_emitters n by_year df).

Definition get_sectoral_breakdown (file : option RawFrame) (country : option string)
    : method (list (string * float64)) :=
  df ← the_processed_data file;
  mret (CO2DataProcessor.get_sectoral_breakdown country df).

(** [save_processed_data]: returns what it hands to [to_csv], the path
    and the table. *)
Definition save_processed_data (file : option RawFrame) (output_path : string)
    : method (string * DataFrame) :=
  df ← the_processed_data file;
  mret (output_path, df).

End ProcessorObject.

(** One call of a method of the processor, and what it returns. *)
Inductive processor_call :=
| LoadData
| CleanData
| CalculateGrowthRates
| GetTopEmitters (n : Z) (by_year : option Z)
| GetSectoralBreakdown (country : option string)
| SaveProcessedData (output_path : string).

Inductive returned :=
| RawTable (raw : RawFrame)
| CleanedTable (df : DataFrame)
| GrowthTable (rows : list CO2DataProcessor.growth_row)
| RankingTable (rows : list (string * float64))
| WrittenFile (path : string) (df : DataFrame).

Definition call (file : option RawFrame) (c : processor_call)
    : ProcessorObject.method returned :=
  match c with
  | LoadData => raw ← ProcessorObject.load_data file; mret (RawTable raw)
  | CleanData => df ← ProcessorObject.clean_data file; mret (CleanedTable df)
  | CalculateGrowthRates =>
      rows ← ProcessorObject.calculate_growth_rates file; mret (GrowthTable rows)
  | GetTopEmitters n by_year =>
      rows ← ProcessorObject.get_top_emitters file n by_year; mret (RankingTable rows)
  | GetSectoralBreakdown country =>
      rows ← ProcessorObject.get_sectoral_breakdown file country; mret (RankingTable rows)
  | SaveProcessedData output_path =>
      w ← ProcessorObject.save_processed_data file output_path; mret (WrittenFile w.1 w.2)
  end.

(** Calls made one after another on one processor while the file stays
    as it is; a call that raises is caught by the caller and the next
    call is made. *)
Fixpoint session (file : option RawFrame) (calls : list processor_call)
    (self : ProcessorObject.processor)
    : list (ProcessorObject.outcome returned) * ProcessorObject.processor :=
  match calls with
  | [] => ([], self)
  | c :: calls' =>
      let '(r, self') := call file c self in
      let '(rs, self'') := session file calls' self' in
      (r :: rs, self'')
  end.



(** ** The dashboard callback *)

(** [dashboard/app.py].  The values of the two dropdowns are lists of
    names, or [None]. *)
Module Dashboard.
Import CO2DataProcessor CO2Visualizer.

(** Python truth value of a multi-select dropdown's value: [None] and the
    empty list are false. *)
Definition truthy_list {A : Type} (o : option (list A)) : option (list A) :=
  match o with
  | Some (x :: l) => Some (x :: l)
  | _ => None
  end.

(** [df['sector'].isin(sectors)] on one row. *)
Definition sector_isin (sectors : list string) (r : row) : bool :=
  match sector r with
  | Some s => bool_decide (s ∈ sectors)
  | None => false
  end.

(** [(df['year'] >= lo) & (df['year'] <= hi)] on one row. *)
Definition in_year_range (lo hi : Z) (r : row) : bool :=
  match year r with
  | Some y => (lo <=? y) && (y <=? hi)
  | None => false
  end.

(** Lines 40-44: the index of the ten largest country totals. *)
Definition top_10_countries (df : DataFrame) : list string :=
  (head 10 (sort_values_desc snd (groupby_agg String.leb sum_skipna country value df))).*1.

Definition charts : Type := Figure * Figure * Figure * Figure * Figure * Figure * Figure.

(** [update_charts]: [df] and [top_10_countries] are the module's
    globals; [year_range] is the slider's pair. *)
Definition update_charts (df : ref) (top_10_countries : list string)
    (selected_countries selected_sectors : option (list string)) (year_range : Z * Z)
    : M charts :=
  filtered_df ← copy df;
  filtered_df ←
    match truthy_list selected_countries with
    | Some cs => getitem (isin cs) filtered_df
    | None => mret filtered_df
    end;
  filtered_df ←
    match truthy_list selected_sectors with
    | Some ss => getitem (sector_isin ss) filtered_df
    | None => mret filtered_df
    end;
  filtered_df ← getitem (in_year_range year_range.1 year_range.2) filtered_df;
  let viz_filtered := init filtered_df in
  global_trend ← create_global_trend viz_filtered;
  top_emitters ← create_top_emitters_bar viz_filtered 15 (Some year_range.2);
  sectoral ← create_sectoral_breakdown viz_filtered None;
  country_trends ← create_country_trends viz_filtered
    match truthy_list selected_countries with
    | Some cs => cs
    | None => top_10_countries
    end;
  sectoral_trend ← create_sectoral_trend viz_filtered;
  growth_rate ← create_growth_rate_chart viz_filtered 15;
  animated_map ← create_animated_map viz_filtered;
  mret (global_trend, top_emitters, sectoral, country_trends, sectoral_trend,
        growth_rate, animated_map).

End Dashboard.

(** The rows the filter panel selects: of the chosen countries (of all,
    when none is chosen), of the chosen sectors (of all, when none is
    chosen), with a year in the closed range. *)
Definition chosen (selection : option (list string)) (name : option string) : bool :=
  match selection with
  | None | Some [] => true
  | Some names =>
      match name with
      | Some s => bool_decide (s ∈ names)
      | None => false
      end
  end.

Definition dashboard_rows (countries sectors : option (list string)) (lo hi : Z)
    (df : DataFrame) : DataFrame :=
  List.filter (fun r => chosen countries (country r) && chosen sectors (sector r) &&
                        match year r with
                        | Some y => (lo <=? y) && (y <=? hi)
                        | None => false
                        end) df.

(** A chart drawn on its own, from a table held by nothing else. *)
Definition drawn_alone (df : DataFrame) (c : chart_call) : result Figure :=
  (invoke (CO2Visualizer.init 0%nat) c [ObjData df]).1.

(** ** The options of the dashboard's dropdowns *)

(** [Series.unique()]: the distinct cells in order of first appearance,
    null counted as one value. *)
Fixpoint unique_from {A : Type} `{EqDecision A} (seen l : list A) : list A :=
  match l with
  | [] => []
  | x :: l' =>
      if bool_decide (x ∈ seen) then unique_from seen l'
      else x :: unique_from (x :: seen) l'
  end.

Definition unique {A : Type} `{EqDecision A} (l : list A) : list A := unique_from [] l.

(** Python's [sorted] on names and NaN: a name cannot be compared with a
    float, and a sort of two or more values compares each of them. *)
Definition sorted (xs : list (option string)) : result (list (option string)) :=
  if bool_decide (None ∈ xs) && existsb (fun x => bool_decide (x <> None)) xs
  then Raise (TypeError "'<' not supported between instances of 'str' and 'float'")
  else Ok (sort_by (opt_leb String.leb) xs).

Module DashboardOptions.

(** Line 34: [countries = sorted(df['country'].unique())] *)
Definition countries (df : DataFrame) : result (list (option string)) :=
  sorted (unique (map country df)).

(** Line 35: [sectors = sorted(df['sector'].unique())] *)
Definition sectors (df : DataFrame) : result (list (option string)) :=
  sorted (unique (map sector df)).

End DashboardOptions.

(** ** Sample tables *)

Definition observation (c : string) (s : option string) (y : Z) (v : Z) : row :=
  {| country := Some c; sector := s; date := Some (Timestamp y 1 1);
     year := Some y; month := Some 1; value := of_Z v |}.

(** The end-to-end scenario of the specification, already cleaned. *)
Definition scenario : DataFrame :=
  [observation "A" (Some "Energy") 2020 100;
   observation "A" (Some "Energy") 2021 200;
   observation "B" (Some "Energy") 2020 50].

(** A cleaned table: what [dropna] in [clean_data] guarantees of every
    row. *)
Definition is_clean (df : DataFrame) : Prop :=
  Forall (fun r => country r <> None /\ date r <> None /\ value r <> FNaN) df.

(** A raw file in which one row has an empty [sector] field. *)
Definition raw_with_empty_sector : RawFrame :=
  {| has_sector := true;
     raw_rows :=
       [RawRow (Some "A") (Some "Energy") (DateText "01/01/2020") (ValueNum (of_Z 100));
        RawRow (Some "A") None (DateText "01/01/2021") (ValueNum (of_Z 200))] |}.

(** A raw file with a blank country, an unreadable date and an unreadable
    value. *)
Definition raw_with_bad_rows : RawFrame :=
  {| has_sector := true;
     raw_rows :=
       [RawRow (Some " A ") (Some "Energy ") (DateText "01/01/2020") (ValueText "100");
        RawRow None (Some "Energy") (DateText "01/01/2020") (ValueNum (of_Z 1));
        RawRow (Some "B") (Some "Energy") (DateText "2020-01-01") (ValueNum (of_Z 2));
        RawRow (Some "B") (Some "Energy") (DateText "01/01/2020") (ValueText "n/a")] |}.

(** A row that a second [clean_data] leaves as it is. *)
Definition settled (r : row) : Prop :=
  CO2DataProcessor.coerce (CO2DataProcessor.as_raw_row r) = r /\ CO2DataProcessor.critical_present r = true /\ CO2DataProcessor.strip_names true r = r.

(** A raw file in which a country reports zero in its first year. *)
Definition raw_zero_start : RawFrame :=
  {| has_sector := true;
     raw_rows :=
       [RawRow (Some "A") (Some "Energy") (DateText "01/01/2020") (ValueNum (of_Z 0));
        RawRow (Some "A") (Some "Energy") (DateText "01/01/2021") (ValueNum (of_Z 5))] |}.

(** Totals 100, 150, 120 in three consecutive years. *)
Definition three_years : DataFrame :=
  [observation "A" (Some "Energy") 2019 100;
   observation "A" (Some "Energy") 2020 150;
   observation "A" (Some "Energy") 2021 120].

(** A raw file in which a country name is nothing but blanks. *)
Definition raw_with_blank_country : RawFrame :=
  {| has_sector := true;
     raw_rows :=
       [RawRow (Some "  ") (Some "Energy") (DateText "01/01/2020") (ValueNum (of_Z 7))] |}.

(** A raw file without a [sector] column. *)
Definition raw_without_sector : RawFrame :=
  {| has_sector := false;
     raw_rows := [RawRow (Some "A") None (DateText "01/01/2020") (ValueNum (of_Z 100))] |}.

(** A country observed in 2018 and 2021 only. *)
Definition gap_years : DataFrame :=
  [observation "A" (Some "Energy") 2018 100;
   observation "A" (Some "Energy") 2021 150;
   observation "B" (Some "Energy") 2021 70].

(** A population table that lists (A, 2020) twice. *)
Definition sample_population : list CO2DataProcessor.population_row :=
  [CO2DataProcessor.PopulationRow (Some "A") (Some 2020) (of_Z 10);
   CO2DataProcessor.PopulationRow (Some "A") (Some 2020) (of_Z 20)].

(** * Properties *)

Import CO2DataProcessor.

(** ** Sorting *)

Section SortingFacts.
Context {A : Type} (leb : A -> A -> bool).

Lemma insert_sorted_perm x l : insert_sorted leb x l ≡ₚ x :: l.
Proof.
  induction l as [|y l IH]; simpl; [done|].
  destruct (leb x y); [done|].
  rewrite IH. apply Permutation_swap.
Qed.

Lemma sort_by_perm l : sort_by leb l ≡ₚ l.
Proof.
  induction l as [|x l IH]; simpl; [done|].
  rewrite insert_sorted_perm. by rewrite IH.
Qed.

Lemma elem_of_sort_by x l : x ∈ sort_by leb l <-> x ∈ l.
Proof. by rewrite sort_by_perm. Qed.

Lemma length_sort_by l : length (sort_by leb l) = length l.
Proof. by rewrite sort_by_perm. Qed.

Lemma NoDup_sort_by l : NoDup l -> NoDup (sort_by leb l).
Proof. by rewrite sort_by_perm. Qed.

Hypothesis leb_total : forall x y, leb x y = true \/ leb y x = true.
Hypothesis leb_trans : forall x y z, leb x y = true -> leb y z = true -> leb x z = true.

Lemma insert_sorted_strongly x l :
  StronglySorted (before leb) l -> StronglySorted (before leb) (insert_sorted leb x l).
Proof.
  induction 1 as [|y l Hl IH Hy]; simpl.
  - repeat constructor.
  - destruct (leb x y) eqn:Hxy.
    + constructor; [by constructor|].
      constructor; [done|].
      eapply Forall_impl; [exact Hy|]. intros z Hz. by eapply leb_trans.
    + constructor; [done|].
      apply Forall_forall. intros z Hz.
      rewrite insert_sorted_perm in Hz.
      apply elem_of_cons in Hz as [->|Hz].
      * destruct (leb_total x y) as [H|H]; [congruence|done].
      * rewrite Forall_forall in Hy. by apply Hy.
Qed.

Lemma sort_by_strongly l : StronglySorted (before leb) (sort_by leb l).
Proof.
  induction l as [|x l IH]; simpl; [constructor|].
  by apply insert_sorted_strongly.
Qed.
End SortingFacts.

Lemma insert_sorted_fmap {A B : Type} (f : A -> B) (la : A -> A -> bool) (lb : B -> B -> bool)
    x l :
  (forall a b, lb (f a) (f b) = la a b) ->
  insert_sorted lb (f x) (f <$> l) = f <$> insert_sorted la x l.
Proof.
  intros Hf. induction l as [|y l IH]; simpl; [done|].
  rewrite Hf. destruct (la x y); simpl; [done|]. f_equal. exact IH.
Qed.

Lemma sort_by_fmap {A B : Type} (f : A -> B) (la : A -> A -> bool) (lb : B -> B -> bool) l :
  (forall a b, lb (f a) (f b) = la a b) ->
  sort_by lb (f <$> l) = f <$> sort_by la l.
Proof.
  intros Hf. induction l as [|x l IH]; [done|].
  rewrite fmap_cons.
  change (sort_by lb (f x :: (f <$> l))) with (insert_sorted lb (f x) (sort_by lb (f <$> l))).
  change (sort_by la (x :: l)) with (insert_sorted la x (sort_by la l)).
  rewrite IH. by apply insert_sorted_fmap.
Qed.

(** ** float64 arithmetic *)

Lemma fadd_comm x y : fadd x y = fadd y x.
Proof.
  destruct x as [|[]|a], y as [|[]|b]; simpl; try done.
  f_equal. ring.
Qed.

Lemma fadd_assoc x y z : fadd x (fadd y z) = fadd (fadd x y) z.
Proof.
  destruct x as [|[]|a], y as [|[]|b], z as [|[]|c]; simpl; try done.
  f_equal. ring.
Qed.

Lemma fadd_zero_l x : fadd fzero x = x.
Proof. destruct x as [|[]|a]; simpl; try done. f_equal. ring. Qed.

Lemma fadd_zero_r x : fadd x fzero = x.
Proof. by rewrite fadd_comm, fadd_zero_l. Qed.

Lemma fold_left_fadd xs a : fold_left fadd xs a = fadd a (fold_left fadd xs fzero).
Proof.
  revert a. induction xs as [|x xs IH]; intros a; cbn [fold_left].
  - by rewrite fadd_zero_r.
  - rewrite IH, (IH (fadd fzero x)), fadd_zero_l. by rewrite fadd_assoc.
Qed.

Lemma fsum_nil : fsum [] = fzero.
Proof. done. Qed.

Lemma fsum_cons x xs : fsum (x :: xs) = fadd x (fsum xs).
Proof. unfold fsum. cbn [fold_left]. by rewrite fold_left_fadd, fadd_zero_l. Qed.

Lemma fsum_app xs ys : fsum (xs ++ ys) = fadd (fsum xs) (fsum ys).
Proof.
  induction xs as [|x xs IH].
  - by rewrite app_nil_l, fsum_nil, fadd_zero_l.
  - by rewrite <- app_comm_cons, !fsum_cons, IH, fadd_assoc.
Qed.

Lemma fsum_perm xs ys : xs ≡ₚ ys -> fsum xs = fsum ys.
Proof.
  induction 1 as [|x xs ys _ IH|x y xs|xs ys zs _ IH1 _ IH2].
  - done.
  - by rewrite !fsum_cons, IH.
  - rewrite !fsum_cons, !fadd_assoc. f_equal. apply fadd_comm.
  - congruence.
Qed.

Lemma filter_notna_id xs : Forall (fun x => x <> FNaN) xs -> List.filter notna xs = xs.
Proof.
  induction 1 as [|x xs Hx _ IH]; simpl; [done|].
  destruct x; simpl; [done| |]; by rewrite IH.
Qed.

Lemma sum_skipna_fsum xs : Forall (fun x => x <> FNaN) xs -> sum_skipna xs = fsum xs.
Proof. intros H. unfold sum_skipna. by rewrite filter_notna_id. Qed.

Lemma Qc_leb_trans a b c : Qc_leb a b = true -> Qc_leb b c = true -> Qc_leb a c = true.
Proof.
  unfold Qc_leb. rewrite !Qle_bool_iff. apply Qle_trans.
Qed.

Lemma Qc_leb_total a b : Qc_leb a b = true \/ Qc_leb b a = true.
Proof.
  unfold Qc_leb. rewrite !Qle_bool_iff.
  destruct (Qlt_le_dec a b) as [H|H]; [left; by apply Qlt_le_weak|by right].
Qed.

Lemma fleb_trans x y z : fleb x y = true -> fleb y z = true -> fleb x z = true.
Proof.
  destruct x as [|[]|a], y as [|[]|b], z as [|[]|c]; simpl; try done.
  apply Qc_leb_trans.
Qed.

Lemma fleb_total x y : x <> FNaN -> y <> FNaN -> fleb x y = true \/ fleb y x = true.
Proof.
  destruct x as [|[]|a], y as [|[]|b]; simpl; intros; try done; auto.
  apply Qc_leb_total.
Qed.

Lemma desc_before_total x y : desc_before x y = true \/ desc_before y x = true.
Proof.
  unfold desc_before, notna.
  destruct (isnan y) eqn:Hy; [by left|].
  destruct (isnan x) eqn:Hx; [by right|]. simpl.
  destruct (fleb_total y x) as [H|H]; auto; by destruct x, y.
Qed.

Lemma desc_before_trans x y z :
  desc_before x y = true -> desc_before y z = true -> desc_before x z = true.
Proof.
  unfold desc_before, notna.
  destruct (isnan z) eqn:Hz; [done|]. simpl.
  destruct (isnan y) eqn:Hy; simpl; [done|].
  destruct (isnan x) eqn:Hx; simpl; [done|].
  intros H1 H2. by eapply fleb_trans.
Qed.

Lemma sort_values_desc_descending {A : Type} (col : A -> float64) (l : list A) :
  descending col (sort_values_desc col l).
Proof.
  apply (sort_by_strongly (fun a b => desc_before (col a) (col b))).
  - intros x y. apply desc_before_total.
  - intros x y z. apply desc_before_trans.
Qed.

Lemma StronglySorted_take {A : Type} (R : A -> A -> Prop) n l :
  StronglySorted R l -> StronglySorted R (take n l).
Proof.
  intros H. revert n. induction H as [|x l Hl IH Hx]; intros [|n]; simpl; try constructor.
  - apply IH.
  - apply Forall_take. exact Hx.
Qed.

(** ** Grouping *)

Section GroupByFacts.
Context {A K : Type} `{EqDecision K} (kleb : K -> K -> bool).
Context (key : A -> option K) (val : A -> float64).

Lemma elem_of_group_keys k l :
  k ∈ group_keys kleb key l <-> exists r, r ∈ l /\ key r = Some k.
Proof.
  unfold group_keys.
  by rewrite elem_of_sort_by, elem_of_remove_dups, list_elem_of_omap.
Qed.

Lemma NoDup_group_keys l : NoDup (group_keys kleb key l).
Proof. apply NoDup_sort_by, NoDup_remove_dups. Qed.

Lemma elem_of_group r k l : r ∈ group key k l <-> r ∈ l /\ key r = Some k.
Proof.
  unfold group. by rewrite !list_elem_of_In, filter_In, bool_decide_eq_true.
Qed.

Lemma groupby_agg_keys agg l :
  (groupby_agg kleb agg key val l).*1 = group_keys kleb key l.
Proof.
  unfold groupby_agg. rewrite <- list_fmap_compose.
  induction (group_keys kleb key l) as [|k ks IH]; simpl; [done|]. by f_equal.
Qed.

Lemma elem_of_groupby_agg agg k v l :
  (k, v) ∈ groupby_agg kleb agg key val l <->
  k ∈ group_keys kleb key l /\ v = agg (map val (group key k l)).
Proof.
  unfold groupby_agg.
  change (map ?f ?l) with (f <$> l) at 1.
  rewrite list_elem_of_fmap. split.
  - intros (k' & [= -> ->] & Hk). done.
  - intros [Hk ->]. by exists k.
Qed.

Lemma length_groupby_agg agg l :
  length (groupby_agg kleb agg key val l) = length (group_keys kleb key l).
Proof. unfold groupby_agg. by rewrite length_map. Qed.
End GroupByFacts.

Lemma length_head {A : Type} (n : Z) (l : list A) :
  0 <= n -> Z.of_nat (length (head n l)) <= n.
Proof.
  intros Hn. unfold head.
  destruct (Z.leb_spec 0 n); [|lia].
  rewrite length_take. lia.
Qed.

Lemma head_sublist {A : Type} (n : Z) (l : list A) : exists k, head n l = take k l.
Proof. unfold head. destruct (0 <=? n); eauto. Qed.

Lemma elem_of_head {A : Type} (n : Z) (x : A) (l : list A) : x ∈ head n l -> x ∈ l.
Proof.
  destruct (head_sublist n l) as [k ->]. intros H.
  apply elem_of_take in H as (i & H & _). by eapply list_elem_of_lookup_2.
Qed.

Lemma descending_head {A : Type} (col : A -> float64) n l :
  descending col l -> descending col (head n l).
Proof.
  destruct (head_sublist n l) as [k ->]. apply StronglySorted_take.
Qed.

(** ** get_top_emitters *)

Example top_emitters_scenario :
  get_top_emitters 2 None scenario = [("A", of_Z 300); ("B", of_Z 50)].
Proof. vm_compute. reflexivity. Qed.




(** ** get_sectoral_breakdown against get_top_emitters *)

Section GroupSums.
Context {A K : Type} `{EqDecision K} (key : A -> option K) (val : A -> float64).

Lemma fsum_filter_split (P Q : A -> bool) (l : list A) :
  (forall r, P r && Q r = false) ->
  fsum (map val (List.filter (fun r => P r || Q r) l)) =
  fadd (fsum (map val (List.filter P l))) (fsum (map val (List.filter Q l))).
Proof.
  intros HPQ. induction l as [|r l IH]; cbn [List.filter map].
  - by rewrite fsum_nil, fadd_zero_l.
  - specialize (HPQ r). destruct (P r), (Q r); cbn [orb andb map] in *; try done.
    + rewrite !fsum_cons, IH. by rewrite fadd_assoc.
    + rewrite !fsum_cons, IH.
      rewrite !fadd_assoc. f_equal. apply fadd_comm.
Qed.

Lemma in_keys_nil r : in_keys key [] r = false.
Proof.
  unfold in_keys. destruct (key r); [|done].
  apply bool_decide_eq_false_2, not_elem_of_nil.
Qed.

Lemma fsum_groups (ks : list K) (l : list A) :
  NoDup ks ->
  fsum (map (fun k => fsum (map val (group key k l))) ks) =
  fsum (map val (List.filter (in_keys key ks) l)).
Proof.
  induction 1 as [|k ks Hk Hks IH].
  - simpl. rewrite fsum_nil.
    replace (List.filter (in_keys key []) l) with (@nil A); [done|].
    induction l as [|r l IHl]; cbn [List.filter]; [done|].
    by rewrite in_keys_nil.
  - cbn [map]. rewrite fsum_cons, IH. unfold group.
    rewrite <- fsum_filter_split.
    + f_equal. f_equal. apply filter_ext. intros r.
      unfold in_keys. destruct (key r) as [k'|]; simpl.
      * destruct (decide (k' = k)) as [->|Hne].
        -- rewrite (bool_decide_eq_true_2 (Some k = Some k)) by done.
           rewrite (bool_decide_eq_true_2 (k ∈ k :: ks)) by (apply elem_of_cons; by left).
           done.
        -- rewrite (bool_decide_eq_false_2 (Some k' = Some k)); [|congruence]. simpl.
           apply bool_decide_ext. rewrite elem_of_cons. intuition congruence.
      * done.
    + intros r. unfold in_keys. destruct (key r) as [k'|]; simpl.
      * destruct (decide (k' = k)) as [->|Hne].
        -- rewrite (bool_decide_eq_false_2 (k ∈ ks)); [|done]. apply andb_false_r.
        -- rewrite (bool_decide_eq_false_2 (Some k' = Some k)); [done|congruence].
      * done.
Qed.

Lemma filter_in_keys_all (kleb : K -> K -> bool) (l : list A) :
  (forall r, r ∈ l -> key r <> None) ->
  List.filter (in_keys key (group_keys kleb key l)) l = l.
Proof.
  intros Hall.
  assert (Hsub : forall r, r ∈ l -> in_keys key (group_keys kleb key l) r = true).
  { intros r Hr. unfold in_keys. specialize (Hall r Hr).
    destruct (key r) as [k|] eqn:Hk; [|done].
    apply bool_decide_eq_true_2, elem_of_group_keys. eauto. }
  clear Hall. revert Hsub. generalize (group_keys kleb key l). intros ks.
  induction l as [|r l IH]; intros Hsub; simpl; [done|].
  rewrite Hsub by (by left). f_equal. apply IH. intros r' Hr'. apply Hsub. by right.
Qed.
End GroupSums.

Lemma elem_of_filter_bool {A : Type} (f : A -> bool) (x : A) (l : list A) :
  x ∈ List.filter f l <-> x ∈ l /\ f x = true.
Proof. by rewrite !list_elem_of_In, filter_In. Qed.

Lemma is_clean_values (df : DataFrame) (f : row -> bool) :
  is_clean df -> Forall (fun x => x <> FNaN) (map value (List.filter f df)).
Proof.
  intros H. apply Forall_forall. intros x Hx.
  change (map value ?l) with (value <$> l) in Hx.
  apply list_elem_of_fmap in Hx as (r & -> & Hr).
  apply elem_of_filter_bool in Hr as [Hr _].
  unfold is_clean in H. rewrite Forall_forall in H. by apply H.
Qed.

Example cleaned_with_empty_sector :
  (clean_data raw_with_empty_sector).1 =
  [observation "A" (Some "Energy") 2020 100; observation "A" None 2021 200].
Proof. vm_compute. reflexivity. Qed.

(** C4, as stated, fails: [clean_data] keeps a row whose [sector] is
    null, the sector grouping leaves it out, the country grouping counts
    it. *)
Lemma sectoral_breakdown_misses_null_sector :
  ~ (forall t,
       ("A", t) ∈ get_top_emitters 10 None (clean_data raw_with_empty_sector).1 ->
       fsum (get_sectoral_breakdown (Some "A") (clean_data raw_with_empty_sector).1).*2 = t).
Proof.
  intros H. specialize (H (of_Z 300)).
  assert (Hin : ("A", of_Z 300) ∈
                get_top_emitters 10 None (clean_data raw_with_empty_sector).1).
  { vm_compute. apply list_elem_of_here. }
  specialize (H Hin). vm_compute in H. discriminate H.
Qed.

(** C4 (amended): in a cleaned table, for a country with a non-empty name
    all of whose rows carry a sector, the totals of
    [get_sectoral_breakdown] for that country add up to the country's
    total in [get_top_emitters] (sums taken exactly). *)
Theorem sectoral_breakdown_adds_up (df : DataFrame) (c : string) (n : Z) (t : float64) :
  is_clean df ->
  c <> "" ->
  (forall r, r ∈ df -> country r = Some c -> sector r <> None) ->
  (c, t) ∈ get_top_emitters n None df ->
  fsum (get_sectoral_breakdown (Some c) df).*2 = t.
Proof.
  intros Hclean Hc Hsector Ht.
  apply elem_of_head in Ht. unfold sort_values_desc in Ht.
  rewrite elem_of_sort_by in Ht. apply elem_of_groupby_agg in Ht as [_ ->].
  unfold get_sectoral_breakdown.
  replace (truthy_str (Some c)) with (Some c) by (by destruct c).
  unfold sort_values_desc.
  rewrite (fsum_perm _ ((groupby_agg String.leb sum_skipna sector value (filter_country c df)).*2)).
  2:{ apply fmap_Permutation, sort_by_perm. }
  unfold groupby_agg. rewrite <- list_fmap_compose.
  rewrite sum_skipna_fsum by (by apply is_clean_values).
  change (filter_country c df) with (List.filter (fun r => bool_decide (country r = Some c)) df).
  set (dfc := List.filter (fun r => bool_decide (country r = Some c)) df).
  transitivity (fsum (map (fun k => fsum (map value (group sector k dfc)))
                          (group_keys String.leb sector dfc))).
  - f_equal. apply list_fmap_ext. intros _ k _. simpl.
    apply sum_skipna_fsum. unfold group, dfc.
    apply Forall_forall. intros x Hx.
    change (map value ?l) with (value <$> l) in Hx.
    apply list_elem_of_fmap in Hx as (r & -> & Hr).
    apply elem_of_filter_bool in Hr as [Hr _]. apply elem_of_filter_bool in Hr as [Hr _].
    unfold is_clean in Hclean. rewrite Forall_forall in Hclean. by apply Hclean.
  - rewrite fsum_groups by apply NoDup_group_keys.
    rewrite filter_in_keys_all; [done|].
    intros r Hr. apply elem_of_filter_bool in Hr as [Hr Hrc].
    apply bool_decide_eq_true in Hrc. by apply Hsector.
Qed.

Lemma sectoral_breakdown_adds_up_witness :
  is_clean scenario /\ "A" <> "" /\
  fsum (get_sectoral_breakdown (Some "A") scenario).*2 = of_Z 300.
Proof.
  assert (Hclean : is_clean scenario) by (repeat constructor; done).
  split; [exact Hclean|]. split; [done|].
  apply (sectoral_breakdown_adds_up scenario "A" 2 (of_Z 300) Hclean).
  - done.
  - intros r Hr _. unfold scenario in Hr.
    repeat (apply elem_of_cons in Hr as [->|Hr]; [done|]).
    by apply elem_of_nil in Hr.
  - vm_compute. apply list_elem_of_here.
Defined.

(** ** add_derived_metrics *)

Lemma filter_unique_key {R K : Type} `{EqDecision K} (rkey : R -> K) (k : K) (right : list R) :
  NoDup (rkey <$> right) ->
  (length (List.filter (fun r => bool_decide (rkey r = k)) right) <= 1)%nat.
Proof.
  induction right as [|r right IH]; simpl; [lia|].
  rewrite NoDup_cons. intros [Hr Hnd].
  case_bool_decide as Hk; simpl; [|by apply IH].
  replace (List.filter (fun r0 => bool_decide (rkey r0 = k)) right) with (@nil R); [simpl; lia|].
  symmetry. apply length_zero_iff_nil.
  destruct (List.filter _ right) as [|r' rs] eqn:Hf; [done|]. exfalso. apply Hr.
  assert (Hin : r' ∈ List.filter (fun r0 => bool_decide (rkey r0 = k)) right)
    by (rewrite Hf; apply list_elem_of_here).
  apply elem_of_filter_bool in Hin as [Hin Hk']. apply bool_decide_eq_true in Hk'.
  apply list_elem_of_fmap. exists r'. split; [congruence|done].
Qed.

Lemma merge_left_unique {L R O : Type} (lkey : L -> option string * option Z)
    (rkey : R -> option string * option Z) (join : L -> option R -> O) (proj : O -> L)
    (left : list L) (right : list R) :
  NoDup (rkey <$> right) ->
  (forall l r, proj (join l r) = l) ->
  proj <$> merge_left lkey rkey join left right = left.
Proof.
  intros Hnd Hproj. unfold merge_left.
  induction left as [|l left IH]; [done|].
  cbn [map concat]. rewrite fmap_app.
  change (l :: left) with ([l] ++ left). f_equal; [clear IH|exact IH].
  pose proof (filter_unique_key rkey (lkey l) right Hnd) as Hlen.
  destruct (List.filter _ right) as [|m [|m' ms]]; simpl in *; try lia.
  - by rewrite Hproj.
  - by rewrite Hproj.
Qed.

Lemma yearly_totals_keys_NoDup (df : DataFrame) :
  NoDup ((fun t : string * Z * float64 => (Some t.1.1, Some t.1.2)) <$> yearly_totals df).
Proof.
  unfold yearly_totals.
  change (?f <$> ?l) with ((fun k : string * Z => (Some k.1, Some k.2)) ∘ fst <$> l).
  rewrite (list_fmap_compose fst (fun k : string * Z => (Some k.1, Some k.2))).
  apply NoDup_fmap_2.
  - intros [a b] [c d]. simpl. congruence.
  - rewrite groupby_agg_keys. apply NoDup_group_keys.
Qed.

(** C6: without a population and a GDP table, [add_derived_metrics]
    returns the rows it was given, one for one and in order, with every
    original column as it was ([country], [sector] and [value] among
    them); the only column added is [total_emissions]. *)
Theorem derive_metrics_without_tables (df : DataFrame) :
  length (add_derived_metrics df None None) = length df /\
  obs <$> add_derived_metrics df None None = df /\
  (fun m => country (obs m)) <$> add_derived_metrics df None None = country <$> df /\
  (fun m => sector (obs m)) <$> add_derived_metrics df None None = sector <$> df /\
  (fun m => value (obs m)) <$> add_derived_metrics df None None = value <$> df /\
  Forall (fun m => m_population m = None /\ emissions_per_capita m = None /\
                   m_gdp m = None /\ emission_intensity m = None)
         (add_derived_metrics df None None).
Proof.
  assert (Hobs : obs <$> add_derived_metrics df None None = df).
  { unfold add_derived_metrics. apply merge_left_unique.
    - apply yearly_totals_keys_NoDup.
    - done. }
  split; [|split; [exact Hobs|split; [|split; [|split]]]].
  - rewrite <- Hobs at 2. by rewrite length_fmap.
  - rewrite <- Hobs at 2. by rewrite <- list_fmap_compose.
  - rewrite <- Hobs at 2. by rewrite <- list_fmap_compose.
  - rewrite <- Hobs at 2. by rewrite <- list_fmap_compose.
  - unfold add_derived_metrics, merge_left. apply Forall_concat, Forall_forall.
    intros ms Hms. change (map ?f ?l) with (f <$> l) in Hms.
    apply list_elem_of_fmap in Hms as (r & -> & _).
    destruct (List.filter _ _) as [|m ms]; [by repeat constructor|].
    apply Forall_forall. intros x Hx. change (map ?f ?l) with (f <$> l) in Hx.
    apply list_elem_of_fmap in Hx as (t & -> & _). done.
Qed.

(** ** clean_data *)

Lemma lstrip_lstrip s : lstrip (lstrip s) = lstrip s.
Proof.
  induction s as [|a s IH]; simpl; [done|].
  destruct (is_space a) eqn:Ha; [done|]. simpl. by rewrite Ha.
Qed.

Lemma rstrip_cons a s :
  rstrip (String a s) =
  match rstrip s with
  | EmptyString => if is_space a then EmptyString else String a EmptyString
  | t => String a t
  end.
Proof. done. Qed.

Lemma rstrip_rstrip s : rstrip (rstrip s) = rstrip s.
Proof.
  induction s as [|a s IH]; [done|].
  rewrite rstrip_cons.
  destruct (rstrip s) as [|b t] eqn:Ht.
  - destruct (is_space a) eqn:Ha; [done|]. rewrite rstrip_cons. simpl. by rewrite Ha.
  - rewrite rstrip_cons, IH. done.
Qed.

Lemma lstrip_starts_clean s : starts_clean (lstrip s).
Proof.
  induction s as [|a s IH]; simpl; [done|].
  destruct (is_space a) eqn:Ha; [done|]. done.
Qed.

Lemma lstrip_id s : starts_clean s -> lstrip s = s.
Proof. destruct s as [|a s]; simpl; [done|]. by intros ->. Qed.

Lemma rstrip_starts_clean s : starts_clean s -> starts_clean (rstrip s).
Proof.
  destruct s as [|a s]; [done|]. simpl. intros Ha.
  destruct (rstrip s); [by rewrite Ha|done].
Qed.

Lemma strip_strip s : strip (strip s) = strip s.
Proof.
  unfold strip.
  rewrite (lstrip_id (rstrip (lstrip s))).
  - apply rstrip_rstrip.
  - apply rstrip_starts_clean, lstrip_starts_clean.
Qed.

Lemma dropna_critical_clean (df : DataFrame) : is_clean (dropna_critical df).
Proof.
  apply Forall_forall. intros r Hr.
  apply elem_of_filter_bool in Hr as [_ Hr]. unfold critical_present in Hr.
  apply andb_true_iff in Hr as [Hr Hv]. apply andb_true_iff in Hr as [Hc Hd].
  apply bool_decide_eq_true in Hc, Hd. repeat split; try done.
  by destruct (value r).
Qed.

Lemma strip_names_clean (b : bool) (df : DataFrame) :
  is_clean df -> is_clean (strip_names b <$> df).
Proof.
  unfold is_clean. rewrite Forall_fmap. intros H.
  eapply Forall_impl; [exact H|].
  intros r (Hc & Hd & Hv). simpl. repeat split; try done.
  by destruct (country r).
Qed.

Lemma filter_map_comm {A B : Type} (f : B -> bool) (g : A -> B) (l : list A) :
  List.filter f (map g l) = map g (List.filter (fun x => f (g x)) l).
Proof.
  induction l as [|x l IH]; simpl; [done|].
  destruct (f (g x)); simpl; by rewrite IH.
Qed.

Lemma filter_length_split {A : Type} (f : A -> bool) (l : list A) :
  (length (List.filter f l) + length (List.filter (fun x => negb (f x)) l))%nat = length l.
Proof.
  induction l as [|x l IH]; simpl; [done|]. destruct (f x); simpl; lia.
Qed.

Example clean_data_bad_rows :
  clean_data raw_with_bad_rows = ([observation "A" (Some "Energy") 2020 100], 3%nat).
Proof. vm_compute. reflexivity. Qed.

(** C3: every row [clean_data] returns has a country, a date and a
    numeric value; each returned row is an input row that had all three
    after coercion (with only its names stripped), so a row lacking one is
    dropped, never repaired; the number of dropped rows is returned beside
    the table and accounts for every missing row. *)
Theorem clean_data_rows_valid (raw : RawFrame) :
  is_clean (clean_data raw).1 /\
  (forall r, r ∈ (clean_data raw).1 ->
     exists r0, r0 ∈ raw_rows raw /\ critical_present (coerce r0) = true /\
                r = strip_names (has_sector raw) (coerce r0)) /\
  (clean_data raw).2 =
    length (List.filter (fun r0 => negb (critical_present (coerce r0))) (raw_rows raw)) /\
  (length (clean_data raw).1 + (clean_data raw).2)%nat = length (raw_rows raw).
Proof.
  unfold clean_data. cbn [fst snd]. split; [|split; [|split]].
  - apply (strip_names_clean _ (dropna_critical _)), dropna_critical_clean.
  - intros r Hr. change (map ?f ?l) with (f <$> l) in Hr.
    apply list_elem_of_fmap in Hr as (r1 & -> & Hr1).
    apply elem_of_filter_bool in Hr1 as [Hr1 Hp].
    change (map ?f ?l) with (f <$> l) in Hr1.
    apply list_elem_of_fmap in Hr1 as (r0 & -> & Hr0). eauto.
  - unfold dropna_critical.
    pose proof (filter_length_split critical_present (map coerce (raw_rows raw))) as H.
    rewrite (filter_map_comm (fun x => negb (critical_present x))), length_map in H.
    lia.
  - rewrite !length_map. unfold dropna_critical.
    pose proof (filter_length_split critical_present (map coerce (raw_rows raw))) as H.
    rewrite length_map in H. lia.
Qed.

Lemma map_fixed {A : Type} (f : A -> A) (l : list A) :
  Forall (fun x => f x = x) l -> map f l = l.
Proof. induction 1 as [|x l Hx _ IH]; cbn [map]; [done|]. by rewrite Hx, IH. Qed.

Lemma filter_all {A : Type} (f : A -> bool) (l : list A) :
  Forall (fun x => f x = true) l -> List.filter f l = l.
Proof. induction 1 as [|x l Hx _ IH]; simpl; [done|]. rewrite Hx. by f_equal. Qed.

Lemma clean_settled (df : DataFrame) :
  Forall settled df -> clean_data (as_raw_data df) = (df, 0%nat).
Proof.
  intros H. unfold clean_data, as_raw_data. cbn [raw_rows has_sector].
  rewrite map_map.
  rewrite (map_fixed (fun r => coerce (as_raw_row r))).
  2:{ eapply Forall_impl; [exact H|]. by intros r (Hr & _). }
  unfold dropna_critical. rewrite filter_all.
  2:{ eapply Forall_impl; [exact H|]. by intros r (_ & Hr & _). }
  rewrite map_fixed.
  2:{ eapply Forall_impl; [exact H|]. by intros r (_ & _ & Hr). }
  f_equal. lia.
Qed.

Lemma strip_names_settled (b : bool) (r0 : raw_row) :
  critical_present (coerce r0) = true -> settled (strip_names b (coerce r0)).
Proof.
  intros Hp. unfold settled. split; [|split].
  - unfold coerce, as_raw_row, strip_names. cbn.
    destruct (to_datetime (raw_date r0)); done.
  - unfold critical_present in *.
    change (date (strip_names b (coerce r0))) with (date (coerce r0)).
    change (value (strip_names b (coerce r0))) with (value (coerce r0)).
    change (country (strip_names b (coerce r0))) with (strip <$> country (coerce r0)).
    apply andb_true_iff in Hp as [Hp Hv]. apply andb_true_iff in Hp as [Hc Hd].
    rewrite Hd, Hv, !andb_true_r.
    apply bool_decide_eq_true. apply bool_decide_eq_true in Hc.
    by destruct (country (coerce r0)).
  - unfold strip_names. cbn. f_equal.
    + destruct (raw_country r0); cbn; [|done]. by rewrite strip_strip.
    + destruct b; [|done]. destruct (raw_sector r0); cbn; [|done]. by rewrite strip_strip.
Qed.

(** C5: [clean_data] run on its own output returns that output again and
    reports no removed row. *)
Theorem clean_data_idempotent (raw : RawFrame) :
  clean_data (as_raw_data (clean_data raw).1) = ((clean_data raw).1, 0%nat).
Proof.
  apply clean_settled. unfold clean_data. cbn [fst].
  apply Forall_forall. intros r Hr. change (map ?f ?l) with (f <$> l) in Hr.
  apply list_elem_of_fmap in Hr as (r1 & -> & Hr1).
  apply elem_of_filter_bool in Hr1 as [Hr1 Hp].
  change (map ?f ?l) with (f <$> l) in Hr1.
  apply list_elem_of_fmap in Hr1 as (r0 & -> & _).
  by apply strip_names_settled.
Qed.

Example clean_data_twice :
  clean_data (as_raw_data (clean_data raw_with_bad_rows).1) =
  ([observation "A" (Some "Energy") 2020 100], 0%nat).
Proof. vm_compute. reflexivity. Qed.

(** ** calculate_growth_rates *)

Lemma string_leb_iff a b : String.leb a b = true <-> a = b \/ String_as_OT.lt a b.
Proof.
  unfold String.leb. rewrite <- String_as_OT.cmp_eq, <- String_as_OT.cmp_lt.
  unfold String_as_OT.cmp. destruct (String.compare a b); intuition congruence.
Qed.

Lemma string_leb_trans a b c :
  String.leb a b = true -> String.leb b c = true -> String.leb a c = true.
Proof.
  rewrite !string_leb_iff. intros [->|H1] [->|H2]; auto.
  right. by eapply String_as_OT.lt_trans.
Qed.

Lemma Z_leb_trans a b c : (a <=? b) = true -> (b <=? c) = true -> (a <=? c) = true.
Proof. rewrite !Z.leb_le. lia. Qed.

Lemma Z_leb_total a b : (a <=? b) = true \/ (b <=? a) = true.
Proof. rewrite !Z.leb_le. lia. Qed.

Section PairOrder.
Context {A B : Type} `{EqDecision A} (la : A -> A -> bool) (lb : B -> B -> bool).
Hypothesis la_total : forall x y, la x y = true \/ la y x = true.
Hypothesis la_trans : forall x y z, la x y = true -> la y z = true -> la x z = true.
Hypothesis la_antisym : forall x y, la x y = true -> la y x = true -> x = y.
Hypothesis lb_total : forall x y, lb x y = true \/ lb y x = true.
Hypothesis lb_trans : forall x y z, lb x y = true -> lb y z = true -> lb x z = true.

Lemma pair_leb_total x y : pair_leb la lb x y = true \/ pair_leb la lb y x = true.
Proof.
  unfold pair_leb. destruct (decide (x.1 = y.1)) as [e|ne].
  - rewrite decide_True by done. apply lb_total.
  - rewrite decide_False by congruence. apply la_total.
Qed.

Lemma pair_leb_trans x y z :
  pair_leb la lb x y = true -> pair_leb la lb y z = true -> pair_leb la lb x z = true.
Proof.
  unfold pair_leb.
  destruct (decide (x.1 = y.1)) as [e1|n1], (decide (y.1 = z.1)) as [e2|n2].
  - rewrite decide_True by congruence. apply lb_trans.
  - rewrite decide_False by congruence. rewrite e1. auto.
  - rewrite decide_False by congruence. rewrite <- e2. auto.
  - intros H1 H2. destruct (decide (x.1 = z.1)) as [e3|n3].
    + exfalso. apply n1. apply la_antisym; [done|]. by rewrite e3.
    + by eapply la_trans.
Qed.
End PairOrder.

Lemma country_year_leb_total x y :
  country_year_leb x y = true \/ country_year_leb y x = true.
Proof. apply pair_leb_total; [apply String.leb_total|apply Z_leb_total]. Qed.

Lemma country_year_leb_trans x y z :
  country_year_leb x y = true -> country_year_leb y z = true -> country_year_leb x z = true.
Proof.
  apply pair_leb_trans.
  - apply string_leb_trans.
  - apply String.leb_antisym.
  - apply Z_leb_trans.
Qed.

Section ShiftFacts.
Context {A K B : Type} `{EqDecision K} (key : A -> K) (val : A -> float64).
Context (mk : A -> float64 -> B).

Lemma last_seen_none k seen :
  (forall r, r ∈ seen -> key r <> k) -> last_seen key val k seen = FNaN.
Proof.
  induction seen as [|r seen IH]; intros H; simpl; [done|].
  rewrite decide_False by (apply H; by left).
  apply IH. intros r' Hr'. apply H. by right.
Qed.

Lemma elem_of_shifted b seen l :
  b ∈ zip_with mk l (shift1_from key val seen l) ->
  exists l1 t l2, l = l1 ++ t :: l2 /\
                  b = mk t (last_seen key val (key t) (reverse l1 ++ seen)).
Proof.
  revert seen. induction l as [|r l IH]; intros seen; simpl.
  - intros H. by apply elem_of_nil in H.
  - intros H. apply elem_of_cons in H as [->|H].
    + by exists [], r, l.
    + apply IH in H as (l1 & t & l2 & -> & ->).
      exists (r :: l1), t, l2. split; [done|].
      by rewrite reverse_cons, <- app_assoc.
Qed.
End ShiftFacts.

(** The yearly rows in the order [calculate_growth_rates] walks them. *)
Lemma yearly_sorted (df : DataFrame) :
  StronglySorted (fun a b : string * Z * float64 => country_year_leb a.1 b.1 = true)
    (sort_by (fun a b => country_year_leb a.1 b.1) (yearly_totals df)).
Proof.
  apply (sort_by_strongly (fun a b : string * Z * float64 => country_year_leb a.1 b.1)).
  - intros x y. apply country_year_leb_total.
  - intros x y z. apply country_year_leb_trans.
Qed.

Lemma yearly_NoDup (df : DataFrame) :
  NoDup (sort_by (fun a b => country_year_leb a.1 b.1) (yearly_totals df)).*1.
Proof.
  rewrite sort_by_perm. unfold yearly_totals.
  rewrite groupby_agg_keys. apply NoDup_group_keys.
Qed.

Lemma elem_of_yearly (df : DataFrame) (t : string * Z * float64) :
  t ∈ sort_by (fun a b => country_year_leb a.1 b.1) (yearly_totals df) ->
  exists r, r ∈ df /\ country r = Some t.1.1 /\ year r = Some t.1.2.
Proof.
  rewrite elem_of_sort_by. destruct t as [[c y] v]. unfold yearly_totals.
  rewrite elem_of_groupby_agg, elem_of_group_keys.
  intros [(r & Hr & Hk) _]. exists r. split; [done|].
  unfold country_year in Hk. destruct (country r), (year r); simplify_eq. done.
Qed.

Lemma pct_change_zero_prev (v : float64) :
  pct_change v fzero =
  match v with
  | FNaN => FNaN
  | FInf s => FInf s
  | FNum q => if Qc_is0 q then FNaN else FInf (Qc_ltb q 0%Qc)
  end.
Proof.
  unfold pct_change, fsub, fzero. destruct v as [|s|q]; simpl; [done| |].
  - by destruct s.
  - replace (q + - 0)%Qc with q by ring.
    change (Qc_is0 0%Qc) with true. cbn iota.
    destruct (Qc_is0 q); [done|]. simpl.
    by destruct (Qc_ltb q 0%Qc).
Qed.

Example growth_rates_three_years :
  growth_rate <$> calculate_growth_rates three_years = [FNaN; of_Z 50; of_Z (-20)].
Proof.
  vm_compute.
  apply (f_equal2 cons eq_refl), (f_equal2 cons); [|apply (f_equal2 cons); [|done]];
    by apply (f_equal FNum), Qc_is_canon.
Qed.

Example growth_rates_zero_start :
  calculate_growth_rates (clean_data raw_zero_start).1 =
  [GrowthRow "A" 2020 (of_Z 0) FNaN FNaN;
   GrowthRow "A" 2021 (of_Z 5) (of_Z 0) (FInf false)].
Proof. vm_compute. reflexivity. Qed.

(** C1, as stated, fails: a prior-year total of zero gives an infinite
    growth rate, not a null one. *)
Lemma growth_rate_after_zero_total_is_infinite :
  ~ (forall g, g ∈ calculate_growth_rates (clean_data raw_zero_start).1 ->
               prev_year_emissions g = of_Z 0 -> growth_rate g = FNaN).
Proof.
  intros H.
  specialize (H (GrowthRow "A" 2021 (of_Z 5) (of_Z 0) (FInf false))).
  assert (Hin : GrowthRow "A" 2021 (of_Z 5) (of_Z 0) (FInf false) ∈
                calculate_growth_rates (clean_data raw_zero_start).1).
  { rewrite growth_rates_zero_start. apply list_elem_of_further, list_elem_of_here. }
  specialize (H Hin eq_refl). discriminate H.
Qed.

(** C1 (amended): [calculate_growth_rates] returns its rows for every
    input table, never an exception, each with the growth rate
    [(value - prev) / prev * 100].  In a country's first observed year the
    previous total and the growth rate are null.  When the previous total
    is zero the growth rate is null only if the current total is zero (or
    null) too, and otherwise plus or minus infinity, by the sign of the
    current total. *)
Theorem growth_rate_undefined_cases (df : DataFrame) (g : growth_row) :
  g ∈ calculate_growth_rates df ->
  growth_rate g = pct_change (g_value g) (prev_year_emissions g) /\
  ((forall r y, r ∈ df -> country r = Some (g_country g) -> year r = Some y -> g_year g <= y) ->
   prev_year_emissions g = FNaN /\ growth_rate g = FNaN) /\
  (prev_year_emissions g = fzero ->
   growth_rate g =
     match g_value g with
     | FNaN => FNaN
     | FInf s => FInf s
     | FNum q => if Qc_is0 q then FNaN else FInf (Qc_ltb q 0%Qc)
     end).
Proof.
  unfold calculate_growth_rates, groupby_shift1. intros Hg.
  apply elem_of_shifted in Hg as (l1 & t & l2 & Hl & ->). cbn.
  split; [done|]. split.
  - intros Hfirst.
    assert (Hprev : last_seen (fun t0 : string * Z * float64 => t0.1.1) snd t.1.1
                      (reverse l1 ++ []) = FNaN).
    { apply last_seen_none. intros x Hx Hc.
      rewrite app_nil_r, elem_of_reverse in Hx.
      pose proof (yearly_sorted df) as Hs. pose proof (yearly_NoDup df) as Hn.
      rewrite Hl in Hs, Hn.
      assert (Hle : country_year_leb x.1 t.1 = true).
      { apply (StronglySorted_app_1_elem_of
                 (fun a b : string * Z * float64 => country_year_leb a.1 b.1 = true)
                 l1 (t :: l2) x t Hs Hx). by left. }
      unfold country_year_leb, pair_leb in Hle. rewrite decide_True in Hle by done.
      apply Z.leb_le in Hle.
      assert (Hx' : x ∈ sort_by (fun a b => country_year_leb a.1 b.1) (yearly_totals df)).
      { rewrite Hl. apply elem_of_app. by left. }
      apply elem_of_yearly in Hx' as (r & Hr & Hrc & Hry).
      rewrite Hc in Hrc. specialize (Hfirst r _ Hr Hrc Hry).
      rewrite fmap_app, fmap_cons in Hn. apply NoDup_app in Hn as (_ & Hn & _).
      apply (Hn x.1); [by apply list_elem_of_fmap_2|].
      replace x.1 with t.1; [by left|].
      destruct x as [[xc xy] xv], t as [[tc ty] tv]. simpl in *. f_equal; [done|lia]. }
    rewrite Hprev. split; [done|]. unfold pct_change, fsub. simpl.
    by destruct t.2.
  - intros ->. apply pct_change_zero_prev.
Qed.

Lemma growth_rate_undefined_cases_witness :
  GrowthRow "A" 2021 (of_Z 5) (of_Z 0) (FInf false) ∈
    calculate_growth_rates (clean_data raw_zero_start).1 /\
  (prev_year_emissions (GrowthRow "A" 2021 (of_Z 5) (of_Z 0) (FInf false)) = fzero ->
   growth_rate (GrowthRow "A" 2021 (of_Z 5) (of_Z 0) (FInf false)) = FInf false).
Proof.
  assert (Hin : GrowthRow "A" 2021 (of_Z 5) (of_Z 0) (FInf false) ∈
                calculate_growth_rates (clean_data raw_zero_start).1).
  { rewrite growth_rates_zero_start. apply list_elem_of_further, list_elem_of_here. }
  split; [exact Hin|].
  exact (proj2 (proj2 (growth_rate_undefined_cases _ _ Hin))).
Defined.

(** ** Running the chart builder on a heap *)

Import CO2Visualizer.

Section HeapSteps.
Context {B : Type}.
Implicit Types (f : ref -> M B) (h k : heap).

Lemma step_ret {A : Type} (a : A) (g : A -> M B) h : (mret a ≫= g) h = g a h.
Proof. done. Qed.

Lemma step_lift_ok {A : Type} (a : A) (g : A -> M B) h : (lift (Ok a) ≫= g) h = g a h.
Proof. done. Qed.

Lemma step_lift_raise {A : Type} e (g : A -> M B) h : (lift (Raise e) ≫= g) h = (Raise e, h).
Proof. done. Qed.

Lemma step_raise {A : Type} e (g : A -> M B) h : (raise e ≫= g) h = (Raise e, h).
Proof. done. Qed.

Lemma step_assoc {A C : Type} (m : M A) (g1 : A -> M C) (g2 : C -> M B) h :
  ((m ≫= g1) ≫= g2) h = (m ≫= (fun a => g1 a ≫= g2)) h.
Proof.
  unfold mbind, M_bind. destruct (m h) as [[a|e] h']; done.
Qed.

Lemma step_new o f h k :
  (new o ≫= f) (h ++ k) = f (length h + length k)%nat (h ++ (k ++ [o])).
Proof.
  unfold mbind, M_bind, new. by rewrite length_app, <- app_assoc.
Qed.

Lemma step_deref_given r o (g : pyobj -> M B) h k :
  h !! r = Some o -> (deref r ≫= g) (h ++ k) = g o (h ++ k).
Proof.
  intros H. unfold mbind, M_bind, deref. by rewrite (lookup_app_l_Some _ _ _ _ H).
Qed.

Lemma step_deref_local (i : nat) o (g : pyobj -> M B) h k :
  k !! i = Some o -> (deref (length h + i)%nat ≫= g) (h ++ k) = g o (h ++ k).
Proof.
  intros H. unfold mbind, M_bind, deref.
  rewrite lookup_app_r by lia.
  replace (length h + i - length h)%nat with i by lia. by rewrite H.
Qed.

Lemma step_assign (i : nat) o (g : unit -> M B) h k :
  (assign (length h + i)%nat o ≫= g) (h ++ k) = g tt (h ++ <[i := o]> k).
Proof.
  unfold mbind, M_bind, assign. by rewrite insert_app_r.
Qed.
End HeapSteps.

Lemma found_given h k r o : h !! r = Some o -> found h k r o.
Proof. by left. Qed.

Lemma found_local h k (i : nat) o : k !! i = Some o -> found h k (length h + i)%nat o.
Proof. right. eauto. Qed.

Section LoadSteps.
Context {B : Type}.
Implicit Types (h k : heap).

Lemma step_deref r o (g : pyobj -> M B) h k :
  found h k r o -> (deref r ≫= g) (h ++ k) = g o (h ++ k).
Proof.
  intros [H|(i & -> & H)]; [by apply step_deref_given|by apply step_deref_local].
Qed.

Lemma step_load_data r df (g : DataFrame -> M B) h k :
  found h k r (ObjData df) -> (load_data r ≫= g) (h ++ k) = g df (h ++ k).
Proof.
  intros H. unfold load_data. by rewrite step_assoc, (step_deref _ _ _ _ _ H).
Qed.

Lemma step_load_table r t (g : Table -> M B) h k :
  found h k r (ObjTable t) -> (load_table r ≫= g) (h ++ k) = g t (h ++ k).
Proof.
  intros H. unfold load_table. by rewrite step_assoc, (step_deref _ _ _ _ _ H).
Qed.

Lemma step_load_pivot r p (g : Pivot -> M B) h k :
  found h k r (ObjPivot p) -> (load_pivot r ≫= g) (h ++ k) = g p (h ++ k).
Proof.
  intros H. unfold load_pivot. by rewrite step_assoc, (step_deref _ _ _ _ _ H).
Qed.

Lemma step_copy r df (g : ref -> M B) h k :
  found h k r (ObjData df) ->
  (copy r ≫= g) (h ++ k) = g (length h + length k)%nat (h ++ (k ++ [ObjData df])).
Proof.
  intros H. unfold copy. by rewrite step_assoc, (step_load_data _ _ _ _ _ H), step_new.
Qed.

Lemma step_getitem cond r df (g : ref -> M B) h k :
  found h k r (ObjData df) ->
  (getitem cond r ≫= g) (h ++ k) =
  g (length h + length k)%nat (h ++ (k ++ [ObjData (List.filter cond df)])).
Proof.
  intros H. unfold getitem. by rewrite step_assoc, (step_load_data _ _ _ _ _ H), step_new.
Qed.

Lemma step_rename_columns (i : nat) names t t' (g : unit -> M B) h k :
  k !! i = Some (ObjTable t) ->
  set_columns names t = Ok t' ->
  (rename_columns (length h + i)%nat names ≫= g) (h ++ k) =
  g tt (h ++ <[i := ObjTable t']> k).
Proof.
  intros H Ht. unfold rename_columns.
  rewrite step_assoc, (step_load_table _ _ _ _ _ (found_local h k i _ H)).
  by rewrite Ht, step_assoc, step_lift_ok, step_assign.
Qed.

Lemma step_setitem_at (i : nat) name series t (g : unit -> M B) h k :
  k !! i = Some (ObjTable t) ->
  (setitem_at (length h + i)%nat name series ≫= g) (h ++ k) =
  g tt (h ++ <[i := ObjTable (setitem name series t)]> k).
Proof.
  intros H. unfold setitem_at.
  rewrite step_assoc, (step_load_table _ _ _ _ _ (found_local h k i _ H)).
  by rewrite step_assign.
Qed.

Lemma step_lift {A : Type} (r : result A) (a : A) (g : A -> M B) h :
  r = Ok a -> (lift r ≫= g) h = g a h.
Proof. by intros ->. Qed.

Lemma step_read_local {A : Type} (name : string) (a : A) (g : A -> M B) h :
  (read_local name (Some a) ≫= g) h = g a h.
Proof. done. Qed.
End LoadSteps.

Ltac find_object :=
  first [ apply found_given; eassumption
        | apply found_local; reflexivity ].

(** One statement of a method body, run on the heap [h ++ k]. *)
Ltac heap_step :=
  first
    [ rewrite step_assoc
    | rewrite step_ret
    | rewrite step_read_local
    | rewrite step_new
    | erewrite step_load_data by find_object
    | erewrite step_load_table by find_object
    | erewrite step_load_pivot by find_object
    | erewrite step_copy by find_object
    | erewrite step_getitem by find_object
    | erewrite step_rename_columns by reflexivity
    | erewrite step_setitem_at by reflexivity
    | erewrite step_lift by reflexivity ];
  cbv beta; cbn [length app Nat.add list_insert insert].

Ltac start_on_heap h :=
  rewrite <- (app_nil_r h) at 1.

(** ** Derived frames built from typed rows *)

Lemma zip_maps {A B C : Type} (f : A -> B) (g : A -> C) (l : list A) :
  zip (map f l) (map g l) = map (fun x => (f x, g x)) l.
Proof. induction l as [|x l IH]; simpl; [done|]. by f_equal. Qed.

Lemma sort_rows_on_encoded {A K R : Type} (leb : K -> K -> bool) (kf : A -> K)
    (enc : A -> R) (l : list A) :
  sort_rows_on leb (map kf l) (map enc l) =
  map enc (sort_by (fun a b => leb (kf a) (kf b)) l).
Proof.
  unfold sort_rows_on. rewrite zip_maps.
  change (map ?f ?x) with (f <$> x).
  rewrite (sort_by_fmap (fun x => (kf x, enc x)) (fun a b => leb (kf a) (kf b))) by done.
  by rewrite <- list_fmap_compose.
Qed.

Lemma filter_mask_encoded {A R : Type} (p : A -> bool) (enc : A -> R) (l : list A) :
  filter_mask (map p l) (map enc l) = map enc (List.filter p l).
Proof.
  unfold filter_mask. rewrite zip_maps.
  induction l as [|x l IH]; simpl; [done|].
  destruct (p x); simpl; [by f_equal|done].
Qed.

Lemma head_map {A B : Type} (f : A -> B) (n : Z) (l : list A) :
  head n (map f l) = map f (head n l).
Proof.
  unfold head. rewrite length_map. change (map f ?x) with (f <$> x).
  destruct (0 <=? n); by rewrite fmap_take.
Qed.

Lemma column_encoded {A : Type} (enc : A -> list cell) cols name (i : nat) (l : list A) :
  index_of name cols = Some i ->
  column name (mkTable cols (map enc l)) = Ok (map (fun x => cell_at i (enc x)) l).
Proof. intros H. unfold column. cbn [columns rows]. by rewrite H, map_map. Qed.

Lemma mapM_encoded {A T : Type} (conv : cell -> option T) (c : A -> cell) (f : A -> T)
    (l : list A) :
  (forall x, conv (c x) = Some (f x)) -> mapM conv (map c l) = Some (map f l).
Proof.
  intros H. apply mapM_Some_2.
  induction l as [|x l IH]; cbn [map]; constructor; auto.
Qed.

Lemma typed_column_encoded {A T : Type} (conv : cell -> option T) what
    (enc : A -> list cell) cols name (i : nat) (f : A -> T) (l : list A) :
  index_of name cols = Some i ->
  (forall x, conv (cell_at i (enc x)) = Some (f x)) ->
  typed_column conv what name (mkTable cols (map enc l)) = Ok (map f l).
Proof.
  intros Hi Hf. unfold typed_column.
  rewrite (column_encoded enc cols name i l Hi). cbn [result_bind].
  by rewrite (mapM_encoded conv (fun x => cell_at i (enc x)) f l Hf).
Qed.

Lemma setitem_new_zip {A : Type} (enc : A -> list cell) cols name
    (l : list A) (series : list float64) :
  index_of name cols = None ->
  setitem name (map CFloat series) (mkTable cols (map enc l)) =
  mkTable (cols ++ [name]) (map (fun x => enc x.1 ++ [CFloat x.2]) (zip l series)).
Proof.
  intros H. unfold setitem. cbn [columns rows]. rewrite H. f_equal.
  revert series. induction l as [|x l IH]; intros [|p series]; simpl; try done.
  by rewrite IH.
Qed.

Lemma setitem_new_encoded {A : Type} (enc : A -> list cell) cols name
    (f : A -> float64) (l : list A) :
  index_of name cols = None ->
  setitem name (map CFloat (map f l)) (mkTable cols (map enc l)) =
  mkTable (cols ++ [name]) (map (fun x => enc x ++ [CFloat (f x)]) l).
Proof.
  intros H. unfold setitem. cbn [columns rows]. rewrite H. f_equal.
  induction l as [|x l IH]; simpl; [done|]. by rewrite IH.
Qed.

Lemma zip_with_maps {A B C D : Type} (op : B -> C -> D) (f : A -> B) (g : A -> C)
    (l : list A) :
  zip_with op (map f l) (map g l) = map (fun x => op (f x) (g x)) l.
Proof. induction l as [|x l IH]; simpl; [done|]. by f_equal. Qed.

Section ShiftEncoded.
Context {A K : Type} `{EqDecision K} (kf : A -> K) (vf : A -> float64).

Lemma last_seen_some (k : K) (seen : list A) :
  last_seen (fst : option K * float64 -> option K) snd (Some k)
            (map (fun x => (Some (kf x), vf x)) seen) =
  last_seen kf vf k seen.
Proof.
  induction seen as [|r seen IH]; simpl; [done|].
  destruct (decide (kf r = k)) as [->|Hne].
  - by rewrite decide_True.
  - rewrite decide_False by congruence. exact IH.
Qed.

Lemma shift1_from_some (seen l : list A) :
  shift1_from (fst : option K * float64 -> option K) snd
              (map (fun x => (Some (kf x), vf x)) seen)
              (map (fun x => (Some (kf x), vf x)) l) =
  shift1_from kf vf seen l.
Proof.
  revert seen. induction l as [|r l IH]; intros seen; simpl; [done|].
  rewrite last_seen_some. f_equal. apply (IH (r :: seen)).
Qed.

Lemma shift1_by_encoded (l : list A) :
  shift1_by (map (fun x => Some (kf x)) l) (map vf l) = groupby_shift1 kf vf l.
Proof.
  unfold shift1_by, groupby_shift1. rewrite zip_maps.
  pose proof (shift1_from_some [] l) as E. cbn [map] in E. rewrite E. clear E.
  generalize (@nil A). induction l as [|r l IH]; intros seen; simpl; [done|].
  by rewrite IH.
Qed.
End ShiftEncoded.

Lemma omap_after_map {K R T : Type} (key : T -> option K) (f : R -> T) (rs : list R) :
  omap (fun r => key (f r)) rs = omap key (map f rs).
Proof.
  induction rs as [|r rs IH]; [done|]. cbn.
  destruct (key (f r)); [f_equal|]; exact IH.
Qed.

Lemma groupby_agg_map {A B K : Type} `{EqDecision K} (kleb : K -> K -> bool)
    (agg : list float64 -> float64) (key : B -> option K) (val : B -> float64)
    (f : A -> B) (l : list A) :
  groupby_agg kleb agg key val (map f l) =
  groupby_agg kleb agg (fun x => key (f x)) (fun x => val (f x)) l.
Proof.
  unfold groupby_agg, group_keys, group. rewrite <- omap_after_map.
  apply map_ext. intros k. by rewrite filter_map_comm, map_map.
Qed.

Lemma express_two_columns {A : Type} (enc : A -> list cell) (kind : chart_kind)
    (cols : list string) (x y c : string) (ix iy ic : nat)
    title labels scale (l : list A) :
  index_of x cols = Some ix -> index_of y cols = Some iy -> index_of c cols = Some ic ->
  express kind (mkTable cols (map enc l)) x y (Some c) title labels scale =
  Ok (mkFigure kind title (map (fun e => cell_at ix (enc e)) l)
               (map (fun e => cell_at iy (enc e)) l)
               (map (fun e => cell_at ic (enc e)) l) [] labels scale None).
Proof.
  intros Hx Hy Hc. unfold express, px_column.
  by rewrite (column_encoded enc cols x ix l Hx), (column_encoded enc cols y iy l Hy),
             (column_encoded enc cols c ic l Hc).
Qed.

Ltac read_column :=
  erewrite step_lift by
    (eapply typed_column_encoded; [reflexivity | intros; reflexivity]);
  cbv beta.

(** ** create_growth_rate_chart *)

Lemma sort_by_ext {A : Type} (l1 l2 : A -> A -> bool) (l : list A) :
  (forall a b, l1 a b = l2 a b) -> sort_by l1 l = sort_by l2 l.
Proof.
  intros H. induction l as [|x l IH]; simpl; [done|]. rewrite IH.
  generalize (sort_by l2 l). intros s. induction s as [|y s IHs]; simpl; [done|].
  rewrite H. by rewrite IHs.
Qed.

Lemma max_skipna_ge (ys : list (option Z)) (y : Z) :
  Some y ∈ ys -> exists m, max_skipna ys = Some m /\ y <= m.
Proof.
  induction ys as [|o ys IH]; intros H.
  - by apply elem_of_nil in H.
  - apply elem_of_cons in H as [<-|H].
    + simpl. destruct (max_skipna ys) as [b|]; eexists; split; try done; lia.
    + destruct (IH H) as (m & Hm & Hle). simpl. rewrite Hm.
      destruct o as [a|]; eexists; split; try done; lia.
Qed.

Lemma growth_rates_chart_yearly (df : DataFrame) :
  calculate_growth_rates df =
  map (fun x => GrowthRow x.1.1.1 x.1.1.2 x.1.2 x.2 (pct_change x.1.2 x.2)) (chart_yearly df).
Proof.
  unfold calculate_growth_rates, chart_yearly. cbv zeta.
  rewrite (sort_by_ext
             (fun a b : string * Z * float64 =>
                pair_leb (opt_leb String.leb) (opt_leb Z.leb)
                         (Some a.1.1, Some a.1.2) (Some b.1.1, Some b.1.2))
             (fun a b : string * Z * float64 => country_year_leb a.1 b.1)).
  2:{ intros [[a b] v] [[c e] w]. unfold country_year_leb, pair_leb. cbn.
      destruct (decide (a = c)) as [->|Hne].
      - by rewrite decide_True.
      - by rewrite decide_False by congruence. }
  rewrite zip_with_zip. apply map_ext. by intros [[[c y] v] p].
Qed.

Lemma growth_ranking_computed (n : Z) (df : DataFrame) :
  growth_ranking n df =
  head n (sort_by (fun a b : string * float64 => desc_before a.2 b.2)
    (groupby_agg String.leb mean_skipna
       (fun x : string * Z * float64 * float64 => Some x.1.1.1)
       (fun x => pct_change x.1.2 x.2)
       (List.filter
          (fun x => opt_ge (Some x.1.1.2)
                      ((fun m => m - 5) <$>
                       max_skipna (map (fun x0 : string * Z * float64 * float64 =>
                                          Some x0.1.1.2) (chart_yearly df))))
          (chart_yearly df)))).
Proof.
  unfold growth_ranking, recent_average_growth, sort_values_desc, in_recent_window, latest_year.
  rewrite growth_rates_chart_yearly, map_map, filter_map_comm, groupby_agg_map.
  cbn [g_country g_year growth_rate].
  do 3 f_equal. apply filter_ext_in. intros x Hx.
  destruct (max_skipna_ge (map (fun x0 : string * Z * float64 * float64 => Some x0.1.1.2)
                               (chart_yearly df)) x.1.1.2) as (m & Hm & Hle).
  { apply list_elem_of_In.
    apply (in_map (fun x0 : string * Z * float64 * float64 => Some x0.1.1.2)). exact Hx. }
  rewrite Hm. cbn. rewrite (proj2 (Z.leb_le _ _) Hle). by rewrite andb_true_r.
Qed.

Lemma growth_chart_run cs th df n :
  exists k, forall (h : heap) d,
    h !! d = Some (ObjData df) ->
    create_growth_rate_chart (mkSelf d cs th) n h =
    (Ok (growth_rate_figure cs n (growth_ranking n df)), h ++ k).
Proof.
  eexists. intros h d Hd. start_on_heap h.
  unfold create_growth_rate_chart. cbn [data color_scale].
  unfold table_by2, table_by1.
  do 3 heap_step.
  read_column. read_column.
  cbn [columns rows].
  rewrite zip_maps,
    (sort_rows_on_encoded _ (fun e : string * Z * float64 => (Some e.1.1, Some e.1.2))).
  do 2 heap_step. read_column. read_column.
  rewrite (shift1_by_encoded (fun x : string * Z * float64 => x.1.1) snd).
  heap_step.
  rewrite setitem_new_zip by reflexivity.
  cbn [app].
  heap_step. read_column. read_column.
  rewrite zip_with_maps.
  heap_step.
  rewrite setitem_new_encoded by reflexivity.
  cbn [app].
  heap_step. read_column.
  cbn [columns rows].
  rewrite map_map, filter_mask_encoded.
  do 2 heap_step. read_column. read_column.
  rewrite zip_maps, groupby_agg_map.
  do 2 heap_step. read_column.
  cbn [columns rows].
  rewrite sort_rows_on_encoded, head_map.
  do 2 heap_step.
  erewrite step_lift by (eapply express_two_columns; reflexivity).
  cbv beta.
  rewrite growth_ranking_computed.
  reflexivity.
Qed.

Example mean_skips_nulls : mean_skipna [FNaN; of_Z 50; of_Z (-20)] = of_Z 15.
Proof. vm_compute. f_equal. by apply Qc_is_canon. Qed.



(** ** create_heatmap *)

Lemma remove_dups_map_inj {A B : Type} `{EqDecision A, EqDecision B} (f : A -> B) (l : list A) :
  (forall x y, f x = f y -> x = y) ->
  remove_dups (map f l) = map f (remove_dups l).
Proof.
  intros Hinj. induction l as [|x l IH]; [done|].
  cbn [map remove_dups]. rewrite IH.
  destruct (decide_rel elem_of x l) as [Hx|Hx];
    destruct (decide_rel elem_of (f x) (map f l)) as [Hy|Hy]; try done.
  - exfalso. apply Hy. change (map f ?l) with (f <$> l). apply list_elem_of_fmap. eauto.
  - exfalso. change (map f ?l) with (f <$> l) in Hy. apply list_elem_of_fmap in Hy.
    destruct Hy as (y & Hy & Hin). apply Hinj in Hy. by subst.
Qed.

Section SortedLabels.
Context {A : Type} `{EqDecision A} (leb : A -> A -> bool).
Hypothesis leb_total : forall x y, leb x y = true \/ leb y x = true.
Hypothesis leb_trans : forall x y z, leb x y = true -> leb y z = true -> leb x z = true.
Hypothesis leb_antisym : forall x y, leb x y = true -> leb y x = true -> x = y.

Lemma sort_dedup_ext (l1 l2 : list A) :
  (forall x, x ∈ l1 <-> x ∈ l2) ->
  sort_by leb (remove_dups l1) = sort_by leb (remove_dups l2).
Proof.
  intros H.
  assert (Hanti : AntiSymm eq (fun a b => leb a b = true))
    by (intros x y; apply leb_antisym).
  apply (StronglySorted_unique (fun a b => leb a b = true)).
  - by apply sort_by_strongly.
  - by apply sort_by_strongly.
  - rewrite !sort_by_perm. apply NoDup_Permutation; try apply NoDup_remove_dups.
    intros x. by rewrite !elem_of_remove_dups.
Qed.
End SortedLabels.

Lemma Z_leb_antisym a b : (a <=? b) = true -> (b <=? a) = true -> a = b.
Proof. rewrite !Z.leb_le. lia. Qed.

Lemma pivot_encoded (Y : list (string * Z * float64)) :
  NoDup Y.*1 ->
  pivot "country" "year" "value"
        (mkTable ["country"; "year"; "value"] (map (row_by2 CStr CInt) Y)) =
  Ok (mkPivot
        (map CStr (sort_by String.leb (remove_dups (map (fun e => e.1.1) Y))))
        (map CInt (sort_by Z.leb (remove_dups (map (fun e => e.1.2) Y))))
        (map (fun c => map (fun y => pivot_cell Y c y)
                           (sort_by Z.leb (remove_dups (map (fun e => e.1.2) Y))))
             (sort_by String.leb (remove_dups (map (fun e => e.1.1) Y))))).
Proof.
  intros Hnd. unfold pivot.
  rewrite (column_encoded (row_by2 CStr CInt) ["country"; "year"; "value"] "country" 0 Y eq_refl).
  rewrite (column_encoded (row_by2 CStr CInt) ["country"; "year"; "value"] "year" 1 Y eq_refl).
  rewrite (column_encoded (row_by2 CStr CInt) ["country"; "year"; "value"] "value" 2 Y eq_refl).
  cbn [result_bind]. rewrite !zip_maps.
  rewrite bool_decide_eq_true_2.
  2:{ change (map ?f Y) with (f <$> Y).
      change (fun x : string * Z * float64 =>
                (cell_at 0 (row_by2 CStr CInt x), cell_at 1 (row_by2 CStr CInt x)))
        with ((fun k : string * Z => (CStr k.1, CInt k.2)) ∘ (fst : string * Z * float64 -> _)).
      rewrite list_fmap_compose. apply NoDup_fmap_2; [|done].
      intros [a b] [c e] [= -> ->]. done. }
  f_equal.
  assert (Hidx : sort_by cell_leb (remove_dups (List.filter (fun c => negb (isnull c))
                   (map (fun x : string * Z * float64 => cell_at 0 (row_by2 CStr CInt x)) Y))) =
                 map CStr (sort_by String.leb (remove_dups (map (fun e => e.1.1) Y)))).
  { rewrite filter_map_comm, filter_all by (by apply Forall_forall).
    change (fun x : string * Z * float64 => cell_at 0 (row_by2 CStr CInt x))
      with (fun x : string * Z * float64 => CStr x.1.1).
    rewrite <- (map_map (fun e : string * Z * float64 => e.1.1) CStr).
    rewrite remove_dups_map_inj by congruence.
    change (map CStr ?l) with (CStr <$> l). by apply sort_by_fmap. }
  assert (Hcol : sort_by cell_leb (remove_dups (List.filter (fun c => negb (isnull c))
                   (map (fun x : string * Z * float64 => cell_at 1 (row_by2 CStr CInt x)) Y))) =
                 map CInt (sort_by Z.leb (remove_dups (map (fun e => e.1.2) Y)))).
  { rewrite filter_map_comm, filter_all by (by apply Forall_forall).
    change (fun x : string * Z * float64 => cell_at 1 (row_by2 CStr CInt x))
      with (fun x : string * Z * float64 => CInt x.1.2).
    rewrite <- (map_map (fun e : string * Z * float64 => e.1.2) CInt).
    rewrite remove_dups_map_inj by congruence.
    change (map CInt ?l) with (CInt <$> l). by apply sort_by_fmap. }
  rewrite Hidx, Hcol. f_equal.
  rewrite !map_map. apply map_ext. intros c. rewrite map_map. apply map_ext. intros y.
  unfold pivot_cell.
  rewrite (filter_map_comm _ (fun x : string * Z * float64 =>
             (cell_at 0 (row_by2 CStr CInt x), cell_at 1 (row_by2 CStr CInt x),
              cell_at 2 (row_by2 CStr CInt x)))).
  rewrite (filter_ext _ (fun e : string * Z * float64 => bool_decide (e.1 = (c, y)))).
  2:{ intros [[a b] v]. apply bool_decide_ext. cbn. split; intros; simplify_eq; done. }
  by destruct (List.filter _ Y).
Qed.

Lemma filter_keyed {K V : Type} `{EqDecision K} (F : K -> V) (k0 : K) (ks : list K) :
  NoDup ks ->
  List.filter (fun e : K * V => bool_decide (e.1 = k0)) (map (fun k => (k, F k)) ks) =
  if decide (k0 ∈ ks) then [(k0, F k0)] else [].
Proof.
  induction 1 as [|k ks Hk Hnd IH]; [done|].
  cbn [map List.filter fst]. rewrite IH.
  destruct (decide (k = k0)) as [->|Hne].
  - rewrite bool_decide_eq_true_2 by done.
    rewrite (decide_True (P := k0 ∈ k0 :: ks)) by (by left).
    by rewrite decide_False.
  - rewrite bool_decide_eq_false_2 by done.
    destruct (decide (k0 ∈ ks)) as [Hin|Hin].
    + rewrite decide_True; [done|by right].
    + rewrite decide_False; [done|]. rewrite elem_of_cons. intuition congruence.
Qed.

Section HeatWindow.
Context (countries : list string) (n : Z) (df : DataFrame).

Lemma heat_frame_window : heat_frame countries n df = window_rows countries n df.
Proof.
  unfold heat_frame, window_rows, selected_rows. apply filter_ext_in. intros r Hr.
  unfold in_trailing_window, heat_max_year, selected_rows.
  destruct (year r) as [y|] eqn:Hy; [|done].
  destruct (max_skipna_ge (map year (List.filter (isin countries) df)) y) as (m & Hm & Hle).
  { rewrite <- Hy. apply list_elem_of_In. by apply in_map. }
  rewrite Hm. cbn. rewrite (proj2 (Z.leb_le _ _) Hle). by rewrite andb_true_r.
Qed.

Lemma window_row_keys (r : row) :
  r ∈ window_rows countries n df ->
  exists c y, country r = Some c /\ year r = Some y.
Proof.
  unfold window_rows, selected_rows. intros H.
  apply elem_of_filter_bool in H as [H Hw].
  apply elem_of_filter_bool in H as [_ Hc].
  unfold isin in Hc. unfold in_trailing_window in Hw.
  destruct (country r) as [c|]; [|done]. destruct (year r) as [y|]; [|done]. eauto.
Qed.

Lemma heat_countries_totals :
  sort_by String.leb (remove_dups (map (fun e => e.1.1)
                                       (yearly_totals (window_rows countries n df)))) =
  heat_countries countries n df.
Proof.
  unfold heat_countries.
  apply sort_dedup_ext;
    [apply String.leb_total|apply string_leb_trans|apply String.leb_antisym|].
  intros c. change (map ?f ?l) with (f <$> l).
  rewrite list_elem_of_fmap, list_elem_of_omap. split.
  - intros ([[c' y] v] & -> & He). unfold yearly_totals in He.
    apply elem_of_groupby_agg in He as [Hk _].
    apply elem_of_group_keys in Hk as (r & Hr & Hk). exists r. split; [done|].
    unfold country_year in Hk. destruct (country r), (year r); by simplify_eq.
  - intros (r & Hr & Hc).
    destruct (window_row_keys r Hr) as (c' & y & Hc' & Hy).
    exists (c, y, sum_skipna (map value (group country_year (c, y) (window_rows countries n df)))).
    split; [done|]. unfold yearly_totals. apply elem_of_groupby_agg. split; [|done].
    apply elem_of_group_keys. exists r. split; [done|].
    unfold country_year. by rewrite Hc, Hy.
Qed.

Lemma heat_years_totals :
  sort_by Z.leb (remove_dups (map (fun e => e.1.2)
                                  (yearly_totals (window_rows countries n df)))) =
  heat_years countries n df.
Proof.
  unfold heat_years.
  apply sort_dedup_ext; [apply Z_leb_total|apply Z_leb_trans|apply Z_leb_antisym|].
  intros y. change (map ?f ?l) with (f <$> l).
  rewrite list_elem_of_fmap, list_elem_of_omap. split.
  - intros ([[c y'] v] & -> & He). unfold yearly_totals in He.
    apply elem_of_groupby_agg in He as [Hk _].
    apply elem_of_group_keys in Hk as (r & Hr & Hk). exists r. split; [done|].
    unfold country_year in Hk. destruct (country r), (year r); by simplify_eq.
  - intros (r & Hr & Hy).
    destruct (window_row_keys r Hr) as (c & y' & Hc & Hy').
    exists (c, y, sum_skipna (map value (group country_year (c, y) (window_rows countries n df)))).
    split; [done|]. unfold yearly_totals. apply elem_of_groupby_agg. split; [|done].
    apply elem_of_group_keys. exists r. split; [done|].
    unfold country_year. by rewrite Hc, Hy.
Qed.

Lemma heat_cell_totals (c : string) (y : Z) :
  pivot_cell (yearly_totals (window_rows countries n df)) c y =
  CFloat (heat_cell countries n df c y).
Proof.
  unfold pivot_cell, heat_cell, yearly_totals, groupby_agg.
  rewrite filter_keyed by apply NoDup_group_keys.
  rewrite (filter_ext (fun r => bool_decide (country r = Some c /\ year r = Some y))
                      (fun r => bool_decide (country_year r = Some (c, y)))).
  2:{ intros r. apply bool_decide_ext. unfold country_year.
      destruct (country r), (year r); split; intros; simplify_eq; try done; intuition congruence. }
  fold (group country_year (c, y) (window_rows countries n df)).
  destruct (decide _) as [Hin|Hin].
  - apply elem_of_group_keys in Hin as (r & Hr & Hk).
    assert (Hg : r ∈ group country_year (c, y) (window_rows countries n df))
      by (by apply elem_of_group).
    cbn [snd]. destruct (group country_year (c, y) (window_rows countries n df)); [|done].
    by apply elem_of_nil in Hg.
  - destruct (group country_year (c, y) (window_rows countries n df)) as [|r rs] eqn:Hg; [done|].
    exfalso. apply Hin. apply elem_of_group_keys.
    assert (Hr : r ∈ group country_year (c, y) (window_rows countries n df))
      by (rewrite Hg; by left).
    apply elem_of_group in Hr as [Hr Hk]. eauto.
Qed.
End HeatWindow.

Lemma heatmap_run cs th df countries n :
  exists k, forall (h : heap) d,
    h !! d = Some (ObjData df) ->
    create_heatmap (mkSelf d cs th) countries n h =
    (Ok (heatmap_figure cs n (map CInt (heat_years countries n df))
           (map CStr (heat_countries countries n df))
           (heat_matrix countries n df)), h ++ k).
Proof.
  eexists. intros h d Hd. start_on_heap h.
  unfold create_heatmap. cbn [data color_scale].
  do 5 heap_step.
  fold (heat_frame countries n df). rewrite heat_frame_window.
  heap_step.
  unfold table_by2.
  erewrite step_lift.
  2:{ apply pivot_encoded. unfold yearly_totals. rewrite groupby_agg_keys.
      apply NoDup_group_keys. }
  cbv beta. do 2 heap_step.
  rewrite heat_countries_totals, heat_years_totals.
  unfold heatmap_figure, heat_matrix. cbn [p_columns p_index p_values].
  rewrite (map_ext _ _ (fun c => map_ext _ _ (heat_cell_totals countries n df c) _)).
  reflexivity.
Qed.

Example heatmap_two_by_two :
  (create_heatmap (init 0%nat) ["A"; "B"] 2 [ObjData scenario]).1 =
  Ok (heatmap_figure "Reds" 2 [CInt 2020; CInt 2021] [CStr "A"; CStr "B"]
        [[CFloat (of_Z 100); CFloat (of_Z 200)];
         [CFloat (of_Z 50); CFloat FNaN]]).
Proof. vm_compute. reflexivity. Qed.



(** ** create_comparison_chart *)

Example comparison_total :
  (create_comparison_chart (init 0%nat) ["A"; "B"] "total" [ObjData scenario]).1 =
  Ok (mkFigure Bar "Total CO2 Emissions Comparison"
        [CStr "A"; CStr "B"] [CFloat (of_Z 300); CFloat (of_Z 50)]
        [CFloat (of_Z 300); CFloat (of_Z 50)] []
        [("value", "Total Emissions"); ("country", "Country")] (Some "Reds") (Some 500)).
Proof. vm_compute. reflexivity. Qed.

(** C10: with a metric other than ['total'] and ['average'] neither branch
    binds [data], and the method raises the unbound-variable error when
    it reads it; no figure is returned and no default metric is used. *)
Theorem comparison_unknown_metric_unbound (h : heap) (self : Self) (df : DataFrame)
    (countries : list string) (metric : string) :
  h !! data self = Some (ObjData df) ->
  metric <> "total" ->
  metric <> "average" ->
  (create_comparison_chart self countries metric h).1 = Raise (UnboundLocalError "data").
Proof.
  intros Hd Ht Ha. destruct self as [d cs th]. cbn [data] in Hd.
  start_on_heap h. unfold create_comparison_chart. cbn [data color_scale].
  do 2 heap_step.
  rewrite (proj2 (String.eqb_neq metric "total") Ht).
  rewrite (proj2 (String.eqb_neq metric "average") Ha).
  cbv iota. rewrite step_ret. reflexivity.
Qed.

Lemma comparison_unknown_metric_unbound_witness :
  [ObjData scenario] !! data (init 0%nat) = Some (ObjData scenario) /\
  "median" <> "total" /\ "median" <> "average" /\
  (create_comparison_chart (init 0%nat) ["A"; "B"] "median" [ObjData scenario]).1 =
  Raise (UnboundLocalError "data").
Proof.
  split; [reflexivity|]. split; [discriminate|]. split; [discriminate|].
  apply (comparison_unknown_metric_unbound [ObjData scenario] (init 0%nat) scenario);
    [reflexivity|discriminate|discriminate].
Defined.

(** ** The chart builder never writes to its table *)

Ltac run_method :=
  let h := fresh "h" in
  let d := fresh "d" in
  let Hd := fresh "Hd" in
  eexists; eexists; intros h d Hd; start_on_heap h;
  cbn [data color_scale]; repeat heap_step.

(** Every method returns a result fixed by the table and its arguments, and
    ends with the heap it started on followed by the frames it made. *)
Lemma invoke_frame (df : DataFrame) (cs : string) (th : list (string * string))
    (c : chart_call) :
  exists res k, forall (h : heap) (d : ref),
    h !! d = Some (ObjData df) ->
    invoke (mkSelf d cs th) c h = (res, h ++ k).
Proof.
  destruct c as [n year| |countries|country| | |n|countries year|countries metric
                |countries n]; cbn [invoke].
  - unfold create_top_emitters_bar.
    destruct (truthy_int year) as [y|]; run_method; reflexivity.
  - unfold create_global_trend. run_method. reflexivity.
  - unfold create_country_trends. run_method. reflexivity.
  - unfold create_sectoral_breakdown.
    destruct (truthy_str country) as [y|]; run_method; reflexivity.
  - unfold create_sectoral_trend. run_method. reflexivity.
  - unfold create_animated_map. run_method. reflexivity.
  - destruct (growth_chart_run cs th df n) as [k Hrun]. eauto.
  - unfold create_pie_chart.
    destruct (truthy_int year) as [y|]; run_method; reflexivity.
  - unfold create_comparison_chart.
    destruct (String.eqb metric "total"); [|destruct (String.eqb metric "average")];
      run_method; reflexivity.
  - destruct (heatmap_run cs th df countries n) as [k Hrun]. eauto.
Qed.

Lemma invoke_all_frame (df : DataFrame) (self : Self) (calls : list chart_call) (h : heap) :
  h !! data self = Some (ObjData df) ->
  exists k, (invoke_all self calls h).2 = h ++ k /\
            (invoke_all self calls h).1 = map (fun c => (invoke self c h).1) calls.
Proof.
  destruct self as [d cs th]. cbn [data].
  revert h. induction calls as [|c calls IH]; intros h Hd.
  - exists []. by rewrite app_nil_r.
  - destruct (invoke_frame df cs th c) as (res & k1 & Hc).
    cbn [invoke_all map]. rewrite (Hc h d Hd).
    assert (Hd' : (h ++ k1) !! d = Some (ObjData df)) by (by apply lookup_app_l_Some).
    destruct (IH (h ++ k1) Hd') as (k2 & Hh & Hres).
    destruct (invoke_all (mkSelf d cs th) calls (h ++ k1)) as [rs h''] eqn:Hall.
    cbn [fst snd] in *. exists (k1 ++ k2). split; [by rewrite app_assoc|].
    f_equal. rewrite Hres. apply map_ext. intros c'.
    destruct (invoke_frame df cs th c') as (res' & k' & Hc').
    by rewrite (Hc' h d Hd), (Hc' (h ++ k1) d Hd').
Qed.

Example global_trend_scenario :
  (create_global_trend (init 0%nat) [ObjData scenario]).1 =
  Ok (mkFigure Line "Global CO2 Emissions Trend"
        [CInt 2020; CInt 2021] [CFloat (of_Z 150); CFloat (of_Z 200)] [] []
        [("emissions", "Total CO2 Emissions"); ("year", "Year")] None (Some 500)).
Proof. vm_compute. reflexivity. Qed.

Example charts_twice_scenario :
  (invoke_all (init 0%nat) [GrowthRateChart 5; AnimatedMap; GrowthRateChart 5]
              [ObjData scenario]).2 !! 0%nat = Some (ObjData scenario).
Proof. vm_compute. reflexivity. Qed.

(** C9: whatever chart-producing methods are called, how often and in
    which order, the table the visualizer was given ([self.data]) and every
    other object that existed before the calls are left as they were, and
    each call returns what it returns when it is the first and only
    call. *)
Theorem charts_leave_table_unchanged (h : heap) (self : Self) (df : DataFrame)
    (calls : list chart_call) :
  h !! data self = Some (ObjData df) ->
  (invoke_all self calls h).2 !! data self = Some (ObjData df) /\
  (forall r o, h !! r = Some o -> (invoke_all self calls h).2 !! r = Some o) /\
  (invoke_all self calls h).1 = map (fun c => (invoke self c h).1) calls.
Proof.
  intros Hd. destruct (invoke_all_frame df self calls h Hd) as (k & Hh & Hres).
  rewrite Hh. split; [|split].
  - by apply lookup_app_l_Some.
  - intros r o Hr. by apply lookup_app_l_Some.
  - exact Hres.
Qed.

Lemma charts_leave_table_unchanged_witness :
  [ObjData scenario] !! data (init 0%nat) = Some (ObjData scenario) /\
  (invoke_all (init 0%nat) [TopEmittersBar 2 None; HeatmapChart ["A"; "B"] 2]
              [ObjData scenario]).2 !! data (init 0%nat) = Some (ObjData scenario).
Proof.
  split; [reflexivity|].
  exact (proj1 (charts_leave_table_unchanged [ObjData scenario] (init 0%nat) scenario
                  [TopEmittersBar 2 None; HeatmapChart ["A"; "B"] 2] eq_refl)).
Defined.

(** ** Ranked groups *)

Lemma head_all {A : Type} (n : Z) (l : list A) : Z.of_nat (length l) <= n -> head n l = l.
Proof.
  intros H. unfold head. destruct (Z.leb_spec 0 n); [|lia].
  apply take_ge. lia.
Qed.

Lemma NoDup_head_keys {A B : Type} (n : Z) (l : list (A * B)) : NoDup l.*1 -> NoDup (head n l).*1.
Proof.
  intros H. destruct (head_sublist n l) as [k ->]. rewrite fmap_take.
  eapply sublist_NoDup; [exact H|apply sublist_take].
Qed.

Lemma filter_twice {A : Type} (P Q : A -> Prop) `{forall x, Decision (P x), forall x, Decision (Q x)}
    (l : list A) :
  List.filter (fun r => bool_decide (P r)) (List.filter (fun r => bool_decide (Q r)) l) =
  List.filter (fun r => bool_decide (P r /\ Q r)) l.
Proof.
  induction l as [|x l IH]; simpl; [done|].
  destruct (decide (Q x)) as [HQ|HQ].
  - rewrite (bool_decide_eq_true_2 _ HQ). simpl. rewrite IH.
    destruct (decide (P x)) as [HP|HP].
    + by rewrite (bool_decide_eq_true_2 _ HP), bool_decide_eq_true_2.
    + rewrite (bool_decide_eq_false_2 _ HP), bool_decide_eq_false_2; [done|tauto].
  - rewrite (bool_decide_eq_false_2 _ HQ), bool_decide_eq_false_2; [done|tauto].
Qed.

(** Grouped sums add up to the column's sum when no row has a null key or
    a null value. *)
Lemma group_sums_total {A K : Type} `{EqDecision K} (kleb : K -> K -> bool)
    (key : A -> option K) (val : A -> float64) (l : list A) :
  (forall r, r ∈ l -> key r <> None) ->
  Forall (fun x => x <> FNaN) (map val l) ->
  fsum (groupby_agg kleb sum_skipna key val l).*2 = fsum (map val l).
Proof.
  intros Hkey Hval.
  unfold groupby_agg. rewrite <- list_fmap_compose.
  transitivity (fsum (map (fun k => fsum (map val (group key k l)))
                          (group_keys kleb key l))).
  - f_equal. apply list_fmap_ext. intros _ k _. simpl.
    apply sum_skipna_fsum. unfold group.
    apply Forall_forall. intros x Hx.
    change (map val ?l) with (val <$> l) in Hx.
    apply list_elem_of_fmap in Hx as (r & -> & Hr).
    apply elem_of_filter_bool in Hr as [Hr _].
    rewrite Forall_forall in Hval. apply Hval.
    change (map val l) with (val <$> l). apply list_elem_of_fmap. eauto.
  - rewrite fsum_groups by apply NoDup_group_keys.
    by rewrite filter_in_keys_all.
Qed.

Section Ranked.
Context (key : row -> option string) (df : DataFrame).

Lemma ranked_descending :
  descending snd (sort_values_desc snd (groupby_agg String.leb sum_skipna key value df)).
Proof. apply sort_values_desc_descending. Qed.

Lemma ranked_keys :
  (sort_values_desc snd (groupby_agg String.leb sum_skipna key value df)).*1 ≡ₚ
  group_keys String.leb key df.
Proof.
  unfold sort_values_desc. rewrite sort_by_perm. by rewrite groupby_agg_keys.
Qed.

Lemma ranked_NoDup :
  NoDup (sort_values_desc snd (groupby_agg String.leb sum_skipna key value df)).*1.
Proof. rewrite ranked_keys. apply NoDup_group_keys. Qed.

Lemma elem_of_ranked k t :
  (k, t) ∈ sort_values_desc snd (groupby_agg String.leb sum_skipna key value df) <->
  (exists r, r ∈ df /\ key r = Some k) /\
  t = sum_skipna (map value (List.filter (fun r => bool_decide (key r = Some k)) df)).
Proof.
  unfold sort_values_desc.
  by rewrite elem_of_sort_by, elem_of_groupby_agg, elem_of_group_keys.
Qed.

Lemma ranked_total :
  (forall r, r ∈ df -> key r <> None) ->
  Forall (fun x => x <> FNaN) (map value df) ->
  fsum (sort_values_desc snd (groupby_agg String.leb sum_skipna key value df)).*2 =
  fsum (map value df).
Proof.
  intros Hkey Hval. unfold sort_values_desc.
  rewrite (fsum_perm _ ((groupby_agg String.leb sum_skipna key value df).*2))
    by apply fmap_Permutation, sort_by_perm.
  by apply group_sums_total.
Qed.
End Ranked.

Lemma truthy_int_nonzero (y : Z) : y <> 0 -> truthy_int (Some y) = Some y.
Proof. intros H. unfold truthy_int. by rewrite (proj2 (Z.eqb_neq y 0) H). Qed.

Lemma truthy_str_nonempty (c : string) : c <> "" -> truthy_str (Some c) = Some c.
Proof. by destruct c. Qed.

(** X8: with a year filter [y] (not 0), [get_top_emitters] ranks only
    countries that have a row in year [y], each with the sum of its
    [value] over that year's rows, in descending order, no country twice
    and at most [n] of them for [n >= 0]; when [n] is at least the number
    of countries of that year, every one of them is listed. *)
Theorem top_emitters_of_one_year (df : DataFrame) (n y : Z) :
  y <> 0 ->
  (0 <= n -> Z.of_nat (length (get_top_emitters n (Some y) df)) <= n) /\
  descending snd (get_top_emitters n (Some y) df) /\
  NoDup (get_top_emitters n (Some y) df).*1 /\
  (forall c t, (c, t) ∈ get_top_emitters n (Some y) df ->
     (exists r, r ∈ df /\ country r = Some c /\ year r = Some y) /\
     t = sum_skipna (map value
           (List.filter (fun r => bool_decide (country r = Some c /\ year r = Some y)) df))) /\
  (Z.of_nat (length (remove_dups (omap country (filter_year y df)))) <= n ->
   forall r c, r ∈ df -> country r = Some c -> year r = Some y ->
     c ∈ (get_top_emitters n (Some y) df).*1).
Proof.
  intros Hy. unfold get_top_emitters. rewrite (truthy_int_nonzero y Hy).
  split; [|split; [|split; [|split]]].
  - apply length_head.
  - apply descending_head, ranked_descending.
  - apply NoDup_head_keys, ranked_NoDup.
  - intros c t H. apply elem_of_head, elem_of_ranked in H as [(r & Hr & Hc) ->].
    unfold filter_year in *. apply elem_of_filter_bool in Hr as [Hr Hry].
    apply bool_decide_eq_true in Hry. split; [by exists r|].
    by rewrite filter_twice.
  - intros Hn r c Hr Hc Hry. rewrite head_all.
    + rewrite ranked_keys. apply elem_of_group_keys. exists r. split; [|done].
      apply elem_of_filter_bool. split; [done|]. by apply bool_decide_eq_true.
    + unfold sort_values_desc. rewrite length_sort_by, length_groupby_agg.
      unfold group_keys. by rewrite length_sort_by.
Qed.

Lemma top_emitters_of_one_year_witness :
  2020 <> 0 /\ descending snd (get_top_emitters 1 (Some 2020) scenario).
Proof.
  split; [lia|].
  exact (proj1 (proj2 (top_emitters_of_one_year scenario 1 2020 ltac:(lia)))).
Defined.

(** X9: when [n] is at least the number of distinct countries,
    [get_top_emitters] lists every country of the table once, and for a
    cleaned table the listed totals add up to the sum of the [value]
    column (sums taken exactly). *)
Theorem top_emitters_cover_all_countries (df : DataFrame) (n : Z) :
  Z.of_nat (length (remove_dups (omap country df))) <= n ->
  NoDup (get_top_emitters n None df).*1 /\
  (forall c, c ∈ (get_top_emitters n None df).*1 <-> exists r, r ∈ df /\ country r = Some c) /\
  (is_clean df -> fsum (get_top_emitters n None df).*2 = fsum (map value df)).
Proof.
  intros Hn. unfold get_top_emitters. cbn [truthy_int].
  split; [apply NoDup_head_keys, ranked_NoDup|].
  rewrite head_all.
  2:{ unfold sort_values_desc. rewrite length_sort_by, length_groupby_agg.
      unfold group_keys. by rewrite length_sort_by. }
  split.
  - intros c. rewrite ranked_keys. apply elem_of_group_keys.
  - intros Hclean. apply ranked_total.
    + intros r Hr. unfold is_clean in Hclean. rewrite Forall_forall in Hclean.
      by apply Hclean.
    + pose proof (is_clean_values df (fun _ => true) Hclean) as H.
      by rewrite filter_all in H by (apply Forall_forall; done).
Qed.

Lemma top_emitters_cover_all_countries_witness :
  Z.of_nat (length (remove_dups (omap country scenario))) <= 2 /\
  NoDup (get_top_emitters 2 None scenario).*1.
Proof.
  split; [vm_compute; discriminate|].
  refine (proj1 (top_emitters_cover_all_countries scenario 2 _)).
  vm_compute; discriminate.
Defined.

(** X10: for a country with a non-empty name, [get_sectoral_breakdown]
    returns one row for every sector that the country has a row of, with
    the sum of [value] over the country's rows of that sector, in
    descending order of the sums. *)
Theorem sectoral_breakdown_of_country (df : DataFrame) (c : string) :
  c <> "" ->
  descending snd (get_sectoral_breakdown (Some c) df) /\
  NoDup (get_sectoral_breakdown (Some c) df).*1 /\
  (forall s t, (s, t) ∈ get_sectoral_breakdown (Some c) df <->
     (exists r, r ∈ df /\ country r = Some c /\ sector r = Some s) /\
     t = sum_skipna (map value
           (List.filter (fun r => bool_decide (sector r = Some s /\ country r = Some c)) df))).
Proof.
  intros Hc. unfold get_sectoral_breakdown. rewrite (truthy_str_nonempty c Hc).
  split; [apply ranked_descending|]. split; [apply ranked_NoDup|].
  intros s t. rewrite elem_of_ranked. unfold filter_country. rewrite filter_twice.
  split; intros [(r & Hr & Hs) ->]; (split; [|done]); exists r.
  - apply elem_of_filter_bool in Hr as [Hr Hrc]. by apply bool_decide_eq_true in Hrc.
  - destruct Hs as [Hrc Hs]. split; [|done]. apply elem_of_filter_bool.
    split; [done|]. by apply bool_decide_eq_true.
Qed.

Lemma sectoral_breakdown_of_country_witness :
  "A" <> "" /\ descending snd (get_sectoral_breakdown (Some "A") scenario).
Proof.
  split; [done|].
  exact (proj1 (sectoral_breakdown_of_country scenario "A" ltac:(done))).
Defined.

(** X11: without a country, and also for the empty name,
    [get_sectoral_breakdown] covers the whole table: one row for every
    sector that occurs, with the sum of [value] over all rows of that
    sector, in descending order; the sums add up to the sum of the
    [value] column when no row has a null sector or value. *)
Theorem sectoral_breakdown_global (df : DataFrame) :
  get_sectoral_breakdown (Some "") df = get_sectoral_breakdown None df /\
  descending snd (get_sectoral_breakdown None df) /\
  NoDup (get_sectoral_breakdown None df).*1 /\
  (forall s t, (s, t) ∈ get_sectoral_breakdown None df <->
     (exists r, r ∈ df /\ sector r = Some s) /\
     t = sum_skipna (map value (List.filter (fun r => bool_decide (sector r = Some s)) df))) /\
  ((forall r, r ∈ df -> sector r <> None /\ value r <> FNaN) ->
   fsum (get_sectoral_breakdown None df).*2 = fsum (map value df)).
Proof.
  split; [done|]. unfold get_sectoral_breakdown. cbn [truthy_str].
  split; [apply ranked_descending|]. split; [apply ranked_NoDup|].
  split; [intros s t; apply elem_of_ranked|].
  intros H. apply ranked_total.
  - intros r Hr. by apply H.
  - apply Forall_forall. intros x Hx.
    change (map value df) with (value <$> df) in Hx.
    apply list_elem_of_fmap in Hx as (r & -> & Hr). by apply H.
Qed.

(** ** calculate_growth_rates, row by row *)

Lemma sort_by_sorted {A : Type} (leb : A -> A -> bool) (l : list A) :
  StronglySorted (before leb) l -> sort_by leb l = l.
Proof.
  induction 1 as [|x l Hl IH Hx]; simpl; [done|].
  rewrite IH. destruct l as [|y l]; [done|]. simpl.
  apply Forall_cons in Hx as [Hxy _]. unfold before in Hxy. by rewrite Hxy.
Qed.

(** [sort_values(['country', 'year'])] finds the grouped rows in that
    order already. *)
Lemma yearly_totals_sorted (df : DataFrame) :
  sort_by (fun a b : string * Z * float64 => country_year_leb a.1 b.1) (yearly_totals df) =
  yearly_totals df.
Proof.
  unfold yearly_totals, groupby_agg.
  change (map ?f ?l) with (f <$> l).
  rewrite (sort_by_fmap _ country_year_leb) by done.
  f_equal. apply sort_by_sorted. unfold group_keys.
  apply sort_by_strongly.
  - apply country_year_leb_total.
  - apply country_year_leb_trans.
Qed.

Lemma length_shift1_from {A K : Type} `{EqDecision K} (key : A -> K) (val : A -> float64)
    (seen l : list A) :
  length (shift1_from key val seen l) = length l.
Proof. revert seen. induction l as [|r l IH]; intros seen; simpl; [done|]. by rewrite IH. Qed.

Lemma growth_rows_totals (df : DataFrame) :
  (fun g => (g_country g, g_year g, g_value g)) <$> calculate_growth_rates df =
  yearly_totals df.
Proof.
  unfold calculate_growth_rates. rewrite yearly_totals_sorted.
  apply fmap_zip_with_l.
  - by intros [[c y] v] p.
  - unfold groupby_shift1. by rewrite length_shift1_from.
Qed.

Section ShiftSplit.
Context {A K B : Type} `{EqDecision K} (key : A -> K) (val : A -> float64).
Context (mk : A -> float64 -> B).

Lemma shifted_split b seen l o1 o2 :
  zip_with mk l (shift1_from key val seen l) = o1 ++ b :: o2 ->
  exists l1 t l2, l = l1 ++ t :: l2 /\ length l1 = length o1 /\
                  b = mk t (last_seen key val (key t) (reverse l1 ++ seen)).
Proof.
  revert seen o1. induction l as [|r l IH]; intros seen o1; simpl.
  - intros H. by destruct o1.
  - destruct o1 as [|a o1]; simpl; intros H; injection H as Hh Ht.
    + subst b. by exists [], r, l.
    + apply IH in Ht as (l1 & t & l2 & -> & Hlen & ->).
      exists (r :: l1), t, l2. split; [done|]. split; [simpl; by f_equal|].
      by rewrite reverse_cons, <- app_assoc.
Qed.
End ShiftSplit.

Lemma string_leb_refl (s : string) : String.leb s s = true.
Proof. by destruct (String.leb_total s s). Qed.

Lemma country_year_leb_country (p q : string * Z) :
  country_year_leb p q = true -> String.leb p.1 q.1 = true.
Proof.
  unfold country_year_leb, pair_leb. destruct (decide (p.1 = q.1)) as [->|]; [|done].
  intros _. apply string_leb_refl.
Qed.

Lemma country_year_leb_year (p q : string * Z) :
  country_year_leb p q = true -> p.1 = q.1 -> p.2 <= q.2.
Proof.
  unfold country_year_leb, pair_leb. intros H E. rewrite decide_True in H by done.
  by apply Z.leb_le.
Qed.

(** Two neighbouring rows of the yearly table. *)
Lemma growth_neighbours (df : DataFrame) (o1 o2 : list growth_row) (a b : growth_row) :
  calculate_growth_rates df = o1 ++ a :: b :: o2 ->
  (g_country a = g_country b ->
     g_year a < g_year b /\ prev_year_emissions b = g_value a) /\
  (g_country a <> g_country b -> prev_year_emissions b = FNaN).
Proof.
  intros Hout.
  pose proof (growth_rows_totals df) as Hrows. rewrite Hout in Hrows.
  pose proof (yearly_sorted df) as Hsorted.
  pose proof (yearly_NoDup df) as Hnd.
  unfold calculate_growth_rates in Hout.
  rewrite yearly_totals_sorted in Hout, Hsorted, Hnd.
  pose proof Hout as Hb.
  change (o1 ++ a :: b :: o2) with (o1 ++ [a] ++ b :: o2) in Hb.
  rewrite app_assoc in Hb.
  apply shifted_split in Hb as (l1 & t & l2 & Hl & Hlen & Hbt).
  apply shifted_split in Hout as (l1' & ta & l2' & Hl' & Hlen' & Hat).
  rewrite app_nil_r in Hbt.
  assert (Hl1 : l1 = l1' ++ [ta]).
  { rewrite Hl' in Hl. rewrite length_app in Hlen. simpl in Hlen.
    assert (H1 : take (length l1) (l1' ++ ta :: l2') = l1).
    { rewrite Hl. by rewrite take_app_length. }
    rewrite <- H1, Hlen, <- Hlen'.
    rewrite (cons_middle ta), app_assoc.
    replace (length l1' + 1)%nat with (length (l1' ++ [ta])) by (rewrite length_app; simpl; lia).
    by rewrite take_app_length. }
  subst l1. rewrite reverse_app in Hbt. simpl in Hbt.
  rewrite <- app_assoc in Hl. simpl in Hl.
  rewrite Hl in Hsorted, Hnd.
  assert (Hta : country_year_leb ta.1 t.1 = true).
  { apply StronglySorted_app_1_r, StronglySorted_cons in Hsorted as [Hsorted _].
    by apply Forall_cons in Hsorted as [? _]. }
  assert (Hac : g_country a = ta.1.1) by (by rewrite Hat).
  assert (Hbc : g_country b = t.1.1).
  { rewrite Hbt. by destruct (decide (ta.1.1 = t.1.1)). }
  assert (Hav : g_value a = ta.2) by (by rewrite Hat).
  assert (Hay : g_year a = ta.1.2) by (by rewrite Hat).
  assert (Hby : g_year b = t.1.2).
  { rewrite Hbt. by destruct (decide (ta.1.1 = t.1.1)). }
  split.
  - intros Hc. rewrite Hac, Hbc in Hc. split.
    + pose proof (country_year_leb_year _ _ Hta Hc) as Hle.
      rewrite fmap_app in Hnd. apply NoDup_app in Hnd as (_ & _ & Hnd).
      rewrite !fmap_cons in Hnd. apply NoDup_cons in Hnd as [Hnd _].
      rewrite Hay, Hby. destruct (decide (ta.1.2 = t.1.2)) as [E|]; [|lia].
      exfalso. apply Hnd.
      replace ta.1 with t.1; [left|].
      destruct ta as [[? ?] ?], t as [[? ?] ?]. simpl in *. congruence.
    + rewrite Hbt. simpl. by rewrite decide_True.
  - intros Hc. rewrite Hac, Hbc in Hc.
    rewrite Hbt. simpl. rewrite decide_False by done.
    apply last_seen_none. intros r Hr. rewrite elem_of_reverse in Hr.
    intros Hrc.
    assert (Hrta : country_year_leb r.1 ta.1 = true).
    { apply (StronglySorted_app_1_elem_of _ _ _ r ta Hsorted); [done|left]. }
    apply Hc. apply String.leb_antisym.
    + by apply country_year_leb_country.
    + rewrite <- Hrc. by apply country_year_leb_country.
Qed.

Lemma StronglySorted_fmap_inv {A B : Type} (f : A -> B) (R : B -> B -> Prop) (l : list A) :
  StronglySorted R (f <$> l) -> StronglySorted (fun a b => R (f a) (f b)) l.
Proof.
  induction l as [|x l IH]; [constructor|].
  rewrite fmap_cons, !StronglySorted_cons, Forall_fmap. intros [H1 H2]. auto.
Qed.

Lemma group_country_year (c : string) (y : Z) (df : DataFrame) :
  group country_year (c, y) df =
  List.filter (fun r => bool_decide (country r = Some c /\ year r = Some y)) df.
Proof.
  unfold group. apply List.filter_ext. intros r. apply bool_decide_ext.
  unfold country_year. destruct (country r), (year r); intuition congruence.
Qed.

Lemma elem_of_yearly_totals (df : DataFrame) (c : string) (y : Z) (v : float64) :
  (c, y, v) ∈ yearly_totals df <->
  (exists r, r ∈ df /\ country r = Some c /\ year r = Some y) /\
  v = sum_skipna (map value
        (List.filter (fun r => bool_decide (country r = Some c /\ year r = Some y)) df)).
Proof.
  unfold yearly_totals.
  rewrite elem_of_groupby_agg, elem_of_group_keys, group_country_year.
  split; intros [(r & Hr & Hk) ->]; (split; [|done]); exists r; (split; [done|]).
  - unfold country_year in Hk. destruct (country r), (year r); by simplify_eq.
  - destruct Hk as [Hc Hy]. unfold country_year. by rewrite Hc, Hy.
Qed.

(** X6: [calculate_growth_rates] returns exactly one row for every
    (country, year) that has a row in the table, ordered by country and
    then year, and the row's [value] is the sum of [value] over the
    table's rows of that country and year. *)
Theorem growth_rates_one_row_per_country_year (df : DataFrame) :
  NoDup ((fun g => (g_country g, g_year g)) <$> calculate_growth_rates df) /\
  StronglySorted (fun a b => country_year_leb (g_country a, g_year a) (g_country b, g_year b) = true)
    (calculate_growth_rates df) /\
  (forall c y, (exists g, g ∈ calculate_growth_rates df /\ g_country g = c /\ g_year g = y) <->
               (exists r, r ∈ df /\ country r = Some c /\ year r = Some y)) /\
  (forall g, g ∈ calculate_growth_rates df ->
     g_value g = sum_skipna (map value
       (List.filter (fun r => bool_decide (country r = Some (g_country g) /\
                                          year r = Some (g_year g))) df))).
Proof.
  pose proof (growth_rows_totals df) as Hrows.
  assert (Hin : forall g, g ∈ calculate_growth_rates df ->
                          (g_country g, g_year g, g_value g) ∈ yearly_totals df).
  { intros g Hg. rewrite <- Hrows. apply list_elem_of_fmap. by exists g. }
  split; [|split; [|split]].
  - replace ((fun g => (g_country g, g_year g)) <$> calculate_growth_rates df)
      with (yearly_totals df).*1.
    + unfold yearly_totals. rewrite groupby_agg_keys. apply NoDup_group_keys.
    + rewrite <- Hrows, <- list_fmap_compose. done.
  - apply (StronglySorted_fmap_inv (fun g => (g_country g, g_year g, g_value g))
             (fun a b => country_year_leb a.1 b.1 = true)).
    rewrite Hrows. pose proof (yearly_sorted df) as H.
    by rewrite yearly_totals_sorted in H.
  - intros c y. split.
    + intros (g & Hg & <- & <-). apply Hin, elem_of_yearly_totals in Hg. tauto.
    + intros Hr.
      assert (Ht : (c, y, sum_skipna (map value (List.filter
                 (fun r => bool_decide (country r = Some c /\ year r = Some y)) df)))
                   ∈ yearly_totals df) by (by apply elem_of_yearly_totals).
      rewrite <- Hrows in Ht. apply list_elem_of_fmap in Ht as (g & Hg & Hin').
      exists g. split; [done|]. by simplify_eq.
  - intros g Hg. apply Hin, elem_of_yearly_totals in Hg. tauto.
Qed.

(** X7: of two neighbouring rows of [calculate_growth_rates]: when they
    are of one country, the second is of a later year, its
    [prev_year_emissions] is the first row's total and its growth rate is
    taken against that total, whether or not the years are consecutive;
    when they are of different countries, the second row's
    [prev_year_emissions] and growth rate are null. *)
Theorem growth_rates_previous_row (df : DataFrame) (o1 o2 : list growth_row)
    (a b : growth_row) :
  calculate_growth_rates df = o1 ++ a :: b :: o2 ->
  (g_country a = g_country b ->
     g_year a < g_year b /\ prev_year_emissions b = g_value a /\
     growth_rate b = pct_change (g_value b) (g_value a)) /\
  (g_country a <> g_country b ->
     prev_year_emissions b = FNaN /\ growth_rate b = FNaN).
Proof.
  intros Hout. pose proof (growth_neighbours df o1 o2 a b Hout) as [Hsame Hother].
  assert (Hrate : growth_rate b = pct_change (g_value b) (prev_year_emissions b)).
  { assert (Hb : b ∈ calculate_growth_rates df).
    { rewrite Hout. apply elem_of_app. right. right. left. }
    unfold calculate_growth_rates in Hb.
    apply elem_of_shifted in Hb as (l1 & t & l2 & _ & ->). done. }
  split.
  - intros Hc. destruct (Hsame Hc) as [Hy Hp]. rewrite Hrate, Hp. done.
  - intros Hc. rewrite Hrate, (Hother Hc). split; [done|].
    unfold pct_change, fsub. by destruct (g_value b).
Qed.

Lemma growth_rates_previous_row_witness :
  calculate_growth_rates gap_years =
    [] ++ GrowthRow "A" 2018 (of_Z 100) FNaN FNaN ::
          GrowthRow "A" 2021 (of_Z 150) (of_Z 100) (of_Z 50) ::
          [GrowthRow "B" 2021 (of_Z 70) FNaN FNaN] /\
  prev_year_emissions (GrowthRow "A" 2021 (of_Z 150) (of_Z 100) (of_Z 50)) = of_Z 100.
Proof.
  assert (H : calculate_growth_rates gap_years =
    [] ++ GrowthRow "A" 2018 (of_Z 100) FNaN FNaN ::
          GrowthRow "A" 2021 (of_Z 150) (of_Z 100) (of_Z 50) ::
          [GrowthRow "B" 2021 (of_Z 70) FNaN FNaN]).
  { vm_compute. repeat (f_equal; try apply Qc_is_canon; try reflexivity). }
  split; [exact H|].
  exact (proj1 (proj2 (proj1 (growth_rates_previous_row gap_years _ _ _ _ H) eq_refl))).
Defined.

(** ** Left merges *)

Lemma elem_of_concat {A : Type} (x : A) (ls : list (list A)) :
  x ∈ concat ls <-> exists l, x ∈ l /\ l ∈ ls.
Proof.
  rewrite list_elem_of_In, in_concat. split; intros (l & H1 & H2); exists l.
  - by rewrite !list_elem_of_In.
  - by rewrite <- !list_elem_of_In.
Qed.

Section MergeFacts.
Context {L R O : Type} (lkey : L -> option string * option Z).
Context (rkey : R -> option string * option Z) (join : L -> option R -> O).

Lemma elem_of_merge_left (o : O) (left : list L) (right : list R) :
  o ∈ merge_left lkey rkey join left right <->
  exists l, l ∈ left /\
    ((exists r, r ∈ right /\ rkey r = lkey l /\ o = join l (Some r)) \/
     ((forall r, r ∈ right -> rkey r <> lkey l) /\ o = join l None)).
Proof.
  unfold merge_left. rewrite elem_of_concat. split.
  - intros (os & Ho & Hos). change (map ?f ?l) with (f <$> l) in Hos.
    apply list_elem_of_fmap in Hos as (l & -> & Hl). exists l. split; [done|].
    destruct (List.filter _ right) as [|m ms] eqn:Hf.
    + right. apply list_elem_of_singleton in Ho. split; [|done].
      intros r Hr Hk.
      assert (Hin : r ∈ List.filter (fun r => bool_decide (rkey r = lkey l)) right).
      { apply elem_of_filter_bool. split; [done|]. by apply bool_decide_eq_true. }
      rewrite Hf in Hin. by apply elem_of_nil in Hin.
    + left. change (map ?f ?l) with (f <$> l) in Ho.
      apply list_elem_of_fmap in Ho as (r & -> & Hr). rewrite <- Hf in Hr.
      apply elem_of_filter_bool in Hr as [Hr Hk]. apply bool_decide_eq_true in Hk.
      by exists r.
  - intros (l & Hl & H). eexists. split.
    2:{ change (map ?f ?l) with (f <$> l). apply list_elem_of_fmap. by exists l. }
    cbv beta. destruct H as [(r & Hr & Hk & ->)|[Hnone ->]].
    + assert (Hin : r ∈ List.filter (fun r => bool_decide (rkey r = lkey l)) right).
      { apply elem_of_filter_bool. split; [done|]. by apply bool_decide_eq_true. }
      destruct (List.filter _ right) as [|m ms]; [by apply elem_of_nil in Hin|].
      change (map ?f ?l) with (f <$> l). apply list_elem_of_fmap. by exists r.
    + destruct (List.filter _ right) as [|m ms] eqn:Hf; [apply list_elem_of_here|].
      exfalso.
      assert (Hin : m ∈ List.filter (fun r => bool_decide (rkey r = lkey l)) right)
        by (rewrite Hf; apply list_elem_of_here).
      apply elem_of_filter_bool in Hin as [Hin Hk]. apply bool_decide_eq_true in Hk.
      by apply (Hnone m).
Qed.

(** The left rows behind the merged rows: each one repeated once per
    match. *)
Lemma merge_left_rows {X : Type} (proj : O -> X) (proj0 : L -> X)
    (left : list L) (right : list R) :
  (forall l r, proj (join l r) = proj0 l) ->
  proj <$> merge_left lkey rkey join left right =
  concat (map (fun l => replicate (join_count rkey (Some right) (lkey l)) (proj0 l)) left).
Proof.
  intros Hproj. unfold merge_left.
  induction left as [|l left IH]; [done|].
  cbn [map concat]. rewrite fmap_app. f_equal; [clear IH|exact IH].
  unfold join_count.
  destruct (List.filter _ right) as [|m ms]; simpl; [by rewrite Hproj|].
  rewrite Hproj. f_equal. clear m.
  induction ms as [|m ms IH]; simpl; [done|]. by rewrite Hproj, IH.
Qed.
End MergeFacts.

Lemma concat_replicate_twice {A : Type} (f g : A -> nat) (l : list A) :
  concat (map (fun x => replicate (g x) x) (concat (map (fun x => replicate (f x) x) l))) =
  concat (map (fun x => replicate (f x * g x) x) l).
Proof.
  induction l as [|x l IH]; [done|].
  cbn [map concat]. rewrite map_app, concat_app, IH. f_equal.
  clear IH. induction (f x) as [|n IH]; simpl; [done|].
  by rewrite IH, replicate_add.
Qed.

Lemma concat_replicate_once {A : Type} (l : list A) :
  concat (map (fun x => replicate 1 x) l) = l.
Proof. induction l as [|x l IH]; simpl; [done|]. by f_equal. Qed.

Lemma concat_map_ext {A B : Type} (f g : A -> list B) (l : list A) :
  (forall x, f x = g x) -> concat (map f l) = concat (map g l).
Proof. intros H. induction l as [|x l IH]; simpl; [done|]. by rewrite H, IH. Qed.

(** The rows after the first merge, with the yearly totals. *)
Lemma merged_totals_rows (df : DataFrame) :
  obs <$> merge_left row_key (fun t : string * Z * float64 => (Some t.1.1, Some t.1.2))
            with_total df (yearly_totals df) = df.
Proof. apply merge_left_unique; [apply yearly_totals_keys_NoDup|done]. Qed.

(** X4: [add_derived_metrics] returns every input row, in input order,
    once for each matching row of the population table times each
    matching row of the GDP table (once where nothing matches or no table
    is given).  A table that lists a (country, year) twice so doubles the
    rows of that key; with at most one match per row the rows are those
    of the input. *)
Theorem derived_metrics_row_count (df : DataFrame)
    (population_data : option (list population_row)) (gdp_data : option (list gdp_row)) :
  obs <$> add_derived_metrics df population_data gdp_data =
    concat (map (fun r => replicate (join_count pop_key population_data (row_key r) *
                                     join_count gdp_key gdp_data (row_key r)) r) df) /\
  ((forall r, r ∈ df ->
      (join_count pop_key population_data (row_key r) = 1 /\
       join_count gdp_key gdp_data (row_key r) = 1)%nat) ->
   obs <$> add_derived_metrics df population_data gdp_data = df).
Proof.
  assert (Hrows : obs <$> add_derived_metrics df population_data gdp_data =
    concat (map (fun r => replicate (join_count pop_key population_data (row_key r) *
                                     join_count gdp_key gdp_data (row_key r)) r) df)).
  { unfold add_derived_metrics.
    destruct population_data as [pd|], gdp_data as [gd|].
    - rewrite (merge_left_rows _ _ _ obs obs) by done.
      rewrite <- (map_map obs (fun r => replicate (join_count _ (Some gd) (row_key r)) r)).
      change (map obs ?l) with (obs <$> l).
      rewrite (merge_left_rows _ _ _ obs obs) by done.
      rewrite <- (map_map obs (fun r => replicate (join_count _ (Some pd) (row_key r)) r)).
      change (map obs ?l) with (obs <$> l). rewrite merged_totals_rows.
      apply (concat_replicate_twice (fun r => join_count pop_key (Some pd) (row_key r))
               (fun r => join_count gdp_key (Some gd) (row_key r))).
    - rewrite (merge_left_rows _ _ _ obs obs) by done.
      rewrite <- (map_map obs (fun r => replicate (join_count _ (Some pd) (row_key r)) r)).
      change (map obs ?l) with (obs <$> l). rewrite merged_totals_rows.
      apply concat_map_ext. intros r. cbn [join_count]. by rewrite Nat.mul_1_r.
    - rewrite (merge_left_rows _ _ _ obs obs) by done.
      rewrite <- (map_map obs (fun r => replicate (join_count _ (Some gd) (row_key r)) r)).
      change (map obs ?l) with (obs <$> l). rewrite merged_totals_rows.
      apply concat_map_ext. intros r. cbn [join_count]. by rewrite Nat.mul_1_l.
    - rewrite merged_totals_rows. symmetry. apply concat_replicate_once. }
  split; [exact Hrows|].
  intros Hone. rewrite Hrows. clear Hrows.
  induction df as [|r df IH]; [done|].
  cbn [map concat]. destruct (Hone r) as [-> ->]; [left|].
  simpl. f_equal. apply IH. intros r' Hr'. apply Hone. by right.
Qed.

Lemma merged_totals_values (df : DataFrame) (m : metrics_row) :
  m ∈ merge_left row_key (fun t : string * Z * float64 => (Some t.1.1, Some t.1.2))
        with_total df (yearly_totals df) ->
  obs m ∈ df /\
  (forall c y, country (obs m) = Some c -> year (obs m) = Some y ->
     total_emissions m = sum_skipna (map value
       (List.filter (fun r => bool_decide (country r = Some c /\ year r = Some y)) df))) /\
  (country (obs m) = None \/ year (obs m) = None -> total_emissions m = FNaN) /\
  m_population m = None /\ emissions_per_capita m = None /\
  m_gdp m = None /\ emission_intensity m = None.
Proof.
  rewrite elem_of_merge_left.
  intros (r & Hr & [([[c y] v] & Ht & Hk & ->)|[Hnone ->]]); cbn [with_total obs total_emissions
    m_population emissions_per_capita m_gdp emission_intensity]; (split; [done|]).
  - unfold row_key in Hk. simpl in Hk. injection Hk as Hc Hy.
    apply elem_of_yearly_totals in Ht as [_ ->].
    split; [|split; [|done]].
    + intros c' y' Hc' Hy'.
      assert (c = c') as -> by congruence. assert (y = y') as -> by congruence. done.
    + intros [H|H]; congruence.
  - split; [|done]. intros c y Hc Hy. exfalso.
    apply (Hnone (c, y, sum_skipna (map value (List.filter
             (fun r => bool_decide (country r = Some c /\ year r = Some y)) df)))).
    + apply elem_of_yearly_totals. split; [|done]. by exists r.
    + unfold row_key. simpl. by rewrite Hc, Hy.
Qed.

(** X5: in every row that [add_derived_metrics] returns,
    [total_emissions] is the sum of [value] over the input rows of the
    row's country and year (null when the row has no country or no year);
    with a population table, [emissions_per_capita] is [total_emissions]
    divided by the population of a matching row, and both are null when
    no row of the table matches; likewise [emission_intensity] with a GDP
    table.  Without a table the columns are not there. *)
Theorem derived_metrics_values (df : DataFrame)
    (population_data : option (list population_row)) (gdp_data : option (list gdp_row))
    (m : metrics_row) :
  m ∈ add_derived_metrics df population_data gdp_data ->
  obs m ∈ df /\
  (forall c y, country (obs m) = Some c -> year (obs m) = Some y ->
     total_emissions m = sum_skipna (map value
       (List.filter (fun r => bool_decide (country r = Some c /\ year r = Some y)) df))) /\
  (country (obs m) = None \/ year (obs m) = None -> total_emissions m = FNaN) /\
  match population_data with
  | Some pd =>
      exists p, m_population m = Some p /\
                emissions_per_capita m = Some (fdiv (total_emissions m) p) /\
                joined pop_key population pd (row_key (obs m)) p
  | None => m_population m = None /\ emissions_per_capita m = None
  end /\
  match gdp_data with
  | Some gd =>
      exists g, m_gdp m = Some g /\
                emission_intensity m = Some (fdiv (total_emissions m) g) /\
                joined gdp_key gdp gd (row_key (obs m)) g
  | None => m_gdp m = None /\ emission_intensity m = None
  end.
Proof.
  unfold add_derived_metrics.
  set (M1 := merge_left row_key _ with_total df (yearly_totals df)).
  assert (H1 : forall m1, m1 ∈ M1 -> _) by (intros m1; apply (merged_totals_values df m1)).
  clearbody M1.
  set (M2 := match population_data with
             | Some pd => merge_left (fun m => row_key (obs m))
                            (fun p => (pop_country p, pop_year p)) with_population M1 pd
             | None => M1
             end).
  assert (H2 : forall m2, m2 ∈ M2 ->
    obs m2 ∈ df /\
    (forall c y, country (obs m2) = Some c -> year (obs m2) = Some y ->
       total_emissions m2 = sum_skipna (map value
         (List.filter (fun r => bool_decide (country r = Some c /\ year r = Some y)) df))) /\
    (country (obs m2) = None \/ year (obs m2) = None -> total_emissions m2 = FNaN) /\
    match population_data with
    | Some pd =>
        exists p, m_population m2 = Some p /\
                  emissions_per_capita m2 = Some (fdiv (total_emissions m2) p) /\
                  joined pop_key population pd (row_key (obs m2)) p
    | None => m_population m2 = None /\ emissions_per_capita m2 = None
    end /\
    m_gdp m2 = None /\ emission_intensity m2 = None).
  { intros m2 Hm2. subst M2. destruct population_data as [pd|].
    - apply elem_of_merge_left in Hm2 as (m1 & Hm1 & Hj).
      destruct (H1 m1 Hm1) as (Ho & Ht & Hn & _ & _ & Hg & Hi).
      destruct Hj as [(p & Hp & Hk & ->)|[Hnone ->]];
        cbn [with_population obs total_emissions m_population emissions_per_capita
             m_gdp emission_intensity];
        (split; [done|]); (split; [done|]); (split; [done|]); (split; [|done]);
        eexists; (split; [reflexivity|]); (split; [reflexivity|]).
      + left. by exists p.
      + by right.
    - destruct (H1 m2 Hm2) as (Ho & Ht & Hn & Hp & Hc & Hg & Hi). done. }
  clearbody M2. clear H1 M1.
  intros Hm. destruct gdp_data as [gd|].
  - apply elem_of_merge_left in Hm as (m2 & Hm2 & Hj).
    destruct (H2 m2 Hm2) as (Ho & Ht & Hn & Hp & _).
    destruct Hj as [(g & Hg & Hk & ->)|[Hnone ->]];
      cbn [with_gdp obs total_emissions m_population emissions_per_capita
           m_gdp emission_intensity];
      (split; [done|]); (split; [done|]); (split; [done|]); (split; [done|]);
      eexists; (split; [reflexivity|]); (split; [reflexivity|]).
    + left. by exists g.
    + by right.
  - destruct (H2 m Hm) as (Ho & Ht & Hn & Hp & Hg & Hi). done.
Qed.

Example derived_metrics_duplicate_key :
  map (fun m => (country (obs m), year (obs m), emissions_per_capita m))
      (add_derived_metrics scenario (Some sample_population) None) =
  [(Some "A", Some 2020, Some (of_Z 10));
   (Some "A", Some 2020, Some (of_Z 5));
   (Some "A", Some 2021, Some FNaN);
   (Some "B", Some 2020, Some FNaN)].
Proof. vm_compute. repeat (f_equal; try apply Qc_is_canon). Qed.

Lemma derived_metrics_values_witness :
  exists m, m ∈ add_derived_metrics scenario (Some sample_population) None /\
            obs m ∈ scenario.
Proof.
  assert (Hl : exists m l', add_derived_metrics scenario (Some sample_population) None = m :: l')
    by (vm_compute; eauto).
  destruct Hl as (m & l' & Hl).
  assert (Hm : m ∈ add_derived_metrics scenario (Some sample_population) None)
    by (rewrite Hl; left).
  exists m. split; [exact Hm|].
  exact (proj1 (derived_metrics_values _ _ _ m Hm)).
Defined.

(** ** What clean_data leaves for the later steps *)

Lemma omap_all_none {A B : Type} (f : A -> option B) (l : list A) :
  (forall x, x ∈ l -> f x = None) -> omap f l = [].
Proof.
  induction l as [|x l IH]; intros H; [done|].
  cbn [omap list_omap]. rewrite (H x) by left. apply IH. intros y Hy. apply H. by right.
Qed.

Lemma elem_of_clean_data (raw : RawFrame) (r : row) :
  r ∈ (clean_data raw).1 ->
  exists r0, r0 ∈ raw_rows raw /\ critical_present (coerce r0) = true /\
             r = strip_names (has_sector raw) (coerce r0).
Proof.
  unfold clean_data. cbn [fst]. intros Hr. change (map ?f ?l) with (f <$> l) in Hr.
  apply list_elem_of_fmap in Hr as (r1 & -> & Hr1).
  apply elem_of_filter_bool in Hr1 as [Hr1 Hp].
  change (map ?f ?l) with (f <$> l) in Hr1.
  apply list_elem_of_fmap in Hr1 as (r0 & -> & Hr0). eauto.
Qed.

Lemma clean_data_is_clean (raw : RawFrame) : is_clean (clean_data raw).1.
Proof.
  unfold clean_data. cbn [fst].
  apply (strip_names_clean _ (dropna_critical _)), dropna_critical_clean.
Qed.

Lemma clean_data_dated (raw : RawFrame) (r : row) :
  r ∈ (clean_data raw).1 ->
  exists t, date r = Some t /\ year r = Some (ts_year t) /\ month r = Some (ts_month t).
Proof.
  intros Hr. apply elem_of_clean_data in Hr as (r0 & _ & Hp & ->).
  unfold critical_present in Hp.
  apply andb_true_iff in Hp as [Hp _]. apply andb_true_iff in Hp as [_ Hd].
  apply bool_decide_eq_true in Hd. cbn [strip_names date year month coerce] in *.
  destruct (to_datetime (raw_date r0)) as [t|]; [|done]. by exists t.
Qed.

(** X3: when the raw file has no [sector] column, [clean_data] adds an
    all-null one, and [get_sectoral_breakdown], for any country, returns
    no row at all. *)
Theorem no_sector_column_no_breakdown (raw : RawFrame) (country : option string) :
  has_sector raw = false ->
  (forall r, r ∈ (clean_data raw).1 -> sector r = None) /\
  get_sectoral_breakdown country (clean_data raw).1 = [].
Proof.
  intros Hs.
  assert (Hnone : forall r, r ∈ (clean_data raw).1 -> sector r = None).
  { intros r Hr. apply elem_of_clean_data in Hr as (r0 & _ & _ & ->). by rewrite Hs. }
  split; [exact Hnone|].
  unfold get_sectoral_breakdown.
  set (df := match truthy_str country with
             | Some c => filter_country c (clean_data raw).1
             | None => (clean_data raw).1
             end).
  assert (Hdf : forall r, r ∈ df -> sector r = None).
  { intros r Hr. subst df. destruct (truthy_str country); [|by apply Hnone].
    apply elem_of_filter_bool in Hr as [Hr _]. by apply Hnone. }
  unfold groupby_agg, group_keys. by rewrite (omap_all_none sector df Hdf).
Qed.

Lemma no_sector_column_no_breakdown_witness :
  has_sector raw_without_sector = false /\
  get_sectoral_breakdown None (clean_data raw_without_sector).1 = [].
Proof.
  split; [reflexivity|].
  exact (proj2 (no_sector_column_no_breakdown raw_without_sector None eq_refl)).
Defined.

(** X2: every row of a cleaned table carries the year and the month of
    its date, so the grouping on (country, year) loses no row: every row
    of the cleaned table is counted in exactly one row of
    [calculate_growth_rates], and the yearly totals add up to the sum of
    the [value] column (sums taken exactly). *)
Theorem cleaned_rows_all_counted (raw : RawFrame) :
  (forall r, r ∈ (clean_data raw).1 ->
     exists t, date r = Some t /\ year r = Some (ts_year t) /\ month r = Some (ts_month t)) /\
  NoDup ((fun g => (g_country g, g_year g)) <$> calculate_growth_rates (clean_data raw).1) /\
  (forall r, r ∈ (clean_data raw).1 ->
     exists g c y, g ∈ calculate_growth_rates (clean_data raw).1 /\
       country r = Some c /\ year r = Some y /\ g_country g = c /\ g_year g = y) /\
  fsum (g_value <$> calculate_growth_rates (clean_data raw).1) =
    fsum (value <$> (clean_data raw).1).
Proof.
  pose proof (clean_data_is_clean raw) as Hclean.
  set (df := (clean_data raw).1) in *.
  assert (Hval : Forall (fun x => x <> FNaN) (map value df)).
  { pose proof (is_clean_values df (fun _ => true) Hclean) as H.
    by rewrite filter_all in H by (apply Forall_forall; done). }
  assert (Hkey : forall r, r ∈ df -> country_year r <> None).
  { intros r Hr. unfold country_year.
    destruct (clean_data_dated raw r Hr) as (t & _ & -> & _).
    unfold is_clean in Hclean. rewrite Forall_forall in Hclean.
    destruct (Hclean r Hr) as [Hc _]. by destruct (country r). }
  pose proof (growth_rows_totals df) as Hrows.
  split; [intros r; apply clean_data_dated|]. split; [|split].
  - replace ((fun g => (g_country g, g_year g)) <$> calculate_growth_rates df)
      with (yearly_totals df).*1.
    + unfold yearly_totals. rewrite groupby_agg_keys. apply NoDup_group_keys.
    + rewrite <- Hrows, <- list_fmap_compose. done.
  - intros r Hr. pose proof (Hkey r Hr) as Hk. unfold country_year in Hk.
    destruct (country r) as [c|] eqn:Hc; [|done]. destruct (year r) as [y|] eqn:Hy; [|done].
    assert (Ht : (c, y, sum_skipna (map value (List.filter
               (fun r => bool_decide (country r = Some c /\ year r = Some y)) df)))
                 ∈ yearly_totals df).
    { apply elem_of_yearly_totals. split; [|done]. by exists r. }
    rewrite <- Hrows in Ht. apply list_elem_of_fmap in Ht as (g & Hg & Hin).
    exists g, c, y. by simplify_eq.
  - replace (g_value <$> calculate_growth_rates df) with (yearly_totals df).*2.
    2:{ rewrite <- growth_rows_totals, <- list_fmap_compose. done. }
    by apply group_sums_total.
Qed.

(** ** clean_data keeps what is valid *)


Example clean_data_blank_country :
  (clean_data raw_with_blank_country).1 =
  [Row (Some "") (Some "Energy") (Some (Timestamp 2020 1 1)) (Some 2020) (Some 1) (of_Z 7)].
Proof. vm_compute. reflexivity. Qed.

(** ** The processor object *)





Example session_without_load :
  (session (Some raw_with_bad_rows)
     [GetTopEmitters 5 None; LoadData; SaveProcessedData "out.csv"]
     (ProcessorObject.init "data/raw/dataset.csv")).1 =
  [ProcessorObject.Returns (RankingTable [("A", of_Z 100)]);
   ProcessorObject.Returns (RawTable raw_with_bad_rows);
   ProcessorObject.Returns
     (WrittenFile "out.csv" [observation "A" (Some "Energy") 2020 100])].
Proof. vm_compute. reflexivity. Qed.


(** The file changed after the first cleaning: the ranking is still that
    of the old table. *)
Example stale_after_load_data :
  (ProcessorObject.clean_data (Some raw_with_bad_rows) ≫= fun _ =>
   ProcessorObject.load_data (Some raw_zero_start) ≫= fun _ =>
   ProcessorObject.get_top_emitters (Some raw_zero_start) 5 None)
    (ProcessorObject.init "data/raw/dataset.csv") =
  (ProcessorObject.Returns [("A", of_Z 100)],
   ProcessorObject.mkProcessor "data/raw/dataset.csv" (Some raw_zero_start)
     (Some [observation "A" (Some "Energy") 2020 100])).
Proof. vm_compute. reflexivity. Qed.

(** ** The figures of the simple charts *)

Lemma express_axes {A : Type} (enc : A -> list cell) (kind : chart_kind)
    (cols : list string) (x y : string) (ix iy : nat)
    title labels scale (l : list A) :
  index_of x cols = Some ix -> index_of y cols = Some iy ->
  express kind (mkTable cols (map enc l)) x y None title labels scale =
  Ok (mkFigure kind title (map (fun e => cell_at ix (enc e)) l)
               (map (fun e => cell_at iy (enc e)) l) [] [] labels scale None).
Proof.
  intros Hx Hy. unfold express, px_column.
  by rewrite (column_encoded enc cols x ix l Hx), (column_encoded enc cols y iy l Hy).
Qed.

Ltac plot_step :=
  first
    [ erewrite step_lift by (eapply express_two_columns; reflexivity)
    | erewrite step_lift by (eapply express_axes; reflexivity) ];
  cbv beta.

Ltac run_chart :=
  let h := fresh "h" in
  let d := fresh "d" in
  let Hd := fresh "Hd" in
  eexists; intros h d Hd; start_on_heap h;
  cbn [data color_scale]; unfold table_by1, table_by2;
  repeat first [plot_step | heap_step].

Lemma top_emitters_bar_run cs th df n year :
  exists k, forall (h : heap) d,
    h !! d = Some (ObjData df) ->
    create_top_emitters_bar (mkSelf d cs th) n year h =
    (Ok (mkFigure HBar
           match truthy_int year with
           | Some y => "Top " +:+ pretty n +:+ " CO2 Emitting Countries - " +:+ pretty y
           | None => "Top " +:+ pretty n +:+ " CO2 Emitting Countries (All Time)"
           end
           (map (fun e => CFloat e.2) (get_top_emitters n year df))
           (map (fun e => CStr e.1) (get_top_emitters n year df))
           (map (fun e => CFloat e.2) (get_top_emitters n year df))
           []
           [("emissions", "Total CO2 Emissions"); ("country", "Country")]
           (Some cs) (Some 600)), h ++ k).
Proof.
  unfold create_top_emitters_bar, get_top_emitters.
  destruct (truthy_int year) as [y|]; run_chart; reflexivity.
Qed.

Lemma global_trend_run cs th df :
  exists k, forall (h : heap) d,
    h !! d = Some (ObjData df) ->
    create_global_trend (mkSelf d cs th) h =
    (Ok (mkFigure Line "Global CO2 Emissions Trend"
           (map (fun e => CInt e.1) (groupby_agg Z.leb sum_skipna year value df))
           (map (fun e => CFloat e.2) (groupby_agg Z.leb sum_skipna year value df))
           [] []
           [("emissions", "Total CO2 Emissions"); ("year", "Year")]
           None (Some 500)), h ++ k).
Proof. unfold create_global_trend. run_chart. reflexivity. Qed.

Lemma country_trends_run cs th df countries :
  exists k, forall (h : heap) d,
    h !! d = Some (ObjData df) ->
    create_country_trends (mkSelf d cs th) countries h =
    (Ok (mkFigure Line "CO2 Emissions Trend by Country"
           (map (fun e => CInt e.1.1)
              (groupby_agg (pair_leb Z.leb String.leb) sum_skipna year_country value
                 (List.filter (isin countries) df)))
           (map (fun e => CFloat e.2)
              (groupby_agg (pair_leb Z.leb String.leb) sum_skipna year_country value
                 (List.filter (isin countries) df)))
           (map (fun e => CStr e.1.2)
              (groupby_agg (pair_leb Z.leb String.leb) sum_skipna year_country value
                 (List.filter (isin countries) df)))
           []
           [("value", "CO2 Emissions"); ("year", "Year")]
           None (Some 600)), h ++ k).
Proof. unfold create_country_trends. run_chart. reflexivity. Qed.

Lemma sectoral_breakdown_run cs th df country :
  exists k, forall (h : heap) d,
    h !! d = Some (ObjData df) ->
    create_sectoral_breakdown (mkSelf d cs th) country h =
    (Ok (mkFigure Bar
           match truthy_str country with
           | Some c => "CO2 Emissions by Sector - " +:+ c
           | None => "Global CO2 Emissions by Sector"
           end
           (map (fun e => CStr e.1) (get_sectoral_breakdown country df))
           (map (fun e => CFloat e.2) (get_sectoral_breakdown country df))
           (map (fun e => CFloat e.2) (get_sectoral_breakdown country df))
           []
           [("emissions", "Total CO2 Emissions"); ("sector", "Sector")]
           (Some "Viridis") (Some 500)), h ++ k).
Proof.
  unfold create_sectoral_breakdown, get_sectoral_breakdown.
  destruct (truthy_str country) as [c|]; run_chart; reflexivity.
Qed.

Lemma sectoral_trend_run cs th df :
  exists k, forall (h : heap) d,
    h !! d = Some (ObjData df) ->
    create_sectoral_trend (mkSelf d cs th) h =
    (Ok (mkFigure Area "CO2 Emissions by Sector Over Time"
           (map (fun e => CInt e.1.1)
              (groupby_agg (pair_leb Z.leb String.leb) sum_skipna year_sector value df))
           (map (fun e => CFloat e.2)
              (groupby_agg (pair_leb Z.leb String.leb) sum_skipna year_sector value df))
           (map (fun e => CStr e.1.2)
              (groupby_agg (pair_leb Z.leb String.leb) sum_skipna year_sector value df))
           []
           [("value", "CO2 Emissions"); ("year", "Year")]
           None (Some 600)), h ++ k).
Proof. unfold create_sectoral_trend. run_chart. reflexivity. Qed.

Lemma animated_map_run cs th df :
  exists k, forall (h : heap) d,
    h !! d = Some (ObjData df) ->
    create_animated_map (mkSelf d cs th) h =
    (Ok (mkFigure Choropleth "Global CO2 Emissions Over Time"
           (map (fun e => CStr e.1.1) (yearly_totals df))
           (map (fun e => CFloat e.2) (yearly_totals df))
           (map (fun e => CInt e.1.2) (yearly_totals df))
           []
           [("emissions", "CO2 Emissions")]
           (Some cs) (Some 600)), h ++ k).
Proof. unfold create_animated_map. run_chart. reflexivity. Qed.

Lemma pie_chart_run cs th df countries year :
  exists k, forall (h : heap) d,
    h !! d = Some (ObjData df) ->
    create_pie_chart (mkSelf d cs th) countries year h =
    (Ok (mkFigure Pie
           match truthy_int year with
           | Some y => "CO2 Emissions Share - " +:+ pretty y
           | None => "CO2 Emissions Share (All Time)"
           end
           (map (fun e => CStr e.1)
              (groupby_agg String.leb sum_skipna country value
                 (List.filter (isin countries)
                    match truthy_int year with
                    | Some y => List.filter (year_is y) df
                    | None => df
                    end)))
           (map (fun e => CFloat e.2)
              (groupby_agg String.leb sum_skipna country value
                 (List.filter (isin countries)
                    match truthy_int year with
                    | Some y => List.filter (year_is y) df
                    | None => df
                    end)))
           [] [] [] None None), h ++ k).
Proof.
  unfold create_pie_chart.
  destruct (truthy_int year) as [y|]; run_chart; unfold lift;
    erewrite express_axes by reflexivity; reflexivity.
Qed.

Lemma comparison_chart_run cs th df countries metric :
  metric = "total" \/ metric = "average" ->
  exists k, forall (h : heap) d,
    h !! d = Some (ObjData df) ->
    create_comparison_chart (mkSelf d cs th) countries metric h =
    (Ok (mkFigure Bar
           (if String.eqb metric "total" then "Total CO2 Emissions Comparison"
            else "Average CO2 Emissions Comparison")
           (map (fun e => CStr e.1)
              (groupby_agg String.leb
                 (if String.eqb metric "total" then sum_skipna else mean_skipna)
                 country value (List.filter (isin countries) df)))
           (map (fun e => CFloat e.2)
              (groupby_agg String.leb
                 (if String.eqb metric "total" then sum_skipna else mean_skipna)
                 country value (List.filter (isin countries) df)))
           (map (fun e => CFloat e.2)
              (groupby_agg String.leb
                 (if String.eqb metric "total" then sum_skipna else mean_skipna)
                 country value (List.filter (isin countries) df)))
           []
           [("value", if String.eqb metric "total" then "Total Emissions"
                      else "Average Emissions");
            ("country", "Country")]
           (Some cs) (Some 500)), h ++ k).
Proof.
  unfold create_comparison_chart.
  intros [->| ->]; cbn [String.eqb Ascii.eqb Bool.eqb]; run_chart; reflexivity.
Qed.

(** ** What the simple charts plot *)

Lemma map_fst_fmap {A B C : Type} (f : A -> C) (l : list (A * B)) :
  map (fun e => f e.1) l = f <$> l.*1.
Proof. by rewrite <- list_fmap_compose. Qed.

Lemma map_snd_fmap {A B C : Type} (f : B -> C) (l : list (A * B)) :
  map (fun e => f e.2) l = f <$> l.*2.
Proof. by rewrite <- list_fmap_compose. Qed.

(** X14: the bars of [create_top_emitters_bar] are the rows of the
    processor's [get_top_emitters] for the same table, [n] and year, and
    the bars of [create_sectoral_breakdown] are the rows of
    [get_sectoral_breakdown] for the same table and country. *)
Theorem bar_charts_plot_processor_tables (h : heap) (self : Self) (df : DataFrame)
    (n : Z) (year : option Z) (country : option string) :
  h !! data self = Some (ObjData df) ->
  (exists fig h',
     create_top_emitters_bar self n year h = (Ok fig, h') /\
     fig_kind fig = HBar /\
     fig_y fig = CStr <$> (get_top_emitters n year df).*1 /\
     fig_x fig = CFloat <$> (get_top_emitters n year df).*2 /\
     fig_series fig = fig_x fig) /\
  (exists fig h',
     create_sectoral_breakdown self country h = (Ok fig, h') /\
     fig_kind fig = Bar /\
     fig_x fig = CStr <$> (get_sectoral_breakdown country df).*1 /\
     fig_y fig = CFloat <$> (get_sectoral_breakdown country df).*2 /\
     fig_series fig = fig_y fig).
Proof.
  intros Hd. destruct self as [d cs th]. cbn [data] in Hd. split.
  - destruct (top_emitters_bar_run cs th df n year) as [k Hrun].
    eexists. eexists. split; [by apply Hrun|]. cbn [fig_kind fig_x fig_y fig_series].
    by rewrite map_fst_fmap, map_snd_fmap.
  - destruct (sectoral_breakdown_run cs th df country) as [k Hrun].
    eexists. eexists. split; [by apply Hrun|]. cbn [fig_kind fig_x fig_y fig_series].
    by rewrite map_fst_fmap, map_snd_fmap.
Qed.

Lemma bar_charts_plot_processor_tables_witness :
  [ObjData scenario] !! data (init 0%nat) = Some (ObjData scenario) /\
  exists fig h',
    create_top_emitters_bar (init 0%nat) 2 None [ObjData scenario] = (Ok fig, h') /\
    fig_kind fig = HBar /\
    fig_y fig = CStr <$> (get_top_emitters 2 None scenario).*1 /\
    fig_x fig = CFloat <$> (get_top_emitters 2 None scenario).*2 /\
    fig_series fig = fig_x fig.
Proof.
  split; [reflexivity|].
  exact (proj1 (bar_charts_plot_processor_tables [ObjData scenario] (init 0%nat) scenario
                  2 None None eq_refl)).
Defined.

Lemma sorted_distinct_ascending (l : list Z) :
  StronglySorted (before Z.leb) l -> NoDup l -> StronglySorted Z.lt l.
Proof.
  induction 1 as [|x l Hl IH Hx]; [constructor|].
  rewrite NoDup_cons. intros [Hnx Hnd]. constructor; [by apply IH|].
  apply Forall_forall. intros y Hy. rewrite Forall_forall in Hx.
  pose proof (Hx y Hy) as Hle. unfold before in Hle. apply Z.leb_le in Hle.
  destruct (decide (x = y)) as [->|]; [done|lia].
Qed.

(** X15: [create_global_trend] draws one point for every year that has
    a row, years strictly ascending, each with the sum of [value] over
    that year's rows; the points add up to the sum of the [value] column
    when no row has a null year or value. *)
Theorem global_trend_points (h : heap) (self : Self) (df : DataFrame) :
  h !! data self = Some (ObjData df) ->
  exists fig h' trend,
    create_global_trend self h = (Ok fig, h') /\
    fig_kind fig = Line /\
    fig_x fig = CInt <$> trend.*1 /\
    fig_y fig = CFloat <$> trend.*2 /\
    StronglySorted Z.lt trend.*1 /\
    (forall y s, (y, s) ∈ trend <->
       (exists r, r ∈ df /\ year r = Some y) /\
       s = sum_skipna (map value (List.filter (fun r => bool_decide (year r = Some y)) df))) /\
    ((forall r, r ∈ df -> year r <> None /\ value r <> FNaN) ->
     fsum trend.*2 = fsum (map value df)).
Proof.
  intros Hd. destruct self as [d cs th]. cbn [data] in Hd.
  destruct (global_trend_run cs th df) as [k Hrun].
  eexists. eexists. exists (groupby_agg Z.leb sum_skipna year value df).
  split; [by apply Hrun|]. cbn [fig_kind fig_x fig_y].
  split; [done|]. split; [by rewrite map_fst_fmap|]. split; [by rewrite map_snd_fmap|].
  split; [|split].
  - rewrite groupby_agg_keys. apply sorted_distinct_ascending.
    + apply sort_by_strongly; [apply Z_leb_total|apply Z_leb_trans].
    + apply NoDup_group_keys.
  - intros y s. by rewrite elem_of_groupby_agg, elem_of_group_keys.
  - intros H. apply group_sums_total.
    + intros r Hr. by apply H.
    + apply Forall_forall. intros x Hx.
      change (map value df) with (value <$> df) in Hx.
      apply list_elem_of_fmap in Hx as (r & -> & Hr). by apply H.
Qed.

Lemma global_trend_points_witness :
  [ObjData scenario] !! data (init 0%nat) = Some (ObjData scenario) /\
  exists fig h', create_global_trend (init 0%nat) [ObjData scenario] = (Ok fig, h').
Proof.
  split; [reflexivity|].
  destruct (global_trend_points [ObjData scenario] (init 0%nat) scenario eq_refl)
    as (fig & h' & trend & Hrun & _).
  by exists fig, h'.
Defined.

Lemma filter_filter_bool {A : Type} (f g : A -> bool) (l : list A) :
  List.filter f (List.filter g l) = List.filter (fun x => g x && f x) l.
Proof.
  induction l as [|x l IH]; simpl; [done|].
  destruct (g x); simpl; [|done]. destruct (f x); by rewrite IH.
Qed.

Lemma isin_true (countries : list string) (r : row) :
  isin countries r = true <-> exists c, country r = Some c /\ c ∈ countries.
Proof.
  unfold isin. destruct (country r) as [c|].
  - rewrite bool_decide_eq_true. split; [by exists c|]. by intros (c' & [= ->] & H).
  - split; [done|]. by intros (c' & [=] & _).
Qed.

(** Rows of [c] among the rows of the selected countries. *)
Lemma group_of_selected {K : Type} `{EqDecision K} (key : row -> option K) (k : K)
    (P : row -> Prop) `{forall r, Decision (P r)} (countries : list string) (c : string)
    (df : DataFrame) :
  c ∈ countries ->
  (forall r, key r = Some k <-> country r = Some c /\ P r) ->
  group key k (List.filter (isin countries) df) =
  List.filter (fun r => bool_decide (country r = Some c /\ P r)) df.
Proof.
  intros Hc Hkey. unfold group. rewrite filter_filter_bool.
  apply List.filter_ext. intros r.
  destruct (decide (country r = Some c /\ P r)) as [Hr|Hr].
  - rewrite (bool_decide_eq_true_2 _ Hr). apply andb_true_iff. split.
    + apply isin_true. exists c. by destruct Hr.
    + apply bool_decide_eq_true. by apply Hkey.
  - rewrite (bool_decide_eq_false_2 _ Hr). apply andb_false_iff. right.
    apply bool_decide_eq_false. by rewrite Hkey.
Qed.

Lemma year_country_key (r : row) (y : Z) (c : string) :
  year_country r = Some (y, c) <-> country r = Some c /\ year r = Some y.
Proof. unfold year_country. destruct (year r), (country r); intuition congruence. Qed.

(** X16: [create_country_trends] draws a point for a (year, country)
    exactly when the country is one of those asked for and has a row in
    that year; the point is the sum of [value] over these rows.  A
    country asked for that has no row gets no point, and no (year,
    country) gets two. *)
Theorem country_trends_points (h : heap) (self : Self) (df : DataFrame)
    (countries : list string) :
  h !! data self = Some (ObjData df) ->
  exists fig h' trend,
    create_country_trends self countries h = (Ok fig, h') /\
    fig_kind fig = Line /\
    fig_x fig = map (fun e : Z * string * float64 => CInt e.1.1) trend /\
    fig_series fig = map (fun e : Z * string * float64 => CStr e.1.2) trend /\
    fig_y fig = map (fun e : Z * string * float64 => CFloat e.2) trend /\
    NoDup trend.*1 /\
    (forall y c v, (y, c, v) ∈ trend <->
       c ∈ countries /\
       (exists r, r ∈ df /\ country r = Some c /\ year r = Some y) /\
       v = sum_skipna (map value
             (List.filter (fun r => bool_decide (country r = Some c /\ year r = Some y)) df))).
Proof.
  intros Hd. destruct self as [d cs th]. cbn [data] in Hd.
  destruct (country_trends_run cs th df countries) as [k Hrun].
  eexists. eexists.
  exists (groupby_agg (pair_leb Z.leb String.leb) sum_skipna year_country value
            (List.filter (isin countries) df)).
  split; [by apply Hrun|]. cbn [fig_kind fig_x fig_y fig_series].
  do 4 (split; [done|]). split.
  - rewrite groupby_agg_keys. apply NoDup_group_keys.
  - intros y c v. rewrite elem_of_groupby_agg, elem_of_group_keys. split.
    + intros [(r & Hr & Hk) ->].
      apply elem_of_filter_bool in Hr as [Hr Hin].
      apply year_country_key in Hk as [Hc Hy].
      apply isin_true in Hin as (c' & Hc' & Hin).
      assert (c' = c) as -> by congruence.
      split; [done|]. split; [by exists r|].
      f_equal. f_equal.
      apply (group_of_selected year_country (y, c) (fun r => year r = Some y)); [done|].
      intros r'. apply year_country_key.
    + intros (Hc & (r & Hr & Hrc & Hry) & ->). split.
      * exists r. split; [|by apply year_country_key].
        apply elem_of_filter_bool. split; [done|]. apply isin_true. by exists c.
      * f_equal. f_equal. symmetry.
        apply (group_of_selected year_country (y, c) (fun r => year r = Some y)); [done|].
        intros r'. apply year_country_key.
Qed.

Lemma country_trends_points_witness :
  [ObjData scenario] !! data (init 0%nat) = Some (ObjData scenario) /\
  exists fig h', create_country_trends (init 0%nat) ["A"] [ObjData scenario] = (Ok fig, h').
Proof.
  split; [reflexivity|].
  destruct (country_trends_points [ObjData scenario] (init 0%nat) scenario ["A"] eq_refl)
    as (fig & h' & trend & Hrun & _).
  by exists fig, h'.
Defined.

(** X18: the frames of [create_animated_map] are the rows of the
    processor's [calculate_growth_rates] for the same table: the same
    countries, years and totals in the same order, coloured with the
    visualizer's colour scale. *)
Theorem animated_map_frames (h : heap) (self : Self) (df : DataFrame) :
  h !! data self = Some (ObjData df) ->
  exists fig h',
    create_animated_map self h = (Ok fig, h') /\
    fig_kind fig = Choropleth /\
    fig_x fig = CStr <$> (g_country <$> calculate_growth_rates df) /\
    fig_series fig = CInt <$> (g_year <$> calculate_growth_rates df) /\
    fig_y fig = CFloat <$> (g_value <$> calculate_growth_rates df) /\
    fig_color_scale fig = Some (color_scale self).
Proof.
  intros Hd. destruct self as [d cs th]. cbn [data] in Hd.
  destruct (animated_map_run cs th df) as [k Hrun].
  eexists. eexists. split; [by apply Hrun|].
  cbn [fig_kind fig_x fig_y fig_series fig_color_scale color_scale].
  rewrite <- (growth_rows_totals df).
  change (map ?f ?l) with (f <$> l). rewrite <- !list_fmap_compose. done.
Qed.

Lemma animated_map_frames_witness :
  [ObjData scenario] !! data (init 0%nat) = Some (ObjData scenario) /\
  exists fig h', create_animated_map (init 0%nat) [ObjData scenario] = (Ok fig, h').
Proof.
  split; [reflexivity|].
  destruct (animated_map_frames [ObjData scenario] (init 0%nat) scenario eq_refl)
    as (fig & h' & Hrun & _).
  by exists fig, h'.
Defined.

(** ** Charts of a selection of countries *)

Lemma elem_of_selected_groups (agg : list float64 -> float64) (countries : list string)
    (df : DataFrame) (c : string) (v : float64) :
  (c, v) ∈ groupby_agg String.leb agg country value (List.filter (isin countries) df) <->
  c ∈ countries /\ (exists r, r ∈ df /\ country r = Some c) /\
  v = agg (map value (List.filter (fun r => bool_decide (country r = Some c)) df)).
Proof.
  rewrite elem_of_groupby_agg, elem_of_group_keys.
  assert (Hgroup : c ∈ countries ->
    group country c (List.filter (isin countries) df) =
    List.filter (fun r => bool_decide (country r = Some c)) df).
  { intros Hc. unfold group. rewrite filter_filter_bool.
    apply List.filter_ext. intros r. unfold isin.
    destruct (country r) as [c'|]; [|done].
    destruct (decide (c' = c)) as [->|Hne].
    - by rewrite !bool_decide_eq_true_2.
    - rewrite (bool_decide_eq_false_2 (Some c' = Some c)) by congruence.
      apply andb_false_r. }
  split.
  - intros [(r & Hr & Hk) ->]. apply elem_of_filter_bool in Hr as [Hr Hin].
    apply isin_true in Hin as (c' & Hc' & Hin).
    assert (c' = c) as -> by congruence.
    split; [done|]. split; [by exists r|]. by rewrite Hgroup.
  - intros (Hc & (r & Hr & Hrc) & ->). split; [|by rewrite Hgroup].
    exists r. split; [|done]. apply elem_of_filter_bool. split; [done|].
    apply isin_true. by exists c.
Qed.

(** X20: for the metrics "total" and "average",
    [create_comparison_chart] draws one bar for every country asked for
    that has a row, countries ascending, with the sum or the mean (nulls
    skipped) of the country's [value]; a country asked for that has no
    row gets no bar. *)
Theorem comparison_chart_bars (h : heap) (self : Self) (df : DataFrame)
    (countries : list string) (metric : string) :
  h !! data self = Some (ObjData df) ->
  metric = "total" \/ metric = "average" ->
  exists fig h' bars,
    create_comparison_chart self countries metric h = (Ok fig, h') /\
    fig_kind fig = Bar /\
    fig_x fig = CStr <$> bars.*1 /\
    fig_y fig = CFloat <$> bars.*2 /\
    StronglySorted (fun a b => String.leb a b = true) bars.*1 /\
    NoDup bars.*1 /\
    (forall c v, (c, v) ∈ bars <->
       c ∈ countries /\ (exists r, r ∈ df /\ country r = Some c) /\
       v = (if String.eqb metric "total" then sum_skipna else mean_skipna)
             (map value (List.filter (fun r => bool_decide (country r = Some c)) df))).
Proof.
  intros Hd Hmetric. destruct self as [d cs th]. cbn [data] in Hd.
  destruct (comparison_chart_run cs th df countries metric Hmetric) as [k Hrun].
  eexists. eexists.
  exists (groupby_agg String.leb
            (if String.eqb metric "total" then sum_skipna else mean_skipna)
            country value (List.filter (isin countries) df)).
  split; [by apply Hrun|]. cbn [fig_kind fig_x fig_y].
  split; [done|]. split; [by rewrite map_fst_fmap|]. split; [by rewrite map_snd_fmap|].
  rewrite groupby_agg_keys. split; [|split].
  - apply (sort_by_strongly String.leb); [apply String.leb_total|apply string_leb_trans].
  - apply NoDup_group_keys.
  - intros c v. apply elem_of_selected_groups.
Qed.

Lemma comparison_chart_bars_witness :
  [ObjData scenario] !! data (init 0%nat) = Some (ObjData scenario) /\
  ("average" = "total" \/ "average" = "average") /\
  exists fig h',
    create_comparison_chart (init 0%nat) ["A"; "C"] "average" [ObjData scenario] = (Ok fig, h').
Proof.
  split; [reflexivity|]. split; [by right|].
  destruct (comparison_chart_bars [ObjData scenario] (init 0%nat) scenario ["A"; "C"] "average"
              eq_refl (or_intror eq_refl))
    as (fig & h' & bars & Hrun & _).
  by exists fig, h'.
Defined.

(** X19: [create_pie_chart] draws one slice for every country asked
    for that has a row (in year [y], when a year other than 0 is given),
    with the sum of [value] over these rows; the year 0 counts as no
    year. *)
Theorem pie_chart_slices (h : heap) (self : Self) (df : DataFrame)
    (countries : list string) (year : option Z) :
  h !! data self = Some (ObjData df) ->
  exists fig h' slices,
    create_pie_chart self countries year h = (Ok fig, h') /\
    fig_kind fig = Pie /\
    fig_x fig = CStr <$> slices.*1 /\
    fig_y fig = CFloat <$> slices.*2 /\
    NoDup slices.*1 /\
    (forall y, year = Some y -> y <> 0 ->
       forall c v, (c, v) ∈ slices <->
         c ∈ countries /\ (exists r, r ∈ df /\ country r = Some c /\ year_is y r = true) /\
         v = sum_skipna (map value
               (List.filter (fun r => bool_decide (country r = Some c))
                            (List.filter (year_is y) df)))) /\
    (year = None \/ year = Some 0 ->
       forall c v, (c, v) ∈ slices <->
         c ∈ countries /\ (exists r, r ∈ df /\ country r = Some c) /\
         v = sum_skipna (map value
               (List.filter (fun r => bool_decide (country r = Some c)) df))).
Proof.
  intros Hd. destruct self as [d cs th]. cbn [data] in Hd.
  destruct (pie_chart_run cs th df countries year) as [k Hrun].
  eexists. eexists. eexists.
  split; [by apply Hrun|]. cbn [fig_kind fig_x fig_y].
  split; [done|]. split; [by rewrite map_fst_fmap|]. split; [by rewrite map_snd_fmap|].
  rewrite groupby_agg_keys. split; [apply NoDup_group_keys|]. split.
  - intros y -> Hy c v. rewrite (truthy_int_nonzero y Hy).
    rewrite elem_of_selected_groups. split.
    + intros (Hc & (r & Hr & Hrc) & ->). apply elem_of_filter_bool in Hr as [Hr Hry].
      split; [done|]. split; [by exists r|done].
    + intros (Hc & (r & Hr & Hrc & Hry) & ->).
      split; [done|]. split; [|done]. exists r. split; [|done].
      by apply elem_of_filter_bool.
  - intros Hyear c v.
    replace (truthy_int year) with (@None Z) by (by destruct Hyear as [-> | ->]).
    apply elem_of_selected_groups.
Qed.

Lemma pie_chart_slices_witness :
  [ObjData scenario] !! data (init 0%nat) = Some (ObjData scenario) /\
  exists fig h',
    create_pie_chart (init 0%nat) ["A"; "B"] (Some 2020) [ObjData scenario] = (Ok fig, h').
Proof.
  split; [reflexivity|].
  destruct (pie_chart_slices [ObjData scenario] (init 0%nat) scenario ["A"; "B"] (Some 2020)
              eq_refl)
    as (fig & h' & slices & Hrun & _).
  by exists fig, h'.
Defined.

(** ** No chart names a column that is not there *)

Lemma invoke_ok (df : DataFrame) (cs : string) (th : list (string * string))
    (c : chart_call) :
  (forall countries metric, c = ComparisonChart countries metric ->
     metric = "total" \/ metric = "average") ->
  exists fig k, forall (h : heap) (d : ref),
    h !! d = Some (ObjData df) ->
    invoke (mkSelf d cs th) c h = (Ok fig, h ++ k).
Proof.
  intros Hmetric.
  destruct c as [n year| |countries|country| | |n|countries year|countries metric
                |countries n]; cbn [invoke].
  - destruct (top_emitters_bar_run cs th df n year) as [k Hrun]. eauto.
  - destruct (global_trend_run cs th df) as [k Hrun]. eauto.
  - destruct (country_trends_run cs th df countries) as [k Hrun]. eauto.
  - destruct (sectoral_breakdown_run cs th df country) as [k Hrun]. eauto.
  - destruct (sectoral_trend_run cs th df) as [k Hrun]. eauto.
  - destruct (animated_map_run cs th df) as [k Hrun]. eauto.
  - destruct (growth_chart_run cs th df n) as [k Hrun]. eauto.
  - destruct (pie_chart_run cs th df countries year) as [k Hrun]. eauto.
  - destruct (comparison_chart_run cs th df countries metric) as [k Hrun]; [|eauto].
    by apply (Hmetric countries).
  - destruct (heatmap_run cs th df countries n) as [k Hrun]. eauto.
Qed.

(** X22: on a table of Observations every chart method returns a
    figure, whatever its arguments and whatever the table holds (no row
    at all, too): every column that its pandas and plotting calls name is
    in the frame it built.  The one exception is
    [create_comparison_chart] with a metric other than "total" and
    "average". *)
Theorem chart_methods_never_raise (h : heap) (self : Self) (df : DataFrame)
    (c : chart_call) :
  h !! data self = Some (ObjData df) ->
  (forall countries metric, c = ComparisonChart countries metric ->
     metric = "total" \/ metric = "average") ->
  exists fig h', invoke self c h = (Ok fig, h').
Proof.
  intros Hd Hmetric. destruct self as [d cs th]. cbn [data] in Hd.
  destruct (invoke_ok df cs th c Hmetric) as (fig & k & Hrun).
  exists fig, (h ++ k). by apply Hrun.
Qed.

Lemma chart_methods_never_raise_witness :
  [ObjData []] !! data (init 0%nat) = Some (ObjData []) /\
  exists fig h', invoke (init 0%nat) (HeatmapChart [] (-3)) [ObjData []] = (Ok fig, h').
Proof.
  split; [reflexivity|].
  refine (chart_methods_never_raise [ObjData []] (init 0%nat) [] (HeatmapChart [] (-3))
            eq_refl _).
  intros countries metric H. discriminate H.
Defined.

(** ** create_heatmap without a window *)

Lemma filter_none {A : Type} (f : A -> bool) (l : list A) :
  (forall x, x ∈ l -> f x = false) -> List.filter f l = [].
Proof.
  induction l as [|x l IH]; intros H; simpl; [done|].
  rewrite (H x) by left. apply IH. intros y Hy. apply H. by right.
Qed.

(** X21: [create_heatmap] with [n_years <= 0], with no row of a
    selected country, or with no year in the table, returns a figure
    with no rows, no columns and no cells; it does not raise. *)
Theorem heatmap_without_window (h : heap) (self : Self) (df : DataFrame)
    (countries : list string) (n : Z) :
  h !! data self = Some (ObjData df) ->
  n <= 0 \/ (forall r c, r ∈ df -> country r = Some c -> c ∉ countries) \/
  (forall r, r ∈ df -> year r = None) ->
  exists fig h',
    create_heatmap self countries n h = (Ok fig, h') /\
    fig_x fig = [] /\ fig_y fig = [] /\ fig_z fig = [].
Proof.
  intros Hd Hcase. destruct self as [d cs th]. cbn [data] in Hd.
  destruct (heatmap_run cs th df countries n) as [k Hrun].
  eexists. eexists. split; [by apply Hrun|].
  cbn [heatmap_figure fig_x fig_y fig_z].
  assert (Hempty : window_rows countries n df = []).
  { unfold window_rows. apply filter_none. intros r Hr.
    unfold in_trailing_window.
    destruct (year r) as [y|] eqn:Hy; [|done].
    destruct (heat_max_year countries df) as [m|] eqn:Hm; [|done].
    destruct Hcase as [Hn|[Hsel|Hyear]].
    - apply andb_false_iff. rewrite Z.leb_gt.
      destruct (Z.leb_spec y m); [left; lia|by right].
    - unfold selected_rows in Hr. apply elem_of_filter_bool in Hr as [Hr Hin].
      apply isin_true in Hin as (c & Hc & Hin). by destruct (Hsel r c Hr Hc).
    - unfold selected_rows in Hr. apply elem_of_filter_bool in Hr as [Hr _].
      rewrite (Hyear r Hr) in Hy. done. }
  unfold heat_years, heat_countries, heat_matrix, heat_years, heat_countries.
  by rewrite Hempty.
Qed.

Lemma heatmap_without_window_witness :
  [ObjData scenario] !! data (init 0%nat) = Some (ObjData scenario) /\
  exists fig h',
    create_heatmap (init 0%nat) ["A"; "B"] 0 [ObjData scenario] = (Ok fig, h') /\
    fig_x fig = [] /\ fig_y fig = [] /\ fig_z fig = [].
Proof.
  split; [reflexivity|].
  refine (heatmap_without_window [ObjData scenario] (init 0%nat) scenario ["A"; "B"] 0
            eq_refl _).
  left. lia.
Defined.

(** ** The stacked sectors against the global trend *)

Lemma year_sector_key (r : row) (y : Z) (s : string) :
  year_sector r = Some (y, s) <-> sector r = Some s /\ year r = Some y.
Proof. unfold year_sector. destruct (year r), (sector r); intuition congruence. Qed.

Lemma group_year_sector (y : Z) (s : string) (df : DataFrame) :
  group year_sector (y, s) df =
  List.filter (fun r => bool_decide (sector r = Some s /\ year r = Some y)) df.
Proof.
  unfold group. apply List.filter_ext. intros r. apply bool_decide_ext, year_sector_key.
Qed.

Lemma NoDup_filter_bool {A : Type} (f : A -> bool) (l : list A) :
  NoDup l -> NoDup (List.filter f l).
Proof.
  induction 1 as [|x l Hx Hl IH]; simpl; [constructor|].
  destruct (f x); [|done]. constructor; [|done].
  rewrite elem_of_filter_bool. tauto.
Qed.

(** The bands of one year are the sectors of that year's rows. *)
Lemma year_sector_keys_of_year (y : Z) (df : DataFrame) :
  List.filter (fun k : Z * string => bool_decide (k.1 = y))
              (group_keys (pair_leb Z.leb String.leb) year_sector df) ≡ₚ
  map (pair y) (group_keys String.leb sector
                  (List.filter (fun r => bool_decide (year r = Some y)) df)).
Proof.
  apply NoDup_Permutation.
  - apply NoDup_filter_bool, NoDup_group_keys.
  - change (map (pair y) ?l) with (pair y <$> l).
    apply NoDup_fmap_2; [|apply NoDup_group_keys]. intros a b. congruence.
  - intros [y' s]. rewrite elem_of_filter_bool, bool_decide_eq_true, elem_of_group_keys.
    change (map (pair y) ?l) with (pair y <$> l). rewrite list_elem_of_fmap. cbn [fst].
    split.
    + intros [(r & Hr & Hk) ->]. apply year_sector_key in Hk as [Hs Hy].
      exists s. split; [done|]. apply elem_of_group_keys. exists r. split; [|done].
      apply elem_of_filter_bool. split; [done|]. by apply bool_decide_eq_true.
    + intros (s' & [= -> ->] & Hs). apply elem_of_group_keys in Hs as (r & Hr & Hs).
      apply elem_of_filter_bool in Hr as [Hr Hy]. apply bool_decide_eq_true in Hy.
      split; [|done]. exists r. split; [done|]. by apply year_sector_key.
Qed.

Lemma bands_of_year (y : Z) (df : DataFrame) :
  (forall r, r ∈ df -> sector r <> None /\ value r <> FNaN) ->
  fsum (map snd (List.filter (fun e : Z * string * float64 => bool_decide (e.1.1 = y))
                   (groupby_agg (pair_leb Z.leb String.leb) sum_skipna year_sector value df))) =
  sum_skipna (map value (List.filter (fun r => bool_decide (year r = Some y)) df)).
Proof.
  intros Hdf.
  set (dfy := List.filter (fun r => bool_decide (year r = Some y)) df).
  assert (Hdfy : forall r, r ∈ dfy -> sector r <> None /\ value r <> FNaN).
  { intros r Hr. apply elem_of_filter_bool in Hr as [Hr _]. by apply Hdf. }
  assert (Hval : Forall (fun x => x <> FNaN) (map value dfy)).
  { apply Forall_forall. intros x Hx. change (map value dfy) with (value <$> dfy) in Hx.
    apply list_elem_of_fmap in Hx as (r & -> & Hr). by apply Hdfy. }
  rewrite (sum_skipna_fsum _ Hval).
  rewrite <- (group_sums_total String.leb sector value dfy); [|intros r Hr; by apply Hdfy|done].
  unfold groupby_agg.
  rewrite (filter_map_comm (fun e : Z * string * float64 => bool_decide (e.1.1 = y))).
  cbn [fst]. rewrite map_map. cbn [snd].
  change ((map ?f ?l).*2) with (snd <$> (f <$> l)).
  rewrite <- list_fmap_compose.
  rewrite (fsum_perm _ (map (fun k : Z * string => sum_skipna (map value (group year_sector k df)))
                            (map (pair y) (group_keys String.leb sector dfy)))).
  2:{ apply Permutation_map, year_sector_keys_of_year. }
  rewrite map_map. f_equal. apply map_ext. intros s. cbn.
  f_equal. f_equal. rewrite group_year_sector. unfold group, dfy.
  by rewrite filter_twice.
Qed.

(** X17: [create_sectoral_trend] draws one band value for every
    (year, sector) that has a row, the sum of [value] over these rows;
    when no row has a null sector or value, the band values of a year add
    up to what [create_global_trend] draws for that year. *)
Theorem sectoral_trend_stacks_to_global_trend (h : heap) (self : Self) (df : DataFrame) :
  h !! data self = Some (ObjData df) ->
  exists fig h' bands,
    create_sectoral_trend self h = (Ok fig, h') /\
    fig_kind fig = Area /\
    fig_x fig = map (fun e : Z * string * float64 => CInt e.1.1) bands /\
    fig_series fig = map (fun e : Z * string * float64 => CStr e.1.2) bands /\
    fig_y fig = map (fun e : Z * string * float64 => CFloat e.2) bands /\
    NoDup bands.*1 /\
    (forall y s v, (y, s, v) ∈ bands <->
       (exists r, r ∈ df /\ sector r = Some s /\ year r = Some y) /\
       v = sum_skipna (map value
             (List.filter (fun r => bool_decide (sector r = Some s /\ year r = Some y)) df))) /\
    ((forall r, r ∈ df -> sector r <> None /\ value r <> FNaN) ->
     forall y,
       fsum (map snd (List.filter (fun e => bool_decide (e.1.1 = y)) bands)) =
       sum_skipna (map value (List.filter (fun r => bool_decide (year r = Some y)) df))).
Proof.
  intros Hd. destruct self as [d cs th]. cbn [data] in Hd.
  destruct (sectoral_trend_run cs th df) as [k Hrun].
  eexists. eexists.
  exists (groupby_agg (pair_leb Z.leb String.leb) sum_skipna year_sector value df).
  split; [by apply Hrun|]. cbn [fig_kind fig_x fig_y fig_series].
  do 4 (split; [done|]). split; [|split].
  - rewrite groupby_agg_keys. apply NoDup_group_keys.
  - intros y s v. rewrite elem_of_groupby_agg, elem_of_group_keys, group_year_sector.
    split; intros [(r & Hr & Hk) ->]; (split; [|done]); exists r; (split; [done|]);
      by apply year_sector_key.
  - intros Hdf y. by apply bands_of_year.
Qed.

Lemma sectoral_trend_stacks_to_global_trend_witness :
  [ObjData scenario] !! data (init 0%nat) = Some (ObjData scenario) /\
  exists fig h', create_sectoral_trend (init 0%nat) [ObjData scenario] = (Ok fig, h').
Proof.
  split; [reflexivity|].
  destruct (sectoral_trend_stacks_to_global_trend [ObjData scenario] (init 0%nat) scenario
              eq_refl)
    as (fig & h' & bands & Hrun & _).
  by exists fig, h'.
Defined.

(** ** The dashboard callback *)

Import Dashboard.

Lemma step_call {A B : Type} (m : M A) (g : A -> M B) (a : A) (h h' : heap) :
  m h = (Ok a, h') -> (m ≫= g) h = g a h'.
Proof. intros H. unfold mbind, M_bind. by rewrite H. Qed.

Lemma lookup_local (h k : heap) (i : nat) (o : pyobj) :
  k !! i = Some o -> (h ++ k) !! (length h + i)%nat = Some o.
Proof. intros H. rewrite lookup_app_r by lia. by replace (length h + i - length h)%nat with i by lia. Qed.

Lemma dashboard_rows_chain countries sectors lo hi (df : DataFrame) :
  List.filter (in_year_range lo hi)
    (match truthy_list sectors with
     | Some ss => List.filter (sector_isin ss)
     | None => fun d => d
     end
       (match truthy_list countries with
        | Some cs => List.filter (isin cs)
        | None => fun d => d
        end df)) =
  dashboard_rows countries sectors lo hi df.
Proof.
  unfold dashboard_rows.
  assert (Hc : match truthy_list countries with
               | Some cs => List.filter (isin cs)
               | None => fun d => d
               end df = List.filter (fun r => chosen countries (country r)) df).
  { destruct countries as [[|c cs]|]; cbn [truthy_list chosen];
      try (symmetry; apply filter_all, Forall_forall; done). done. }
  rewrite Hc.
  assert (Hs : forall d, match truthy_list sectors with
               | Some ss => List.filter (sector_isin ss)
               | None => fun d => d
               end d = List.filter (fun r => chosen sectors (sector r)) d).
  { intros d. destruct sectors as [[|s ss]|]; cbn [truthy_list chosen];
      try (symmetry; apply filter_all, Forall_forall; done). done. }
  rewrite Hs, !filter_filter_bool.
  apply List.filter_ext. intros r. unfold in_year_range. by rewrite andb_assoc.
Qed.

(** The seven charts of one visualizer. *)
Lemma draw_all (shown : DataFrame) (hi : Z) (trend_countries : list string) :
  exists g1 g2 g3 g4 g5 g6 g7 k,
    drawn_alone shown GlobalTrend = Ok g1 /\
    drawn_alone shown (TopEmittersBar 15 (Some hi)) = Ok g2 /\
    drawn_alone shown (SectoralBreakdown None) = Ok g3 /\
    drawn_alone shown (CountryTrends trend_countries) = Ok g4 /\
    drawn_alone shown SectoralTrend = Ok g5 /\
    drawn_alone shown (GrowthRateChart 15) = Ok g6 /\
    drawn_alone shown AnimatedMap = Ok g7 /\
    forall (h : heap) (d : ref),
      h !! d = Some (ObjData shown) ->
      (global_trend ← create_global_trend (init d);
       top_emitters ← create_top_emitters_bar (init d) 15 (Some hi);
       sectoral ← create_sectoral_breakdown (init d) None;
       country_trends ← create_country_trends (init d) trend_countries;
       sectoral_trend ← create_sectoral_trend (init d);
       growth_rate ← create_growth_rate_chart (init d) 15;
       animated_map ← create_animated_map (init d);
       mret (global_trend, top_emitters, sectoral, country_trends, sectoral_trend,
             growth_rate, animated_map)) h =
      (Ok (g1, g2, g3, g4, g5, g6, g7), h ++ k).
Proof.
  set (cs := color_scale (init 0%nat)). set (th := theme_colors (init 0%nat)).
  assert (Hok : forall c,
    (forall countries metric, c = ComparisonChart countries metric ->
       metric = "total" \/ metric = "average") ->
    exists fig k, drawn_alone shown c = Ok fig /\
      forall (h : heap) (d : ref), h !! d = Some (ObjData shown) ->
        invoke (init d) c h = (Ok fig, h ++ k)).
  { intros c Hc. destruct (invoke_ok shown cs th c Hc) as (fig & k & Hrun).
    exists fig, k. split; [|exact Hrun].
    unfold drawn_alone. change (init 0%nat) with (mkSelf 0%nat cs th).
    by rewrite (Hrun [ObjData shown] 0%nat eq_refl). }
  destruct (Hok GlobalTrend) as (g1 & k1 & H1 & R1); [by intros|].
  destruct (Hok (TopEmittersBar 15 (Some hi))) as (g2 & k2 & H2 & R2); [by intros|].
  destruct (Hok (SectoralBreakdown None)) as (g3 & k3 & H3 & R3); [by intros|].
  destruct (Hok (CountryTrends trend_countries)) as (g4 & k4 & H4 & R4); [by intros|].
  destruct (Hok SectoralTrend) as (g5 & k5 & H5 & R5); [by intros|].
  destruct (Hok (GrowthRateChart 15)) as (g6 & k6 & H6 & R6); [by intros|].
  destruct (Hok AnimatedMap) as (g7 & k7 & H7 & R7); [by intros|].
  exists g1, g2, g3, g4, g5, g6, g7, (k1 ++ k2 ++ k3 ++ k4 ++ k5 ++ k6 ++ k7).
  do 7 (split; [done|]).
  intros h d Hd. cbn [invoke] in *.
  assert (Hkeep : forall k, (h ++ k) !! d = Some (ObjData shown))
    by (intros k; by apply lookup_app_l_Some).
  rewrite (step_call _ _ _ _ _ (R1 h d Hd)).
  rewrite (step_call _ _ _ _ _ (R2 _ d (Hkeep _))), <- app_assoc.
  rewrite (step_call _ _ _ _ _ (R3 _ d (Hkeep _))), <- app_assoc.
  rewrite (step_call _ _ _ _ _ (R4 _ d (Hkeep _))), <- app_assoc.
  rewrite (step_call _ _ _ _ _ (R5 _ d (Hkeep _))), <- app_assoc.
  rewrite (step_call _ _ _ _ _ (R6 _ d (Hkeep _))), <- app_assoc.
  rewrite (step_call _ _ _ _ _ (R7 _ d (Hkeep _))), <- app_assoc.
  unfold mret, M_ret. by rewrite <- !app_assoc.
Qed.

Lemma update_charts_run (d : DataFrame) (top_10 : list string)
    (countries sectors : option (list string)) (lo hi : Z) :
  exists g1 g2 g3 g4 g5 g6 g7 k,
    drawn_alone (dashboard_rows countries sectors lo hi d) GlobalTrend = Ok g1 /\
    drawn_alone (dashboard_rows countries sectors lo hi d) (TopEmittersBar 15 (Some hi)) = Ok g2 /\
    drawn_alone (dashboard_rows countries sectors lo hi d) (SectoralBreakdown None) = Ok g3 /\
    drawn_alone (dashboard_rows countries sectors lo hi d)
      (CountryTrends match truthy_list countries with
                     | Some cs => cs
                     | None => top_10
                     end) = Ok g4 /\
    drawn_alone (dashboard_rows countries sectors lo hi d) SectoralTrend = Ok g5 /\
    drawn_alone (dashboard_rows countries sectors lo hi d) (GrowthRateChart 15) = Ok g6 /\
    drawn_alone (dashboard_rows countries sectors lo hi d) AnimatedMap = Ok g7 /\
    forall (h : heap) (df : ref),
      h !! df = Some (ObjData d) ->
      update_charts df top_10 countries sectors (lo, hi) h =
      (Ok (g1, g2, g3, g4, g5, g6, g7), h ++ k).
Proof.
  destruct (draw_all (dashboard_rows countries sectors lo hi d) hi
              match truthy_list countries with
              | Some cs => cs
              | None => top_10
              end)
    as (g1 & g2 & g3 & g4 & g5 & g6 & g7 & k & H1 & H2 & H3 & H4 & H5 & H6 & H7 & Hrun).
  exists g1, g2, g3, g4, g5, g6, g7.
  rewrite <- dashboard_rows_chain in *.
  unfold update_charts. cbn [fst snd].
  destruct (truthy_list countries) as [cs|], (truthy_list sectors) as [ss|];
    eexists; (do 7 (split; [eassumption|])); intros h df Hdf; start_on_heap h;
    repeat heap_step;
    (rewrite Hrun by (apply lookup_local; reflexivity));
    apply (f_equal (pair _)), eq_sym, app_assoc.
Qed.

(** X23: [update_charts] returns, without raising, the seven charts
    that a visualizer draws of the rows that pass the filter panel: rows
    of the selected countries (all, when none is selected), of the
    selected sectors (all, when none is selected), with a year in the
    closed range.  The top emitters are those of the range's last year,
    the country trends those of the selected countries or, when none is
    selected, of [top_10_countries].  The module's table and every
    other object are left as they were. *)
Theorem update_charts_draws_selected_rows (h : heap) (df : ref) (d : DataFrame)
    (top_10 : list string) (countries sectors : option (list string)) (lo hi : Z) :
  h !! df = Some (ObjData d) ->
  exists g1 g2 g3 g4 g5 g6 g7 h',
    update_charts df top_10 countries sectors (lo, hi) h =
      (Ok (g1, g2, g3, g4, g5, g6, g7), h') /\
    (forall r o, h !! r = Some o -> h' !! r = Some o) /\
    drawn_alone (dashboard_rows countries sectors lo hi d) GlobalTrend = Ok g1 /\
    drawn_alone (dashboard_rows countries sectors lo hi d) (TopEmittersBar 15 (Some hi)) = Ok g2 /\
    drawn_alone (dashboard_rows countries sectors lo hi d) (SectoralBreakdown None) = Ok g3 /\
    drawn_alone (dashboard_rows countries sectors lo hi d)
      (CountryTrends match countries with
                     | Some (c :: cs) => c :: cs
                     | _ => top_10
                     end) = Ok g4 /\
    drawn_alone (dashboard_rows countries sectors lo hi d) SectoralTrend = Ok g5 /\
    drawn_alone (dashboard_rows countries sectors lo hi d) (GrowthRateChart 15) = Ok g6 /\
    drawn_alone (dashboard_rows countries sectors lo hi d) AnimatedMap = Ok g7.
Proof.
  intros Hdf.
  destruct (update_charts_run d top_10 countries sectors lo hi)
    as (g1 & g2 & g3 & g4 & g5 & g6 & g7 & k & H1 & H2 & H3 & H4 & H5 & H6 & H7 & Hrun).
  exists g1, g2, g3, g4, g5, g6, g7, (h ++ k).
  split; [by apply Hrun|]. split; [intros r o Hr; by apply lookup_app_l_Some|].
  do 3 (split; [done|]). split; [|done].
  by destruct countries as [[|c cs]|].
Qed.

Lemma update_charts_draws_selected_rows_witness :
  [ObjData scenario] !! 0%nat = Some (ObjData scenario) /\
  exists g1 g2 g3 g4 g5 g6 g7 h',
    update_charts 0%nat (top_10_countries scenario) None (Some ["Energy"]) (2020, 2021)
      [ObjData scenario] =
      (Ok (g1, g2, g3, g4, g5, g6, g7), h').
Proof.
  split; [reflexivity|].
  destruct (update_charts_draws_selected_rows [ObjData scenario] 0%nat scenario
              (top_10_countries scenario) None (Some ["Energy"]) 2020 2021 eq_refl)
    as (g1 & g2 & g3 & g4 & g5 & g6 & g7 & h' & Hrun & _).
  by exists g1, g2, g3, g4, g5, g6, g7, h'.
Defined.

(** X24: as soon as a sector is selected, rows without a sector count
    in none of the seven charts of [update_charts]: the charts are those
    of the table with these rows removed, even when every sector of the
    table is selected. *)
Theorem sector_selection_leaves_out_null_sectors (h1 h2 : heap) (df1 df2 : ref)
    (d : DataFrame) (top_10 : list string) (countries : option (list string))
    (s : string) (ss : list string) (lo hi : Z) :
  h1 !! df1 = Some (ObjData d) ->
  h2 !! df2 = Some (ObjData (List.filter (fun r => bool_decide (sector r <> None)) d)) ->
  (update_charts df1 top_10 countries (Some (s :: ss)) (lo, hi) h1).1 =
  (update_charts df2 top_10 countries (Some (s :: ss)) (lo, hi) h2).1.
Proof.
  intros H1 H2.
  destruct (update_charts_run d top_10 countries (Some (s :: ss)) lo hi)
    as (g1 & g2 & g3 & g4 & g5 & g6 & g7 & k & E1 & E2 & E3 & E4 & E5 & E6 & E7 & Hrun).
  destruct (update_charts_run (List.filter (fun r => bool_decide (sector r <> None)) d)
              top_10 countries (Some (s :: ss)) lo hi)
    as (g1' & g2' & g3' & g4' & g5' & g6' & g7' & k' & F1 & F2 & F3 & F4 & F5 & F6 & F7 & Hrun').
  assert (Hrows : dashboard_rows countries (Some (s :: ss)) lo hi
                    (List.filter (fun r => bool_decide (sector r <> None)) d) =
                  dashboard_rows countries (Some (s :: ss)) lo hi d).
  { unfold dashboard_rows. rewrite filter_filter_bool. apply List.filter_ext.
    intros r. cbn [chosen]. destruct (sector r) as [x|]; [done|].
    rewrite bool_decide_eq_false_2 by (intros H; by apply H).
    by rewrite andb_false_r. }
  rewrite Hrows in *.
  rewrite (Hrun h1 df1 H1), (Hrun' h2 df2 H2). cbn [fst]. congruence.
Qed.

Lemma sector_selection_leaves_out_null_sectors_witness :
  (update_charts 0%nat [] None (Some ["Energy"]) (2020, 2021)
     [ObjData (clean_data raw_with_empty_sector).1]).1 =
  (update_charts 0%nat [] None (Some ["Energy"]) (2020, 2021)
     [ObjData (List.filter (fun r => bool_decide (sector r <> None))
                           (clean_data raw_with_empty_sector).1)]).1.
Proof.
  exact (sector_selection_leaves_out_null_sectors
           [ObjData (clean_data raw_with_empty_sector).1]
           [ObjData (List.filter (fun r => bool_decide (sector r <> None))
                                 (clean_data raw_with_empty_sector).1)]
           0%nat 0%nat (clean_data raw_with_empty_sector).1 [] None "Energy" [] 2020 2021
           eq_refl eq_refl).
Defined.

(** With every sector of the file selected the 2021 row, which has no
    sector, is left out of the global trend; with the selection cleared
    it is drawn. *)
Example update_charts_null_sector :
  (fun r => match r with
            | Ok (g, _, _, _, _, _, _) => fig_x g
            | Raise _ => []
            end)
    (update_charts 0%nat [] None (Some ["Energy"]) (2020, 2021)
       [ObjData (clean_data raw_with_empty_sector).1]).1 = [CInt 2020] /\
  (fun r => match r with
            | Ok (g, _, _, _, _, _, _) => fig_x g
            | Raise _ => []
            end)
    (update_charts 0%nat [] None (Some []) (2020, 2021)
       [ObjData (clean_data raw_with_empty_sector).1]).1 = [CInt 2020; CInt 2021].
Proof. split; vm_compute; reflexivity. Qed.

(** ** The options of the dashboard's dropdowns *)

Section UniqueFacts.
Context {A : Type} `{EqDecision A}.

Lemma elem_of_unique_from (x : A) (seen l : list A) :
  x ∈ unique_from seen l <-> x ∈ l /\ x ∉ seen.
Proof.
  revert seen. induction l as [|y l IH]; intros seen; simpl.
  - split; [by intros H%elem_of_nil|by intros [H%elem_of_nil _]].
  - case_bool_decide as Hy.
    + rewrite IH, elem_of_cons. split; [tauto|].
      intros [[->|Hx] Hn]; [done|tauto].
    + rewrite !elem_of_cons, IH, elem_of_cons.
      destruct (decide (x = y)) as [->|Hne]; [tauto|]. tauto.
Qed.

Lemma NoDup_unique_from (seen l : list A) : NoDup (unique_from seen l).
Proof.
  revert seen. induction l as [|y l IH]; intros seen; simpl; [constructor|].
  case_bool_decide as Hy; [apply IH|].
  constructor; [|apply IH].
  rewrite elem_of_unique_from, elem_of_cons. tauto.
Qed.

Lemma elem_of_unique (x : A) (l : list A) : x ∈ unique l <-> x ∈ l.
Proof.
  unfold unique. rewrite elem_of_unique_from. split; [tauto|].
  intros H. split; [done|]. apply not_elem_of_nil.
Qed.

Lemma NoDup_unique (l : list A) : NoDup (unique l).
Proof. apply NoDup_unique_from. Qed.
End UniqueFacts.

Lemma existsb_present (xs : list (option string)) :
  existsb (fun x => bool_decide (x <> None)) xs = true <-> exists s, Some s ∈ xs.
Proof.
  rewrite existsb_exists. split.
  - intros (x & Hx & Hs). apply bool_decide_eq_true in Hs.
    destruct x as [s|]; [|done]. exists s. by apply list_elem_of_In.
  - intros (s & Hs). exists (Some s). split; [by apply list_elem_of_In|].
    by apply bool_decide_eq_true.
Qed.

Lemma opt_leb_names_total (a b : option string) :
  opt_leb String.leb a b = true \/ opt_leb String.leb b a = true.
Proof. destruct a, b; simpl; auto. apply String.leb_total. Qed.

Lemma opt_leb_names_trans (a b c : option string) :
  opt_leb String.leb a b = true -> opt_leb String.leb b c = true ->
  opt_leb String.leb a c = true.
Proof. destruct a, b, c; simpl; try done. apply string_leb_trans. Qed.

(** The options of one dropdown, for a column of the table. *)
Lemma sorted_unique_column (col : list (option string)) :
  (None ∈ col /\ (exists s, Some s ∈ col) ->
   exists msg, sorted (unique col) = Raise (TypeError msg)) /\
  (None ∉ col \/ (forall s, Some s ∉ col) ->
   exists names, sorted (unique col) = Ok names /\
     NoDup names /\
     StronglySorted (fun a b => opt_leb String.leb a b = true) names /\
     forall x, x ∈ names <-> x ∈ col).
Proof.
  unfold sorted. split.
  - intros [Hnull Hname].
    rewrite bool_decide_eq_true_2 by (by apply elem_of_unique).
    replace (existsb _ _) with true; [eauto|].
    symmetry. apply existsb_present. destruct Hname as [s Hs].
    exists s. by apply elem_of_unique.
  - intros Hcase.
    replace (bool_decide (None ∈ unique col) && existsb _ (unique col)) with false.
    + eexists. split; [reflexivity|]. split; [|split].
      * apply NoDup_sort_by, NoDup_unique.
      * apply (sort_by_strongly (opt_leb String.leb));
          [apply opt_leb_names_total|apply opt_leb_names_trans].
      * intros x. by rewrite elem_of_sort_by, elem_of_unique.
    + symmetry. apply andb_false_iff. destruct Hcase as [Hnull|Hname].
      * left. apply bool_decide_eq_false. by rewrite elem_of_unique.
      * right. apply not_true_is_false. rewrite existsb_present.
        intros (s & Hs). apply (Hname s). by apply elem_of_unique.
Qed.

Lemma elem_of_column {A B : Type} (f : A -> B) (x : B) (l : list A) :
  x ∈ map f l <-> exists r, r ∈ l /\ f r = x.
Proof.
  change (map f l) with (f <$> l). rewrite list_elem_of_fmap.
  split; intros (r & H1 & H2); exists r; by split.
Qed.

(** X25: the options of the sector dropdown,
    [sorted(df['sector'].unique())], cannot be computed for a table that
    has a row with a sector and a row without: [sorted] raises TypeError.
    For a table without null sectors they are the table's sectors, each
    once, ascending.  The same holds of the country dropdown. *)
Theorem dropdown_options_need_one_type (df : DataFrame) :
  ((exists r, r ∈ df /\ sector r = None) /\ (exists r, r ∈ df /\ sector r <> None) ->
   exists msg, DashboardOptions.sectors df = Raise (TypeError msg)) /\
  ((forall r, r ∈ df -> sector r <> None) ->
   exists names, DashboardOptions.sectors df = Ok (Some <$> names) /\
     NoDup names /\
     StronglySorted (fun a b => String.leb a b = true) names /\
     forall s, s ∈ names <-> exists r, r ∈ df /\ sector r = Some s) /\
  ((exists r, r ∈ df /\ country r = None) /\ (exists r, r ∈ df /\ country r <> None) ->
   exists msg, DashboardOptions.countries df = Raise (TypeError msg)) /\
  ((forall r, r ∈ df -> country r <> None) ->
   exists names, DashboardOptions.countries df = Ok (Some <$> names) /\
     NoDup names /\
     StronglySorted (fun a b => String.leb a b = true) names /\
     forall s, s ∈ names <-> exists r, r ∈ df /\ country r = Some s).
Proof.
  assert (Hcol : forall (f : row -> option string),
    ((exists r, r ∈ df /\ f r = None) /\ (exists r, r ∈ df /\ f r <> None) ->
     exists msg, sorted (unique (map f df)) = Raise (TypeError msg)) /\
    ((forall r, r ∈ df -> f r <> None) ->
     exists names, sorted (unique (map f df)) = Ok (Some <$> names) /\
       NoDup names /\
       StronglySorted (fun a b => String.leb a b = true) names /\
       forall s, s ∈ names <-> exists r, r ∈ df /\ f r = Some s)).
  { intros f. destruct (sorted_unique_column (map f df)) as [Hraise Hok]. split.
    - intros [(r1 & Hr1 & Hn) (r2 & Hr2 & Hs)]. apply Hraise. split.
      + apply elem_of_column. by exists r1.
      + destruct (f r2) as [s|] eqn:E; [|done]. exists s. apply elem_of_column. by exists r2.
    - intros Hall. destruct Hok as (names & Hsorted & Hnd & Hord & Hin).
      { left. rewrite elem_of_column. intros (r & Hr & Hn). by apply (Hall r). }
      exists (omap id names).
      assert (Hsome : Some <$> omap id names = names).
      { assert (Hno : None ∉ names).
        { rewrite Hin, elem_of_column. intros (r & Hr & Hn). by apply (Hall r). }
        clear -Hno. induction names as [|[s|] names IH]; simpl.
        - done.
        - f_equal. apply IH. intros H. apply Hno. by right.
        - exfalso. apply Hno. left. }
      rewrite Hsome. split; [done|]. split; [|split].
      + rewrite <- Hsome in Hnd. by apply NoDup_fmap_1 in Hnd.
      + rewrite <- Hsome in Hord.
        by apply (StronglySorted_fmap_inv Some
                    (fun a b => opt_leb String.leb a b = true)) in Hord.
      + intros s. rewrite <- (elem_of_column f (Some s) df), <- Hin.
        rewrite list_elem_of_omap. split.
        * by intros ([s'|] & Hx & [= ->]).
        * intros Hs. by exists (Some s). }
  unfold DashboardOptions.sectors, DashboardOptions.countries.
  destruct (Hcol sector) as [H1 H2]. destruct (Hcol country) as [H3 H4]. done.
Qed.

Example sector_options_with_null :
  DashboardOptions.sectors (clean_data raw_with_empty_sector).1 =
  Raise (TypeError "'<' not supported between instances of 'str' and 'float'").
Proof. vm_compute. reflexivity. Qed.
